(** * Outcome Canada: the derived-metrics engine

    A shallow embedding of [canada-data/fetch_minister_data.py] and of the
    data readers of [build_site.py], with the properties the specification
    states about them.

    Conventions of the embedding:
    - a Python [float] is an IEEE-754 binary64 number, Rocq's primitive
      [float]; [x / y] raises [ZeroDivisionError] on a zero divisor;
    - a Python [str] is a [string] of bytes (ASCII text; the two arrows are
      written in UTF-8);
    - a computation that may raise returns [Py.res]: [Ok v] or [Raise e];
    - a [dict] keyed by strings is a [gmap string _]; dictionaries with a
      fixed set of keys (observations, configurations, results) are records;
    - a value that is a [str] or [None] is an [option string];
    - an exception is named by the class an [except] clause of the program
      can tell it by: a [UnicodeDecodeError] is a [ValueError];
    - what the program takes from outside (the data service, the file
      system, the functions of the language) is a parameter;
    - [print] calls are left out. *)

From Stdlib Require Import ZArith String Ascii Bool Lia Floats Uint63 DecimalString Sorted.
From stdpp Require Import base option list gmap strings.

Local Open Scope string_scope.
Local Open Scope Z_scope.

(** ** Python primitives *)

Module Py.

Inductive exn : Type :=
| IndexError
| KeyError
| ValueError
| TypeError
| ZeroDivisionError
| AttributeError
| OverflowError
| ConnectionError
| OSError
| CsvError.

Inductive res (A : Type) : Type :=
| Ok (a : A)
| Raise (e : exn).
Arguments Ok {A} a.
Arguments Raise {A} e.

Definition bind {A B} (m : res A) (k : A -> res B) : res B :=
  match m with
  | Ok a => k a
  | Raise e => Raise e
  end.

(** [l[i]] with Python's negative indices. *)
Definition getitem {A} (l : list A) (i : Z) : res A :=
  let n := Z.of_nat (length l) in
  let j := if i <? 0 then i + n else i in
  if (0 <=? j) && (j <? n)
  then match l !! Z.to_nat j with
       | Some x => Ok x
       | None => Raise IndexError
       end
  else Raise IndexError.

Definition len {A} (l : list A) : Z := Z.of_nat (length l).

(** [s[a:b]] for [0 <= a <= b]. *)
Definition slice (a b : nat) (s : string) : string :=
  String.substring a (b - a) s.

(** Float comparisons and arithmetic. *)
Definition feq (x y : float) : bool := PrimFloat.eqb x y.
Definition fne (x y : float) : bool := negb (PrimFloat.eqb x y).
Definition fge (x y : float) : bool := PrimFloat.leb y x.
Definition fle (x y : float) : bool := PrimFloat.leb x y.
Definition fgt (x y : float) : bool := PrimFloat.ltb y x.

Definition truediv (x y : float) : res float :=
  if feq y 0%float then Raise ZeroDivisionError else Ok (x / y)%float.

(** The running totals [total = 0; for ...: total += x]: the additions from
    left to right, starting from the integer [0] (as a float, [0.0]). *)
Definition sum (xs : list float) : float :=
  fold_left PrimFloat.add xs 0%float.

(** A small integer in a float operation ([x / n]): the float of the same
    value. *)
Definition float_of_int (n : Z) : float := PrimFloat.of_uint63 (Uint63.of_Z n).

(** Characters. *)
Definition code (c : ascii) : Z := Z.of_N (N_of_ascii c).
Definition is_digit (c : ascii) : bool := (48 <=? code c) && (code c <=? 57).
Definition digit_val (c : ascii) : Z := code c - 48.
(** ASCII white space as [str.strip] and [int] see it. *)
Definition is_space (c : ascii) : bool :=
  ((9 <=? code c) && (code c <=? 13)) || ((28 <=? code c) && (code c <=? 32)).

Fixpoint lstrip (s : string) : string :=
  match s with
  | String c s' => if is_space c then lstrip s' else s
  | EmptyString => EmptyString
  end.

Definition rev_string (s : string) : string :=
  string_of_list_ascii (rev (list_ascii_of_string s)).

Definition strip (s : string) : string :=
  rev_string (lstrip (rev_string (lstrip s))).

Definition nonempty (s : string) : bool :=
  match s with EmptyString => false | _ => true end.

(** Decimal digits with single underscores between them, as [int]
    accepts. [acc] is the value read so far; [after_digit] tells whether
    the previous character was a digit. *)
Fixpoint int_digits (s : string) (acc : Z) (after_digit : bool) : option Z :=
  match s with
  | EmptyString => if after_digit then Some acc else None
  | String c s' =>
      if is_digit c then int_digits s' (10 * acc + digit_val c) true
      else if Ascii.eqb c "_" then
             if after_digit then int_digits s' acc false else None
      else None
  end.

(** [int(s)] for a string [s]. *)
Definition int (s : string) : res Z :=
  let body := strip s in
  let '(neg, ds) :=
    match body with
    | String "-" r => (true, r)
    | String "+" r => (false, r)
    | _ => (false, body)
    end in
  match int_digits ds 0 false with
  | Some n => Ok (if neg then - n else n)
  | None => Raise ValueError
  end.

(** [str(n)] for an integer [n]. *)
Definition str (n : Z) : string :=
  DecimalString.NilZero.string_of_int (Z.to_int n).

(** *** Calendar dates ([datetime]) *)

Record date : Type := mkdate { year : Z; month : Z; day : Z }.

Definition is_leap (y : Z) : bool :=
  (y mod 4 =? 0) && (negb (y mod 100 =? 0) || (y mod 400 =? 0)).

Definition days_in_month (y m : Z) : Z :=
  if m =? 2 then (if is_leap y then 29 else 28)
  else if (m =? 4) || (m =? 6) || (m =? 9) || (m =? 11) then 30
  else 31.

Definition days_before_month (y m : Z) : Z :=
  let base :=
    match m with
    | 1 => 0 | 2 => 31 | 3 => 59 | 4 => 90 | 5 => 120 | 6 => 151
    | 7 => 181 | 8 => 212 | 9 => 243 | 10 => 273 | 11 => 304 | _ => 334
    end in
  if (2 <? m) && is_leap y then base + 1 else base.

Definition days_before_year (y : Z) : Z :=
  let p := y - 1 in
  p * 365 + p / 4 - p / 100 + p / 400.

Definition toordinal (d : date) : Z :=
  days_before_year (year d) + days_before_month (year d) (month d) + day d.

(** [(d1 - d2).days] *)
Definition days_between (d1 d2 : date) : Z := toordinal d1 - toordinal d2.

(** The directive [%Y]: exactly four digits. *)
Definition parse_Y (s : string) : option (Z * string) :=
  match s with
  | String a (String b (String c (String d rest))) =>
      if is_digit a && is_digit b && is_digit c && is_digit d
      then Some (1000 * digit_val a + 100 * digit_val b
                 + 10 * digit_val c + digit_val d, rest)
      else None
  | _ => None
  end.

(** The directive [%m] on a whole token: [1[0-2]|0[1-9]|[1-9]]. *)
Definition parse_m (tok : string) : option Z :=
  match tok with
  | String a EmptyString =>
      if is_digit a && negb (Ascii.eqb a "0") then Some (digit_val a) else None
  | String a (String b EmptyString) =>
      if is_digit a && is_digit b then
        let v := 10 * digit_val a + digit_val b in
        if (1 <=? v) && (v <=? 12) then Some v else None
      else None
  | _ => None
  end.

(** The directive [%d] on a whole token:
    [3[01]|[12]\d|0[1-9]|[1-9]| [1-9]]. *)
Definition parse_d (tok : string) : option Z :=
  match tok with
  | String a EmptyString =>
      if is_digit a && negb (Ascii.eqb a "0") then Some (digit_val a) else None
  | String a (String b EmptyString) =>
      if Ascii.eqb a " " then
        (if is_digit b && negb (Ascii.eqb b "0") then Some (digit_val b) else None)
      else if is_digit a && is_digit b then
        let v := 10 * digit_val a + digit_val b in
        if (1 <=? v) && (v <=? 31) then Some v else None
      else None
  | _ => None
  end.

(** Splits at the first ["-"]. *)
Fixpoint split_dash (s : string) : option (string * string) :=
  match s with
  | EmptyString => None
  | String c s' =>
      if Ascii.eqb c "-" then Some (EmptyString, s')
      else match split_dash s' with
           | Some (a, b) => Some (String c a, b)
           | None => None
           end
  end.

(** [datetime.strptime(s, "%Y-%m-%d")]: the three fields must cover the
    whole string and name a day of the calendar (years from 1). *)
Definition strptime_ymd (s : string) : res date :=
  match parse_Y s with
  | Some (y, String "-" rest) =>
      match split_dash rest with
      | Some (mtok, dtok) =>
          match parse_m mtok, parse_d dtok with
          | Some m, Some d =>
              if (1 <=? y) && (d <=? days_in_month y m)
              then Ok (mkdate y m d)
              else Raise ValueError
          | _, _ => Raise ValueError
          end
      | None => Raise ValueError
      end
  | _ => Raise ValueError
  end.

End Py.

Import Py.

Notation "x <- m ;; k" := (Py.bind m (fun x => k))
  (at level 100, m at next level, right associativity).

(** ** [canada-data/fetch_minister_data.py]: cadence and lookback *)

Module FetchMinisterData.

(** One point of a fetched vector: [{"date": ..., "value": ...}]. *)
Record observation : Type := mkobs { date : string; value : float }.

(** An entry of [config["vectors"]]; [label] and [role] are optional keys. *)
Record vector : Type := mkvector {
  id : string;
  periods : Z;
  label : option string;
  role : option string
}.

(** An entry of [MINISTER_VECTOR_MAP]. *)
Record config : Type := mkconfig {
  vectors : list vector;
  compute : string;
  direction : string;
  format_value : string;
  scalar : option float;
  population_vectors : option (list vector);
  period_format : option string
}.

(** The block a compute function returns. *)
Record latest : Type := mklatest {
  out_value : string;
  detail : string;
  detail_color : string;
  period : string
}.

Definition format_period (date_str : string) (is_quarterly : bool) : res string :=
  if is_quarterly then
    let year := slice 0 4 date_str in
    month <- int (slice 5 7 date_str);;
    let quarter := (month - 1) / 3 + 1 in
    Ok (year ++ "-Q" ++ str quarter)
  else Ok (slice 0 7 date_str).

Definition is_quarterly (data : list observation) : res bool :=
  if len data <? 2 then Ok false
  else
    o1 <- getitem data (-1);;
    d1 <- strptime_ymd (slice 0 10 (date o1));;
    o2 <- getitem data (-2);;
    d2 <- strptime_ymd (slice 0 10 (date o2));;
    Ok (60 <? days_between d1 d2).

Definition is_annual (data : list observation) : res bool :=
  if len data <? 2 then Ok false
  else
    o1 <- getitem data (-1);;
    d1 <- strptime_ymd (slice 0 10 (date o1));;
    o2 <- getitem data (-2);;
    d2 <- strptime_ymd (slice 0 10 (date o2));;
    Ok (300 <? days_between d1 d2).

Definition get_yoy_index (data : list observation) : res (option Z) :=
  a <- is_annual data;;
  if a then Ok (if 2 <=? len data then Some (-2) else None)
  else
    q <- is_quarterly data;;
    if q then Ok (if 5 <=? len data then Some (-5) else None)
    else Ok (if 13 <=? len data then Some (-13) else None).

(** [all_data.get(k)] followed by the test [if not data]: the list when it
    is there and not empty. [k] is [None] when no vector carried the label
    that was looked for. *)
Definition get_data (all_data : gmap string (list observation))
    (k : option string) : option (list observation) :=
  match k with
  | Some k =>
      match all_data !! k with
      | Some (o :: l) => Some (o :: l)
      | _ => None
      end
  | None => None
  end.

(** [data and len(data) >= abs(yoy_idx)] *)
Definition long_enough (data : option (list observation)) (yoy_idx : Z) : bool :=
  match data with
  | Some (o :: l) => Z.abs yoy_idx <=? len (o :: l)
  | _ => false
  end.

Section Formatting.

(** [template.format(x)] for a float [x]: Python's [str.format], which
    the program takes from the language. [str_format] is the text it
    returns and [format_raises] the exception it raises instead, if any: a
    configured template can name an argument that is not there (["{1}"]:
    [IndexError], ["{x}"]: [KeyError]) or a presentation a float does not
    have (["{:d}"]: [ValueError]). An f-string [f"{x:.1f}"] is [str_format]
    on ["{:.1f}"], a template written in the program, which takes every
    float. *)
Variable str_format : string -> float -> string.
Variable format_raises : string -> float -> option exn.

(** The built-in [sum] on a list of floats that is not empty. CPython adds
    from left to right and, from version 3.12 on, carries a compensation
    term, so the last bits depend on the interpreter. *)
Variable float_sum : list float -> float.

(** [config["format_value"].format(x)] *)
Definition format_with (template : string) (x : float) : res string :=
  match format_raises template x with
  | Some e => Raise e
  | None => Ok (str_format template x)
  end.

(** [sum(xs)]: the integer [0] when there is nothing to add. *)
Definition builtin_sum (xs : list float) : float :=
  match xs with
  | [] => 0%float
  | _ :: _ => float_sum xs
  end.

Definition up_arrow : string := "↑".
Definition down_arrow : string := "↓".

Definition format_detail (change : float) (unit direction : string)
  : string * string :=
  let detail :=
    if String.eqb unit "pp" then
      let arrow := if fge change 0%float then up_arrow else down_arrow in
      arrow ++ " " ++ str_format "{:.1f}" (abs change) ++ " pp year over year"
    else
      let arrow := if fge change 0%float then up_arrow else down_arrow in
      arrow ++ " " ++ str_format "{:.1f}" (abs change) ++ "% year over year" in
  let color :=
    if String.eqb direction "positive" then
      (if fge change 0%float then "positive" else "negative")
    else if String.eqb direction "negative" then
      (if fle change 0%float then "positive" else "negative")
    else "neutral" in
  (detail, color).

(** [data[-1]["date"][:4] if is_annual(data) else
    format_period(data[-1]["date"], is_quarterly(data))] *)
Definition period_of (data : list observation) (last_date : string) : res string :=
  a <- is_annual data;;
  if a then Ok (slice 0 4 last_date)
  else q <- is_quarterly data;; format_period last_date q.

Definition compute_rate_yoy_pp (cfg : config)
    (all_data : gmap string (list observation)) : res (option latest) :=
  vec <- getitem (vectors cfg) 0;;
  match get_data all_data (Some (id vec)) with
  | None => Ok None
  | Some data =>
      if len data <? 2 then Ok None
      else
        o <- getitem data (-1);;
        let latest_val := value o in
        yoy_idx <- get_yoy_index data;;
        match yoy_idx with
        | None => Ok None
        | Some yoy_idx =>
            y <- getitem data yoy_idx;;
            let yoy_val := value y in
            let pp_change := (latest_val - yoy_val)%float in
            let '(detail, color) := format_detail pp_change "pp" (direction cfg) in
            period <- period_of data (date o);;
            out <- format_with (format_value cfg) latest_val;;
            Ok (Some {| out_value := out;
                        detail := detail;
                        detail_color := color;
                        period := period |})
        end
  end.

(** [config.get("scalar", 1)] *)
Definition scalar_of (cfg : config) : float :=
  match scalar cfg with Some s => s | None => 1%float end.

Definition compute_level_yoy_pct (cfg : config)
    (all_data : gmap string (list observation)) : res (option latest) :=
  vec <- getitem (vectors cfg) 0;;
  match get_data all_data (Some (id vec)) with
  | None => Ok None
  | Some data =>
      if len data <? 2 then Ok None
      else
        o <- getitem data (-1);;
        let latest_val := value o in
        display_val <- truediv latest_val (scalar_of cfg);;
        yoy_idx <- get_yoy_index data;;
        match yoy_idx with
        | None => Ok None
        | Some yoy_idx =>
            y <- getitem data yoy_idx;;
            let yoy_val := value y in
            pct_change <-
              (if fne yoy_val 0%float then
                 q <- truediv latest_val yoy_val;;
                 Ok ((q - 1) * 100)%float
               else Ok 0%float);;
            let '(detail, color) := format_detail pct_change "%" (direction cfg) in
            period <- period_of data (date o);;
            out <- format_with (format_value cfg) display_val;;
            Ok (Some {| out_value := out;
                        detail := detail;
                        detail_color := color;
                        period := period |})
        end
  end.

Definition compute_level_qoq_pct (cfg : config)
    (all_data : gmap string (list observation)) : res (option latest) :=
  vec <- getitem (vectors cfg) 0;;
  match get_data all_data (Some (id vec)) with
  | None => Ok None
  | Some data =>
      if len data <? 2 then Ok None
      else
        o <- getitem data (-1);;
        let latest_val := value o in
        display_val <- truediv latest_val (scalar_of cfg);;
        p <- getitem data (-2);;
        let prev_val := value p in
        pct_change <-
          (if fne prev_val 0%float then
             q <- truediv latest_val prev_val;;
             Ok ((q - 1) * 100)%float
           else Ok 0%float);;
        let color :=
          if String.eqb (direction cfg) "positive" then
            (if fge pct_change 0%float then "positive" else "negative")
          else if String.eqb (direction cfg) "negative" then
            (if fle pct_change 0%float then "positive" else "negative")
          else "neutral" in
        let arrow := if fge pct_change 0%float then up_arrow else down_arrow in
        let detail :=
          arrow ++ " " ++ str_format "{:.1f}" (abs pct_change)
                ++ "% quarter over quarter" in
        period <- format_period (date o) true;;
        out <- format_with (format_value cfg) display_val;;
        Ok (Some {| out_value := out;
                    detail := detail;
                    detail_color := color;
                    period := period |})
  end.

Definition compute_count_yoy_pct (cfg : config)
    (all_data : gmap string (list observation)) : res (option latest) :=
  compute_level_yoy_pct cfg all_data.

(** The loop that picks the ids of the two labelled vectors;
    [v["label"]] raises [KeyError] on a vector without label. *)
Fixpoint find_labels (la lb : string) (vs : list vector)
    (acc : option string * option string)
  : res (option string * option string) :=
  match vs with
  | [] => Ok acc
  | v :: vs' =>
      match label v with
      | None => Raise KeyError
      | Some l =>
          if String.eqb l la then find_labels la lb vs' (Some (id v), snd acc)
          else if String.eqb l lb then find_labels la lb vs' (fst acc, Some (id v))
          else find_labels la lb vs' acc
      end
  end.

Definition compute_share_pct (cfg : config)
    (all_data : gmap string (list observation)) : res (option latest) :=
  ids <- find_labels "total_exports" "us_exports" (vectors cfg) (None, None);;
  let '(total_vec, us_vec) := ids in
  match get_data all_data total_vec, get_data all_data us_vec with
  | Some total_data, Some us_data =>
      ot <- getitem total_data (-1);;
      ou <- getitem us_data (-1);;
      let latest_total := value ot in
      let latest_us := value ou in
      if feq latest_total 0%float then Ok None
      else
        q <- truediv latest_us latest_total;;
        let share := ((1 - q) * 100)%float in
        yoy_idx <- get_yoy_index total_data;;
        dc <-
          match yoy_idx with
          | Some yoy_idx =>
              if Z.abs yoy_idx <=? len us_data then
                pt <- getitem total_data yoy_idx;;
                pu <- getitem us_data yoy_idx;;
                let prev_total := value pt in
                let prev_us := value pu in
                prev_share <-
                  (if fne prev_total 0%float then
                     pq <- truediv prev_us prev_total;;
                     Ok ((1 - pq) * 100)%float
                   else Ok 0%float);;
                let pp_change := (share - prev_share)%float in
                Ok (format_detail pp_change "pp" (direction cfg))
              else Ok ("", "neutral")
          | None => Ok ("", "neutral")
          end;;
        let '(detail, color) := dc in
        qt <- is_quarterly total_data;;
        period <- format_period (date ot) qt;;
        out <- format_with (format_value cfg) share;;
        Ok (Some {| out_value := out;
                    detail := detail;
                    detail_color := color;
                    period := period |})
  | _, _ => Ok None
  end.

Definition compute_wage_gap (cfg : config)
    (all_data : gmap string (list observation)) : res (option latest) :=
  ids <- find_labels "male_wage" "female_wage" (vectors cfg) (None, None);;
  let '(male_vec, female_vec) := ids in
  match get_data all_data male_vec, get_data all_data female_vec with
  | Some male_data, Some female_data =>
      om <- getitem male_data (-1);;
      o_f <- getitem female_data (-1);;
      let male_val := value om in
      let female_val := value o_f in
      if feq male_val 0%float then Ok None
      else
        q <- truediv (male_val - female_val)%float male_val;;
        let gap := (q * 100)%float in
        yoy_idx <- get_yoy_index male_data;;
        dc <-
          match yoy_idx with
          | Some yoy_idx =>
              if Z.abs yoy_idx <=? len female_data then
                pm <- getitem male_data yoy_idx;;
                pf <- getitem female_data yoy_idx;;
                let prev_male := value pm in
                let prev_female := value pf in
                prev_gap <-
                  (if fne prev_male 0%float then
                     pq <- truediv (prev_male - prev_female)%float prev_male;;
                     Ok (pq * 100)%float
                   else Ok 0%float);;
                let pp_change := (gap - prev_gap)%float in
                Ok (format_detail pp_change "pp" (direction cfg))
              else Ok ("", "neutral")
          | None => Ok ("", "neutral")
          end;;
        let '(detail, color) := dc in
        a <- is_annual male_data;;
        period <- (if a then Ok (slice 0 4 (date om))
                   else format_period (date om) false);;
        out <- format_with (format_value cfg) gap;;
        Ok (Some {| out_value := out;
                    detail := detail;
                    detail_color := color;
                    period := period |})
  | _, _ => Ok None
  end.

(** The loops [for v in vs: data = all_data.get(v["id"]); if not data:
    return None; xs.append(data[-1]["value"])]: [None] stands for the
    early [return None]. *)
Fixpoint latest_values (all_data : gmap string (list observation))
    (vs : list vector) : res (option (list float)) :=
  match vs with
  | [] => Ok (Some [])
  | v :: vs' =>
      match get_data all_data (Some (id v)) with
      | None => Ok None
      | Some data =>
          o <- getitem data (-1);;
          rest <- latest_values all_data vs';;
          Ok (match rest with
              | Some xs => Some (value o :: xs)
              | None => None
              end)
      end
  end.

(** The loops over the year-ago points: [None] stands for the [break]
    taken at a series that is missing or shorter than [abs(yoy_idx)]. *)
Fixpoint prev_values (all_data : gmap string (list observation))
    (vs : list vector) (yoy_idx : Z) : res (option (list float)) :=
  match vs with
  | [] => Ok (Some [])
  | v :: vs' =>
      match all_data !! id v with
      | Some data =>
          if long_enough (Some data) yoy_idx then
            p <- getitem data yoy_idx;;
            rest <- prev_values all_data vs' yoy_idx;;
            Ok (match rest with
                | Some xs => Some (value p :: xs)
                | None => None
                end)
          else Ok None
      | None => Ok None
      end
  end.

(** [sum(v * w for v, w in zip(values, weights))] *)
Definition weighted_sum (values weights : list float) : float :=
  builtin_sum (zip_with PrimFloat.mul values weights).

(** [sum(weights)]: without population vectors the weights are the
    integers [1], which add up to their number. *)
Definition total_weight_of (cfg : config) (weights : list float) : float :=
  match population_vectors cfg with
  | Some _ => builtin_sum weights
  | None => float_of_int (len weights)
  end.

Definition compute_composite_avg (cfg : config)
    (all_data : gmap string (list observation)) : res (option latest) :=
  vals <- latest_values all_data (vectors cfg);;
  match vals with
  | None => Ok None
  | Some values =>
      ws <-
        match population_vectors cfg with
        | Some pvs => latest_values all_data pvs
        | None => Ok (Some (replicate (length values) 1%float))
        end;;
      match ws with
      | None => Ok None
      | Some weights =>
          let total_weight := total_weight_of cfg weights in
          if feq total_weight 0%float then Ok None
          else
            avg <- truediv (weighted_sum values weights) total_weight;;
            v0 <- getitem (vectors cfg) 0;;
            match all_data !! id v0 with
            | None => Raise TypeError
            | Some ref_data =>
                yoy_idx <- get_yoy_index ref_data;;
                dc <-
                  match yoy_idx with
                  | Some yoy_idx =>
                      pv <- prev_values all_data (vectors cfg) yoy_idx;;
                      match pv with
                      | Some (x :: xs) =>
                          prev_avg <- truediv (weighted_sum (x :: xs) weights)
                                              total_weight;;
                          let pp_change := (avg - prev_avg)%float in
                          Ok (format_detail pp_change "pp" (direction cfg))
                      | _ => Ok ("", "neutral")
                      end
                  | None => Ok ("", "neutral")
                  end;;
                let '(detail, color) := dc in
                o <- getitem ref_data (-1);;
                q <- is_quarterly ref_data;;
                period <- format_period (date o) q;;
                out <- format_with (format_value cfg) avg;;
                Ok (Some {| out_value := out;
                            detail := detail;
                            detail_color := color;
                            period := period |})
            end
      end
  end.

(** The running totals [total += data[-1]["value"]] and
    [prev_total += data[yoy_idx]["value"]] add the collected values from
    left to right, starting from [0]: [Py.sum] of the list. *)
Definition compute_sum_yoy_pct (cfg : config)
    (all_data : gmap string (list observation)) : res (option latest) :=
  vals <- latest_values all_data (vectors cfg);;
  match vals with
  | None => Ok None
  | Some values =>
      let total := Py.sum values in
      v0 <- getitem (vectors cfg) 0;;
      match all_data !! id v0 with
      | None => Raise TypeError
      | Some ref_data =>
          yoy_idx <- get_yoy_index ref_data;;
          dc <-
            match yoy_idx with
            | Some yoy_idx =>
                pv <- prev_values all_data (vectors cfg) yoy_idx;;
                match pv with
                | Some xs =>
                    let prev_total := Py.sum xs in
                    if fne prev_total 0%float then
                      q <- truediv total prev_total;;
                      let pct_change := ((q - 1) * 100)%float in
                      Ok (format_detail pct_change "%" (direction cfg))
                    else Ok ("", "neutral")
                | None => Ok ("", "neutral")
                end
            | None => Ok ("", "neutral")
            end;;
          let '(detail, color) := dc in
          o <- getitem ref_data (-1);;
          q <- is_quarterly ref_data;;
          period <- format_period (date o) q;;
          out <- format_with (format_value cfg) total;;
          Ok (Some {| out_value := out;
                      detail := detail;
                      detail_color := color;
                      period := period |})
      end
  end.

(** [[v for v in config["vectors"] if v.get("role") == r]] *)
Definition with_role (r : string) (vs : list vector) : list vector :=
  List.filter (fun v => match role v with
                        | Some r' => String.eqb r' r
                        | None => false
                        end) vs.

Definition compute_combined_rate (cfg : config)
    (all_data : gmap string (list observation)) : res (option latest) :=
  let num_vecs := with_role "numerator" (vectors cfg) in
  let den_vecs := with_role "denominator" (vectors cfg) in
  match num_vecs, den_vecs with
  | [], _ | _, [] => Ok None
  | n0 :: _, _ :: _ =>
      nums <- latest_values all_data num_vecs;;
      match nums with
      | None => Ok None
      | Some nvals =>
          dens <- latest_values all_data den_vecs;;
          match dens with
          | None => Ok None
          | Some dvals =>
              let num_total := Py.sum nvals in
              let den_total := Py.sum dvals in
              if feq den_total 0%float then Ok None
              else
                q <- truediv num_total den_total;;
                let rate := (q * 100)%float in
                match all_data !! id n0 with
                | None => Raise TypeError
                | Some ref_data =>
                    yoy_idx <- get_yoy_index ref_data;;
                    dc <-
                      match yoy_idx with
                      | Some yoy_idx =>
                          pn <- prev_values all_data num_vecs yoy_idx;;
                          pd <- prev_values all_data den_vecs yoy_idx;;
                          match pn, pd with
                          | Some pns, Some pds =>
                              let prev_num := Py.sum pns in
                              let prev_den := Py.sum pds in
                              if fne prev_den 0%float then
                                pq <- truediv prev_num prev_den;;
                                let prev_rate := (pq * 100)%float in
                                let pp_change := (rate - prev_rate)%float in
                                Ok (format_detail pp_change "pp" (direction cfg))
                              else Ok ("", "neutral")
                          | _, _ => Ok ("", "neutral")
                          end
                      | None => Ok ("", "neutral")
                      end;;
                    let '(detail, color) := dc in
                    o <- getitem ref_data (-1);;
                    qr <- is_quarterly ref_data;;
                    period <- format_period (date o) qr;;
                    out <- format_with (format_value cfg) rate;;
                    Ok (Some {| out_value := out;
                                detail := detail;
                                detail_color := color;
                                period := period |})
                end
          end
      end
  end.

(** The registry [COMPUTE_FUNCTIONS]. *)
Definition COMPUTE_FUNCTIONS (name : string)
  : option (config -> gmap string (list observation) -> res (option latest)) :=
  if String.eqb name "rate_yoy_pp" then Some compute_rate_yoy_pp
  else if String.eqb name "level_yoy_pct" then Some compute_level_yoy_pct
  else if String.eqb name "level_qoq_pct" then Some compute_level_qoq_pct
  else if String.eqb name "count_yoy_pct" then Some compute_count_yoy_pct
  else if String.eqb name "share_pct" then Some compute_share_pct
  else if String.eqb name "wage_gap" then Some compute_wage_gap
  else if String.eqb name "composite_avg" then Some compute_composite_avg
  else if String.eqb name "sum_yoy_pct" then Some compute_sum_yoy_pct
  else if String.eqb name "combined_rate" then Some compute_combined_rate
  else None.

End Formatting.

(** *** The fetch layer

    The data service is an oracle [net]: the outcome of the [n]-th call of
    [requests.post] for a vector id and a number of periods. The world
    counts the calls made and records every [time.sleep]. *)

(** A JSON value handed to [float]: a number, or a value [float] rejects
    with the given exception. *)
Inductive jvalue : Type :=
| JNumber (x : float)
| JNotNumber (e : exn).

(** An element of ["vectorDataPoint"]: [p.get("refPer")], [p.get("value")]. *)
Record point : Type := mkpoint { refPer : option string; pvalue : option jvalue }.

(** [result[0]]: [.get("status")] and
    [.get("object", {}).get("vectorDataPoint", [])]. *)
Record item : Type := mkitem { status : option string; vectorDataPoint : list point }.

(** A response: its [status_code] and the outcome of [resp.json()]. An
    answer that is not a list of objects raises at its first access, inside
    the same [try]: it is a [Raise] here. *)
Record response : Type := mkresponse { status_code : Z; json : res (list item) }.

Record world : Type := mkworld { posts : nat; slept : list Z }.

Definition sleep (secs : Z) (w : world) : world :=
  {| posts := posts w; slept := slept w ++ [secs] |}.

Definition float_of (v : jvalue) : res float :=
  match v with
  | JNumber x => Ok x
  | JNotNumber e => Raise e
  end.

(** The loop over [points]. *)
Fixpoint read_points (points : list point) : res (list observation) :=
  match points with
  | [] => Ok []
  | p :: ps =>
      match refPer p, pvalue p with
      | Some ref, Some val =>
          if nonempty ref then
            x <- float_of val;;
            rest <- read_points ps;;
            Ok (mkobs ref x :: rest)
          else read_points ps
      | _, _ => read_points ps
      end
  end.

(** [data.sort(key=lambda x: x["date"])]: a stable sort on the dates. *)
Fixpoint insert_by_date (o : observation) (l : list observation)
  : list observation :=
  match l with
  | [] => [o]
  | x :: l' =>
      if String.leb (date o) (date x) then o :: x :: l'
      else x :: insert_by_date o l'
  end.

Definition sort_by_date (l : list observation) : list observation :=
  foldr insert_by_date [] l.

(** What one pass through the body of the [try] does. *)
Inductive outcome : Type :=
| Returned (r : option (list observation))
| BadStatus
| Raised (e : exn).

Definition try_body (r : res response) : outcome :=
  match r with
  | Raise e => Raised e
  | Ok resp =>
      if negb (status_code resp =? 200) then BadStatus
      else
        match json resp with
        | Raise e => Raised e
        | Ok [] => Returned None
        | Ok (it :: _) =>
            if bool_decide (status it = Some "FAILED") then Returned None
            else
              match read_points (vectorDataPoint it) with
              | Raise e => Raised e
              | Ok data =>
                  match sort_by_date data with
                  | [] => Returned None
                  | d :: ds => Returned (Some (d :: ds))
                  end
              end
        end
  end.

Section Fetch.

Variable net : Z -> Z -> nat -> res response.

Definition post (vid latestN : Z) (w : world) : res response * world :=
  (net vid latestN (posts w), {| posts := S (posts w); slept := slept w |}).

(** [for attempt in range(n)] and the final [return None]. *)
Fixpoint attempts (n : nat) (vid latestN : Z) (w : world)
  : option (list observation) * world :=
  match n with
  | O => (None, w)
  | S n' =>
      let '(r, w1) := post vid latestN w in
      match try_body r with
      | Returned x => (x, w1)
      | BadStatus => attempts n' vid latestN (sleep 5 w1)
      | Raised _ => attempts n' vid latestN (sleep 5 w1)
      end
  end.

(** [vector_id.replace("v", "")] *)
Fixpoint remove_v (s : string) : string :=
  match s with
  | EmptyString => EmptyString
  | String c s' => if Ascii.eqb c "v" then remove_v s' else String c (remove_v s')
  end.

Definition fetch_vector (vector_id : string) (periods : Z) (w : world)
  : res (option (list observation)) * world :=
  match int (remove_v vector_id) with
  | Raise e => (Raise e, w)
  | Ok vid =>
      let '(r, w') := attempts 3 vid periods w in
      (Ok r, w')
  end.

End Fetch.

End FetchMinisterData.

(** ** [build_site.py]: the readers of [official_data.csv] and the sentiment *)

Module BuildSite.

(** A row of [csv.DictReader]: column name to cell. A row that is shorter
    than the header has the cell [None] in the columns it does not reach. *)
Abbreviation row := (gmap string (option string)).

(** The two keys of an indicator the readers look at. *)
Record indicator : Type := mkindicator { frequency : string; unit : string }.

(** The dictionary [read_official_data] returns; [extra] is the one key
    beyond the five common ones, when the branch adds one. *)
Record official : Type := mkofficial {
  date : option string;
  period : option string;
  value : option float;
  secondary : option float;
  absolute : float;
  extra : option (string * option float)
}.

(** A point of the chart history. *)
Record chart_point : Type := mkchart { c_date : string; c_value : float }.

(** [needle in hay] *)
Fixpoint contains (needle hay : string) : bool :=
  String.prefix needle hay
  || match hay with
     | EmptyString => false
     | String _ hay' => contains needle hay'
     end.

Definition lower_char (c : ascii) : ascii :=
  if (65 <=? code c) && (code c <=? 90)
  then ascii_of_N (N_of_ascii c + 32) else c.

Fixpoint lower (s : string) : string :=
  match s with
  | EmptyString => EmptyString
  | String c s' => String (lower_char c) (lower s')
  end.

(** [row.get('value') and row['value'].strip()] *)
Definition has_value (r : row) : bool :=
  match r !! "value" with
  | Some (Some v) => nonempty v && nonempty (strip v)
  | _ => false
  end.

(** [except (KeyError, ValueError, TypeError): return None]; any other
    exception goes on to the caller. *)
Definition catch_to_none {A} (m : res (option A)) : res (option A) :=
  match m with
  | Raise KeyError | Raise ValueError | Raise TypeError => Ok None
  | _ => m
  end.

(** The three lists of [get_change_sentiment]. *)
Definition positive_growth_indicators : list string :=
  ["gdp"; "gdp_percapita"; "employment_rate"; "participation_rate";
   "wages"; "housing_starts"; "trade"; "exports"; "retail";
   "manufacturing"; "business_investment"].

Definition negative_growth_indicators : list string :=
  ["unemployment"; "ei"; "inflation"; "cpi_shelter"; "cpi_food";
   "cpi_transport"].

Definition neutral_indicators : list string :=
  ["population"; "immigration"; "emigration"; "policy_rate"; "bond_5y";
   "bond_10y"; "hours_worked"; "jobvacancy"; "housing"; "imports"].

Definition get_change_sentiment (indicator_key : string)
    (change_value : option float) : string :=
  match change_value with
  | None => "neutral"
  | Some change_value =>
      let is_increase := fgt change_value 0%float in
      if bool_decide (indicator_key ∈ positive_growth_indicators) then
        (if is_increase then "positive" else "negative")
      else if bool_decide (indicator_key ∈ negative_growth_indicators) then
        (if is_increase then "negative" else "positive")
      else if bool_decide (indicator_key ∈ neutral_indicators) then "neutral"
      else (if is_increase then "positive" else "negative")
  end.

Section Readers.

(** [float(s)] for a string: [None] when it raises [ValueError]. *)
Variable py_float : string -> option float.
(** [x ** y] on floats, which may raise [OverflowError]. *)
Variable float_pow : float -> float -> res float.

(** [float(c)] for a cell: [None] is no number. *)
Definition to_float (c : option string) : res float :=
  match c with
  | None => Raise TypeError
  | Some s =>
      match py_float s with
      | Some x => Ok x
      | None => Raise ValueError
      end
  end.

(** [row[k]] *)
Definition cell (r : row) (k : string) : res (option string) :=
  match r !! k with
  | Some c => Ok c
  | None => Raise KeyError
  end.

(** [d[a:b]]: [None] has no slices. *)
Definition slice_of (a b : nat) (d : option string) : res string :=
  match d with
  | Some s => Ok (slice a b s)
  | None => Raise TypeError
  end.

(** [float(rows[i]['value'])] *)
Definition value_at (rows : list row) (i : Z) : res float :=
  r <- getitem rows i;;
  v <- cell r "value";;
  to_float v.

(** [((latest / prev) - 1) * 100 if prev != 0 else 0] *)
Definition growth (latest prev : float) : res float :=
  if fne prev 0%float then
    q <- truediv latest prev;;
    Ok ((q - 1) * 100)%float
  else Ok 0%float.

Definition is_dollar_unit (u : string) : bool :=
  contains "C$" u || contains "dollars" (lower u).

(** The block "Y/Y growth or Y/Y percentage point change" of the monthly
    and daily branch: [yoy_growth] and [yoy_pp_change]. *)
Definition year_over_year (rows : list row) (latest_value : float)
    (yoy_lookback : Z) : res (option float * option float) :=
  if yoy_lookback <=? len rows then
    year_ago_value <- value_at rows (- yoy_lookback);;
    yoy_growth <- growth latest_value year_ago_value;;
    Ok (Some yoy_growth, Some (latest_value - year_ago_value)%float)
  else Ok (None, None).

(** The body of the [try] block from the line
    [is_quarterly = indicator["frequency"] == "Quarterly"] on. *)
Definition official_dated (ind : indicator) (rows : list row)
    (latest_value : float) (latest_date : option string)
  : res (option official) :=
  let is_quarterly := String.eqb (frequency ind) "Quarterly" in
  if is_quarterly then
    year <- slice_of 0 4 latest_date;;
    mm <- slice_of 5 7 latest_date;;
    month <- Py.int mm;;
    let period := Some (year ++ "-Q" ++ str ((month - 1) / 3 + 1)) in
    qoq_growth <-
      (if 2 <=? len rows then
         prev_value <- value_at rows (-2);;
         g <- growth latest_value prev_value;;
         Ok (Some g)
       else Ok None);;
    yoy_growth <-
      (if 5 <=? len rows then
         year_ago_value <- value_at rows (-5);;
         g <- growth latest_value year_ago_value;;
         Ok (Some g)
       else Ok None);;
    if is_dollar_unit (unit ind) then
      Ok (Some {| date := latest_date; period := period;
                  value := Some latest_value; secondary := yoy_growth;
                  absolute := latest_value;
                  extra := Some ("yoy_growth", yoy_growth) |})
    else
      Ok (Some {| date := latest_date; period := period;
                  value := match yoy_growth with
                           | Some g => Some g
                           | None => qoq_growth
                           end;
                  secondary := qoq_growth;
                  absolute := latest_value;
                  extra := None |})
  else
    let is_daily := String.eqb (frequency ind) "Daily" in
    period <-
      (if is_daily then Ok latest_date
       else ym <- slice_of 0 7 latest_date;; Ok (Some ym));;
    let yoy_lookback := if is_daily then 260 else 13 in
    mom <-
      (if 2 <=? len rows then
         prev_value <- value_at rows (-2);;
         mom_growth <- growth latest_value prev_value;;
         mom_annualized <-
           (if negb is_daily then
              p <- float_pow (1 + mom_growth / 100)%float 12%float;;
              Ok (Some ((p - 1) * 100)%float)
            else Ok None);;
         Ok (Some mom_growth, mom_annualized)
       else Ok (None, None));;
    let '(mom_growth, mom_annualized) := mom in
    yoy <- year_over_year rows latest_value yoy_lookback;;
    let '(yoy_growth, yoy_pp_change) := yoy in
    if String.eqb (unit ind) "%" then
      Ok (Some {| date := latest_date; period := period;
                  value := Some latest_value; secondary := yoy_pp_change;
                  absolute := latest_value;
                  extra := Some ("yoy_pp_change", yoy_pp_change) |})
    else if String.eqb (unit ind) "C$ millions" then
      monthly_change <-
        (if 2 <=? len rows then
           p <- value_at rows (-2);; Ok (Some (latest_value - p)%float)
         else Ok None);;
      yoy_change <-
        (if 13 <=? len rows then
           p <- value_at rows (-13);; Ok (Some (latest_value - p)%float)
         else Ok None);;
      Ok (Some {| date := latest_date; period := period;
                  value := Some latest_value; secondary := monthly_change;
                  absolute := latest_value;
                  extra := Some ("yoy_change_millions", yoy_change) |})
    else if is_dollar_unit (unit ind) then
      Ok (Some {| date := latest_date; period := period;
                  value := Some latest_value; secondary := yoy_growth;
                  absolute := latest_value;
                  extra := Some ("yoy_growth", yoy_growth) |})
    else
      Ok (Some {| date := latest_date; period := period;
                  value := yoy_growth; secondary := mom_annualized;
                  absolute := latest_value;
                  extra := None |}).

(** The body of the [try] block. *)
Definition official_body (ind : indicator) (rows : list row)
  : res (option official) :=
  latest <- getitem rows (-1);;
  lv <- cell latest "value";;
  latest_value <- to_float lv;;
  latest_date <- cell latest "date";;
  official_dated ind rows latest_value latest_date.

(** [file] is [None] when [official_data.csv] does not exist. Otherwise it
    is what [open] and the loop over [csv.DictReader] give: the rows of the
    file, or the exception they raise (an [OSError], a [csv.Error], a
    [UnicodeDecodeError]). The reading stands before the [try]. *)
Definition read_official_data (ind : indicator) (file : option (res (list row)))
  : res (option official) :=
  match file with
  | None => Ok None
  | Some reading =>
      all_rows <- reading;;
      let rows := List.filter has_value all_rows in
      match rows with
      | [] => Ok None
      | _ :: _ => catch_to_none (official_body ind rows)
      end
  end.

(** The loop body of [read_chart_history] on one row. *)
Definition chart_row (r : row) : list chart_point :=
  let date_str := default (Some "") (r !! "date") in
  let val_str := default (Some "") (r !! "value") in
  match date_str, val_str with
  | Some date_str, Some val_str =>
      if nonempty date_str && nonempty val_str && nonempty (strip val_str) then
        match py_float val_str with
        | Some x => [mkchart date_str x]
        | None => []
        end
      else []
  | _, _ => []
  end.

(** [file] as in [read_official_data]; nothing catches what the reading
    raises. *)
Definition read_chart_history (file : option (res (list row)))
  : res (list chart_point) :=
  match file with
  | None => Ok []
  | Some reading =>
      all_rows <- reading;;
      Ok (concat (List.map chart_row all_rows))
  end.

End Readers.

End BuildSite.

(** ** The cadence read off [get_yoy_index]

    The program has no cadence type: [get_yoy_index] branches on
    [is_annual], then on [is_quarterly], and calls what is left monthly.
    [cadence_of] names the three branches, and [lookback_index] is what each
    branch returns. *)

Module Cadence.
Import FetchMinisterData.

Inductive cadence : Type := Annual | Quarterly | Monthly.

Definition cadence_of (data : list observation) : res cadence :=
  a <- is_annual data;;
  if a then Ok Annual
  else
    q <- is_quarterly data;;
    if q then Ok Quarterly else Ok Monthly.

Definition lookback_index (c : cadence) (n : Z) : option Z :=
  match c with
  | Annual => if 2 <=? n then Some (-2) else None
  | Quarterly => if 5 <=? n then Some (-5) else None
  | Monthly => if 13 <=? n then Some (-13) else None
  end.

(** The cadence the gap rule of the data model gives a day gap. *)
Definition cadence_of_gap (gap : Z) : cadence :=
  if 300 <? gap then Annual
  else if 60 <? gap then Quarterly
  else Monthly.

End Cadence.

(** ** Executable instances of the language functions

    [str.format], [sum], [float] and [**] belong to Python, not to the
    program, and the embedding takes them as parameters. The instances below
    run the examples: [str_format] covers the templates of
    [minister_vectors.py] ([prefix{:.Nf}suffix], with an optional [,] for
    thousands), [format_raises] the index of a numbered field,
    [float_of_decimal] plain decimal literals that binary64 division rounds
    correctly, and [float_pow] exponents that are natural numbers, by
    repeated multiplication (the last bits can differ from the power of the
    C library; an overflow is the same). The sum of floats is [Py.sum], the
    additions from left to right of CPython up to 3.11. The theorems hold
    for every choice of the functions; the instances only serve the
    examples. *)

Module Instances.

(** Rounds the rational [num / den] ([den > 0], [num >= 0]) to the nearest
    integer, ties to even. *)
Definition round_half_even (num den : Z) : Z :=
  let q := num / den in
  let r := num mod den in
  match 2 * r ?= den with
  | Lt => q
  | Gt => q + 1
  | Eq => if Z.even q then q else q + 1
  end.

Fixpoint zeros (n : nat) : string :=
  match n with
  | O => EmptyString
  | S n' => String "0" (zeros n')
  end.

Definition pad_left (k : nat) (s : string) : string :=
  zeros (k - String.length s) ++ s.

(** Puts a comma before every group of three digits, from the right. *)
Fixpoint group3 (rev_digits : list ascii) (k : nat) : list ascii :=
  match rev_digits with
  | [] => []
  | c :: r =>
      match r, k with
      | _ :: _, 2%nat => c :: ","%char :: group3 r 0
      | _, _ => c :: group3 r (S k)
      end
  end.

Definition with_commas (s : string) : string :=
  string_of_list_ascii (rev (group3 (rev (list_ascii_of_string s)) 0)).

(** [n] is the value scaled by [10 ^ prec]. *)
Definition render (comma : bool) (prec : nat) (n : Z) : string :=
  let ds := pad_left (S prec) (Py.str n) in
  let k := (String.length ds - prec)%nat in
  let ip := String.substring 0 k ds in
  let fp := String.substring k prec ds in
  (if comma then with_commas ip else ip)
  ++ (match prec with O => EmptyString | _ => String "." fp end).

(** [format(x, ".Nf")] and [format(x, ",.Nf")]. *)
Definition fixed (comma : bool) (prec : nat) (x : float) : string :=
  let sign (s : bool) := if s then "-" else "" in
  match Prim2SF x with
  | S754_nan => "nan"
  | S754_infinity s => sign s ++ "inf"
  | S754_zero s => sign s ++ render comma prec 0
  | S754_finite s m e =>
      let scale := 10 ^ Z.of_nat prec in
      let n := if 0 <=? e
               then Z.pos m * 2 ^ e * scale
               else round_half_even (Z.pos m * scale) (2 ^ (- e)) in
      sign s ++ render comma prec n
  end.

Fixpoint split_at (c : ascii) (s : string) : option (string * string) :=
  match s with
  | EmptyString => None
  | String a s' =>
      if Ascii.eqb a c then Some (EmptyString, s')
      else match split_at c s' with
           | Some (l, r) => Some (String a l, r)
           | None => None
           end
  end.

(** Reads [:.Nf] or [:,.Nf]. *)
Definition parse_spec (spec : string) : option (bool * nat) :=
  let body (comma : bool) (r : string) :=
    match r with
    | String "." (String d (String "f" EmptyString)) =>
        if is_digit d then Some (comma, Z.to_nat (digit_val d)) else None
    | _ => None
    end in
  match spec with
  | String ":" (String "," r) => body true r
  | String ":" r => body false r
  | _ => None
  end.

(** A template with one replacement field, [{:.Nf}] or [{:,.Nf}], and no
    other brace: [str.format] takes it, with every float. *)
Definition float_template (template : string) : bool :=
  let no_brace (s : string) :=
    forallb (fun c => negb (Ascii.eqb c "{" || Ascii.eqb c "}"))
            (list_ascii_of_string s) in
  match split_at "{" template with
  | Some (prefix, r) =>
      match split_at "}" r with
      | Some (spec, suffix) =>
          match parse_spec spec with
          | Some _ => no_brace prefix && no_brace suffix
          | None => false
          end
      | None => false
      end
  | None => false
  end.

Definition str_format (template : string) (x : float) : string :=
  match split_at "{" template with
  | Some (prefix, r) =>
      match split_at "}" r with
      | Some (spec, suffix) =>
          match parse_spec spec with
          | Some (comma, prec) => prefix ++ fixed comma prec x ++ suffix
          | None => template
          end
      | None => template
      end
  | None => template
  end.

(** The number a string of digits writes. *)
Definition index_of (name : string) : option Z :=
  if nonempty name && forallb is_digit (list_ascii_of_string name)
  then Some (fold_left (fun acc c => 10 * acc + digit_val c)
                       (list_ascii_of_string name) 0)
  else None.

(** [template.format(x)] has one argument: a field that names another one by
    its number ([{1}], [{2:.1f}]) ends in [IndexError]. Nothing else is
    checked. *)
Definition format_raises (template : string) (x : float) : option exn :=
  match split_at "{" template with
  | Some (_, r) =>
      match split_at "}" r with
      | Some (field, _) =>
          let name := match split_at ":" field with
                      | Some (n, _) => n
                      | None => field
                      end in
          match index_of name with
          | Some i => if i =? 0 then None else Some IndexError
          | None => None
          end
      | None => None
      end
  | None => None
  end.

(** Digits, optionally a point and more digits: the digits as one integer
    and the number of digits after the point. *)
Fixpoint decimal_digits (s : string) (acc : Z) (frac : option nat)
  : option (Z * nat) :=
  match s with
  | EmptyString => Some (acc, default O frac)
  | String c s' =>
      if is_digit c then
        decimal_digits s' (10 * acc + digit_val c) (S <$> frac)
      else if Ascii.eqb c "." then
        match frac with
        | None => decimal_digits s' acc (Some O)
        | Some _ => None
        end
      else None
  end.

Definition float_of_Z (n : Z) : float := PrimFloat.of_uint63 (Uint63.of_Z n).

Definition float_of_decimal (s : string) : option float :=
  let body := strip s in
  let '(neg, ds) :=
    match body with
    | String "-" r => (true, r)
    | String "+" r => (false, r)
    | _ => (false, body)
    end in
  match ds with
  | EmptyString | String "." EmptyString => None
  | _ =>
      match decimal_digits ds 0 None with
      | Some (m, k) =>
          if (m <? 2 ^ 53) && (Nat.leb k 18) then
            let x := (float_of_Z m / float_of_Z (10 ^ Z.of_nat k))%float in
            Some (if neg then (- x)%float else x)
          else None
      | None => None
      end
  end.

Fixpoint pow_nat (x : float) (n : nat) : float :=
  match n with
  | O => 1%float
  | S n' => (x * pow_nat x n')%float
  end.

(** The natural number a float holds, when it holds one. *)
Definition nat_of_float (y : float) : option nat :=
  match Prim2SF y with
  | S754_zero _ => Some O
  | S754_finite false m e =>
      if 0 <=? e then Some (Z.to_nat (Z.pos m * 2 ^ e))
      else if Z.pos m mod 2 ^ (- e) =? 0
           then Some (Z.to_nat (Z.pos m / 2 ^ (- e)))
           else None
  | _ => None
  end.

Definition is_infinite (x : float) : bool :=
  match Prim2SF x with
  | S754_infinity _ => true
  | _ => false
  end.

(** [x ** y] for an exponent that is a natural number; other exponents are
    outside this instance. A finite base with an infinite result is an
    overflow. *)
Definition float_pow (x y : float) : res float :=
  match nat_of_float y with
  | Some n =>
      let p := pow_nat x n in
      if is_infinite p && negb (is_infinite x) then Raise OverflowError
      else Ok p
  | None => Raise ValueError
  end.

End Instances.

(** ** Sample data used by the examples *)

Module Samples.
Import FetchMinisterData.

Definition obs (d : string) (v : float) : observation := mkobs d v.

(** Two observations 400, 90 and 30 days apart. *)
Definition gap400 : list observation :=
  [obs "2024-01-01" 1; obs "2025-02-04" 2].
Definition gap90 : list observation :=
  [obs "2025-01-01" 1; obs "2025-04-01" 2].
Definition gap30 : list observation :=
  [obs "2025-03-02" 1; obs "2025-04-01" 2].

(** The territorial employment rate of the specification's example:
    numerators 10, 5 and 2, denominators 50, 25 and 10, one observation per
    series. *)
Definition role_vector (k r : string) : vector :=
  mkvector k 24 None (Some r).

Definition combined_cfg : config :=
  mkconfig [role_vector "n1" "numerator"; role_vector "n2" "numerator";
            role_vector "n3" "numerator"; role_vector "d1" "denominator";
            role_vector "d2" "denominator"; role_vector "d3" "denominator"]
           "combined_rate" "positive" "{:.1f}%" None None None.

Definition combined_data : gmap string (list observation) :=
  list_to_map [("n1", [obs "2025-01-01" 10]); ("n2", [obs "2025-01-01" 5]);
               ("n3", [obs "2025-01-01" 2]); ("d1", [obs "2025-01-01" 50]);
               ("d2", [obs "2025-01-01" 25]); ("d3", [obs "2025-01-01" 10])].

Definition level_cfg : config :=
  mkconfig [mkvector "v1" 24 None None] "level_yoy_pct" "positive"
           "${:.1f}B" (Some 1000%float) None None.

(** Thirteen monthly observations, January 2024 to January 2025. *)
Definition monthly13 : list observation :=
  [mkobs "2024-01-01" 100; mkobs "2024-02-01" 101; mkobs "2024-03-01" 102;
   mkobs "2024-04-01" 103; mkobs "2024-05-01" 104; mkobs "2024-06-01" 105;
   mkobs "2024-07-01" 106; mkobs "2024-08-01" 107; mkobs "2024-09-01" 108;
   mkobs "2024-10-01" 109; mkobs "2024-11-01" 110; mkobs "2024-12-01" 111;
   mkobs "2025-01-01" 125].

Definition level_data : gmap string (list observation) :=
  {[ "v1" := monthly13 ]}.

(** The same series with a zero thirteen months back. *)
Definition monthly13_zero : list observation :=
  mkobs "2024-01-01" 0 :: tail monthly13.

Definition level_data_zero : gmap string (list observation) :=
  {[ "v1" := monthly13_zero ]}.

(** Two monthly series averaged with equal weights, and with the weights 3
    and 1 of two one-point weight series. *)
Definition composite_cfg : config :=
  mkconfig [mkvector "a" 20 None None; mkvector "b" 20 None None]
           "composite_avg" "negative" "{:.1f}%" None None None.

Definition weighted_cfg : config :=
  mkconfig [mkvector "a" 20 None None; mkvector "b" 20 None None]
           "composite_avg" "negative" "{:.1f}%" None
           (Some [mkvector "wa" 1 None None; mkvector "wb" 1 None None]) None.

Definition composite_data : gmap string (list observation) :=
  list_to_map [("a", monthly13); ("b", monthly13_zero);
               ("wa", [obs "2025-01-01" 3]); ("wb", [obs "2025-01-01" 1])].

(** Thirteen quarterly observations, January 2022 to January 2025. *)
Definition quarterly13 : list observation :=
  [obs "2022-01-01" 10; obs "2022-04-01" 11; obs "2022-07-01" 12;
   obs "2022-10-01" 13; obs "2023-01-01" 14; obs "2023-04-01" 15;
   obs "2023-07-01" 16; obs "2023-10-01" 17; obs "2024-01-01" 50;
   obs "2024-04-01" 51; obs "2024-07-01" 52; obs "2024-10-01" 53;
   obs "2025-01-01" 60].

(** A monthly series of thirteen observations averaged with one of two. *)
Definition short_cfg : config :=
  mkconfig [mkvector "a" 20 None None; mkvector "s" 20 None None]
           "composite_avg" "negative" "{:.1f}%" None None None.

Definition short_data : gmap string (list observation) :=
  list_to_map [("a", monthly13);
               ("s", [obs "2024-12-01" 40; obs "2025-01-01" 50])].

(** A monthly and a quarterly series averaged with equal weights. *)
Definition mixed_cfg : config :=
  mkconfig [mkvector "a" 20 None None; mkvector "qb" 20 None None]
           "composite_avg" "negative" "{:.1f}%" None None None.

Definition mixed_data : gmap string (list observation) :=
  list_to_map [("a", monthly13); ("qb", quarterly13)].

(** A data service that answers the first call with the status "FAILED"
    and every later call with one data point. *)
Definition one_point : response :=
  mkresponse 200
    (Ok [mkitem (Some "SUCCESS")
           [mkpoint (Some "2025-01-01") (Some (JNumber 7))]]).

Definition failed_then_fine (vid latestN : Z) (n : nat) : res response :=
  match n with
  | O => Ok (mkresponse 200 (Ok [mkitem (Some "FAILED") []]))
  | S _ => Ok one_point
  end.

(** A data service that fails twice, with a connection error and with a
    status 503, and then answers. *)
Definition fine_at_third (vid latestN : Z) (n : nat) : res response :=
  match n with
  | O => Raise ConnectionError
  | S O => Ok (mkresponse 503 (Raise ValueError))
  | S (S _) => Ok one_point
  end.

(** Rows of an [official_data.csv]. *)
Definition csv_row (d v : string) : BuildSite.row :=
  {[ "date" := Some d; "value" := Some v ]}.

(** Thirteen monthly rows whose first value is zero. *)
Definition official_rows_zero : list BuildSite.row :=
  [csv_row "2024-01-01" "0"; csv_row "2024-02-01" "101";
   csv_row "2024-03-01" "102"; csv_row "2024-04-01" "103";
   csv_row "2024-05-01" "104"; csv_row "2024-06-01" "105";
   csv_row "2024-07-01" "106"; csv_row "2024-08-01" "107";
   csv_row "2024-09-01" "108"; csv_row "2024-10-01" "109";
   csv_row "2024-11-01" "110"; csv_row "2024-12-01" "111";
   csv_row "2025-01-01" "125"].

(** Thirteen monthly rows, from 100 to 125. *)
Definition official_rows : list BuildSite.row :=
  csv_row "2024-01-01" "100" :: tail official_rows_zero.

(** The same rows with a last month-over-month growth whose annualization
    overflows. *)
Definition official_rows_overflow : list BuildSite.row :=
  (take 11 official_rows
   ++ [csv_row "2024-12-01" "0.000000000000000001";
       csv_row "2025-01-01" "9000000000000000"])%list.

(** Five quarterly rows whose first value is zero. *)
Definition quarterly_rows_zero : list BuildSite.row :=
  [csv_row "2024-01-01" "0"; csv_row "2024-04-01" "101";
   csv_row "2024-07-01" "102"; csv_row "2024-10-01" "103";
   csv_row "2025-01-01" "125"].

(** A file whose last row carries a value that is not a number, and the
    same file without that row. *)
Definition rows_with_bad_last : list BuildSite.row :=
  [csv_row "2024-12-01" "5.5"; csv_row "2025-01-01" "n/a"].

Definition rows_without_bad : list BuildSite.row :=
  [csv_row "2024-12-01" "5.5"].

(** A file whose last row has an empty date, and a file with the columns
    in the other order whose last row stops after the value. *)
Definition rows_with_empty_date : list BuildSite.row :=
  [csv_row "2024-12-01" "5.5"; csv_row "" "5.75"].

Definition rows_with_short_last : list BuildSite.row :=
  [csv_row "2024-12-01" "5.5"; {[ "value" := Some "5.75"; "date" := None ]}].

Definition daily_indicator : BuildSite.indicator :=
  BuildSite.mkindicator "Daily" "%".

Definition growth_indicator : BuildSite.indicator :=
  BuildSite.mkindicator "Monthly" "% y/y".

Definition rate_indicator : BuildSite.indicator :=
  BuildSite.mkindicator "Monthly" "%".

Definition dollar_indicator : BuildSite.indicator :=
  BuildSite.mkindicator "Monthly" "C$ (2017)".

Definition quarterly_indicator : BuildSite.indicator :=
  BuildSite.mkindicator "Quarterly" "% y/y".

End Samples.

(** ** Predicates used in the statements *)

Module Props.
Import FetchMinisterData.

(** A result whose comparison is either missing (empty text, neutral
    colour) or filled in from one change: the text starts with the arrow of
    the change, and the colour is what [format_detail] gives the change under
    the configured direction. *)
Definition joint (str_format : string -> float -> string) (dir : string)
    (r : latest) : Prop :=
  (detail r = "" /\ detail_color r = "neutral")
  \/ exists change rest,
       detail r = (if fge change 0%float then up_arrow else down_arrow) ++ " " ++ rest
       /\ detail_color r = snd (format_detail str_format change "pp" dir).

(** [x] is the latest value of the series of vector [v]: the value of the
    last observation fetched for its id. *)
Definition latest_of (all_data : gmap string (list observation))
    (v : vector) (x : float) : Prop :=
  exists data o, all_data !! id v = Some data /\ last data = Some o /\ value o = x.

(** [x] is the value the series of vector [v] holds at the index [i]. *)
Definition value_at_index (all_data : gmap string (list observation))
    (i : Z) (v : vector) (x : float) : Prop :=
  exists data o, all_data !! id v = Some data /\ getitem data i = Ok o /\ value o = x.

(** The series of vector [v] is missing or has no observation. *)
Definition unavailable (all_data : gmap string (list observation))
    (v : vector) : Prop :=
  all_data !! id v = None \/ all_data !! id v = Some [].

(** A row the filter keeps and whose value is a number other than zero. *)
Definition numeric_nonzero (py_float : string -> option float)
    (r : BuildSite.row) : Prop :=
  exists v x, r !! "value" = Some (Some v) /\ BuildSite.has_value r = true
              /\ py_float v = Some x /\ feq x 0%float = false.

(** The year-ago values as the specification words them for
    [composite_avg]: every input series is read at its own lookback index,
    the one [get_yoy_index] gives that series. [None] when a series is
    missing or has no such index. *)
Fixpoint own_lookback_values (all_data : gmap string (list observation))
    (vs : list vector) : res (option (list float)) :=
  match vs with
  | [] => Ok (Some [])
  | v :: vs' =>
      match all_data !! id v with
      | None => Ok None
      | Some data =>
          yoy_idx <- get_yoy_index data;;
          match yoy_idx with
          | None => Ok None
          | Some i =>
              p <- getitem data i;;
              rest <- own_lookback_values all_data vs';;
              Ok (match rest with
                  | Some xs => Some (value p :: xs)
                  | None => None
                  end)
          end
      end
  end.

(** A computation that does not end in [IndexError]. *)
Definition no_index_error {A} (m : res A) : Prop := m <> Raise IndexError.

(** A computation whose [IndexError], if it ends in one, is the one
    [str.format] raises on the configured template (as on ["{1}"]). *)
Definition index_error_from_format
    (format_raises : string -> float -> option exn) (cfg : config)
    {A} (m : res A) : Prop :=
  m = Raise IndexError ->
  exists x, format_raises (format_value cfg) x = Some IndexError.

(** An attempt that is tried again: a status other than 200, or an
    exception raised inside the [try]. *)
Definition transient (out : outcome) : Prop :=
  out = BadStatus \/ exists e, out = Raised e.

(** The same on the answer of the data service: the request raises, the
    status is not 200, [resp.json()] raises, or a value is no number. *)
Definition failed_attempt (r : res response) : Prop :=
  match r with
  | Raise _ => True
  | Ok resp =>
      status_code resp <> 200
      \/ match json resp with
         | Raise _ => True
         | Ok [] => False
         | Ok (it :: _) =>
             status it <> Some "FAILED"
             /\ exists e, read_points (vectorDataPoint it) = Raise e
         end
  end.

(** A row without value: the column is not there, the row is too short to
    reach it, or the cell is empty or blank. *)
Definition no_value (r : BuildSite.row) : Prop :=
  match r !! "value" with
  | Some (Some v) => strip v = ""
  | _ => True
  end.

(** A row without date, in the same sense (a blank date is a date). *)
Definition no_date (r : BuildSite.row) : Prop :=
  match r !! "date" with
  | Some (Some d) => d = ""
  | _ => True
  end.

(** A row [read_chart_history] has no use for: no date, no value, or a
    value that is not a number. *)
Definition malformed (py_float : string -> option float)
    (r : BuildSite.row) : Prop :=
  no_date r \/ no_value r
  \/ exists v, r !! "value" = Some (Some v) /\ py_float v = None.

End Props.

(** ** [fetch_minister_data.py]: [main]

    [MINISTER_VECTOR_MAP] is the list of its items, in the order of the
    dictionary. [all_vectors] is a dictionary filled by assignment, a list of
    pairs in insertion order; [fetched_data] and [results] are only looked
    up, [gmap]s. The file system is a parameter: [mkdir_raises] is the
    exception [OUTPUT_DIR.mkdir] raises, if any, and [dump_raises] the one
    that opening [minister_latest.json] and writing the document to it
    raises. The time stamp of the document is left out. *)

Module MinisterMain.
Import FetchMinisterData.

(** [d[k] = v] on a dictionary: the value of an old key is replaced where
    the key stands, a new key goes to the end. *)
Fixpoint dict_set {V} (k : string) (v : V) (d : list (string * V))
  : list (string * V) :=
  match d with
  | [] => [(k, v)]
  | (k', v') :: d' =>
      if String.eqb k' k then (k', v) :: d' else (k', v') :: dict_set k v d'
  end.

(** [for v in vs: all_vectors[v["id"]] = v["periods"]] *)
Definition add_vectors (vs : list vector) (all_vectors : list (string * Z))
  : list (string * Z) :=
  fold_left (fun acc v => dict_set (id v) (periods v) acc) vs all_vectors.

(** The vectors of a configuration, in the order [main] walks them. *)
Definition config_vectors (cfg : config) : list vector :=
  (vectors cfg ++ match population_vectors cfg with
                  | Some pvs => pvs
                  | None => []
                  end)%list.

(** The first loop of [main]. *)
Definition collect_vectors (vector_map : list (string * config))
  : list (string * Z) :=
  fold_left
    (fun acc kc =>
       let acc1 := add_vectors (vectors (snd kc)) acc in
       match population_vectors (snd kc) with
       | Some pvs => add_vectors pvs acc1
       | None => acc1
       end)
    vector_map [].

(** [s.isdigit()] on ASCII text. *)
Definition isdigit (s : string) : bool :=
  nonempty s && forallb is_digit (list_ascii_of_string s).

(** The block "Apply fiscal/school year period format if configured". *)
Definition apply_period_format (cfg : config) (l : latest) : res latest :=
  let pf := period_format cfg in
  if (bool_decide (pf = Some "fiscal_year") || bool_decide (pf = Some "school_year"))
     && isdigit (period l) && (Nat.eqb (String.length (period l)) 4)
  then
    year <- int (period l);;
    Ok {| out_value := out_value l; detail := detail l;
          detail_color := detail_color l;
          period := str year ++ "/" ++ str (year + 1) |}
  else Ok l.

(** The output document: [_count] and [metrics]. *)
Record document : Type := mkdocument {
  count : nat;
  metrics : gmap string latest
}.

Section Main.

Variable str_format : string -> float -> string.
Variable format_raises : string -> float -> option exn.
Variable float_sum : list float -> float.
Variable net : Z -> Z -> nat -> res response.
Variable mkdir_raises : option exn.
Variable dump_raises : document -> option exn.

(** The loop "Fetch all vectors". *)
Fixpoint fetch_all (all_vectors : list (string * Z))
    (fetched_data : gmap string (list observation)) (w : world)
  : res (gmap string (list observation)) * world :=
  match all_vectors with
  | [] => (Ok fetched_data, w)
  | (vid, periods) :: rest =>
      match fetch_vector net vid periods w with
      | (Raise e, w1) => (Raise e, w1)
      | (Ok data, w1) =>
          let fetched_data1 :=
            match data with
            | Some (o :: l) => <[vid := o :: l]> fetched_data
            | _ => fetched_data
            end in
          fetch_all rest fetched_data1 (sleep 2 w1)
      end
  end.

(** The loop "Compute latest blocks for each minister metric". *)
Fixpoint compute_all (vector_map : list (string * config))
    (fetched_data : gmap string (list observation))
    (results : gmap string latest) : res (gmap string latest) :=
  match vector_map with
  | [] => Ok results
  | (key, cfg) :: rest =>
      match COMPUTE_FUNCTIONS str_format format_raises float_sum (compute cfg) with
      | None => compute_all rest fetched_data results
      | Some compute_fn =>
          latest <- compute_fn cfg fetched_data;;
          match latest with
          | Some l =>
              l1 <- apply_period_format cfg l;;
              compute_all rest fetched_data (<[key := l1]> results)
          | None => compute_all rest fetched_data results
          end
      end
  end.

Definition main (vector_map : list (string * config)) (w : world)
  : res document * world :=
  match mkdir_raises with
  | Some e => (Raise e, w)
  | None =>
      let all_vectors := collect_vectors vector_map in
      match fetch_all all_vectors ∅ w with
      | (Raise e, w1) => (Raise e, w1)
      | (Ok fetched_data, w1) =>
          match compute_all vector_map fetched_data ∅ with
          | Raise e => (Raise e, w1)
          | Ok results =>
              let output := {| count := size results; metrics := results |} in
              match dump_raises output with
              | Some e => (Raise e, w1)
              | None => (Ok output, w1)
              end
          end
      end
  end.

End Main.

End MinisterMain.

(** ** [minister_vectors.py]: the configuration of the metrics

    The items of [MINISTER_VECTOR_MAP], in the order of the file; the key
    ["description"], which the program never reads, is left out. *)

Module MinisterVectors.
Import FetchMinisterData.

Definition MINISTER_VECTOR_MAP : list (string * config) :=
  [("pm_unemployment",
   mkconfig
      [mkvector "v2062815" 24 None None]
      "rate_yoy_pp" "negative" "{:.1f}%" None None None);
   ("pm_gdp_percapita",
   mkconfig
      [mkvector "v1645315579" 20 None None]
      "level_qoq_pct" "positive" "${:,.0f}" None None None);
   ("hajdu_employment",
   mkconfig
      [mkvector "v2062952" 24 None None]
      "rate_yoy_pp" "positive" "{:.1f}%" None None None);
   ("hajdu_youth",
   mkconfig
      [mkvector "v2062844" 24 None None]
      "rate_yoy_pp" "positive" "{:.1f}%" None None None);
   ("valdez_female_unemployment",
   mkconfig
      [mkvector "v2062833" 24 None None]
      "rate_yoy_pp" "negative" "{:.1f}%" None None None);
   ("leblanc_exports_us",
   mkconfig
      [mkvector "v87008956" 24 None None]
      "level_yoy_pct" "positive" "${:.1f}B" (Some 1000%float) None None);
   ("miller_immersion",
   mkconfig
      [mkvector "v65927163" 10 None None]
      "count_yoy_pct" "positive" "{:,.0f}" None None (Some "school_year"));
   ("miller_culture_gdp",
   mkconfig
      [mkvector "v65201463" 24 None None]
      "level_yoy_pct" "positive" "${:.1f}B" (Some 1000%float) None None);
   ("miller_culture_employment",
   mkconfig
      [mkvector "v2057618" 24 None None]
      "count_yoy_pct" "positive" "{:,.0f}K" None None None);
   ("fraser_disposition",
   mkconfig
      [mkvector "v62472254" 10 None None]
      "level_yoy_pct" "negative" "{:.0f} days" None None (Some "fiscal_year"));
   ("anandasangaree_hatecrimes",
   mkconfig
      [mkvector "v111901802" 10 None None]
      "count_yoy_pct" "negative" "{:,.0f}" None None None);
   ("anandasangaree_homicides",
   mkconfig
      [mkvector "v1540422" 10 None None]
      "count_yoy_pct" "negative" "{:,.0f}" None None None);
   ("anandasangaree_autotheft",
   mkconfig
      [mkvector "v44357265" 10 None None]
      "count_yoy_pct" "negative" "{:,.0f}" None None None);
   ("anand_cdia",
   mkconfig
      [mkvector "v7117682" 10 None None]
      "level_yoy_pct" "positive" "${:.2f}T" (Some 1000000%float) None None);
   ("anand_fdi",
   mkconfig
      [mkvector "v7117859" 10 None None]
      "level_yoy_pct" "positive" "${:.2f}T" (Some 1000000%float) None None);
   ("leblanc_diversification",
   mkconfig
      [mkvector "v87008955" 24 (Some "total_exports") None;
       mkvector "v87008956" 24 (Some "us_exports") None]
      "share_pct" "positive" "{:.1f}%" None None None);
   ("sidhu_diversification",
   mkconfig
      [mkvector "v87008955" 24 (Some "total_exports") None;
       mkvector "v87008956" 24 (Some "us_exports") None]
      "share_pct" "positive" "{:.1f}%" None None None);
   ("joly_investment",
   mkconfig
      [mkvector "v62305733" 20 None None]
      "level_yoy_pct" "positive" "${:.1f}B" (Some 1000%float) None None);
   ("sidhu_fdi",
   mkconfig
      [mkvector "v61913732" 20 None None]
      "level_yoy_pct" "positive" "${:.1f}B" (Some 1000%float) None None);
   ("joly_productivity",
   mkconfig
      [mkvector "v111384113" 10 None None]
      "level_yoy_pct" "positive" "${:.1f}/hr" None None None);
   ("mackinnon_rail",
   mkconfig
      [mkvector "v74869" 24 None None]
      "level_yoy_pct" "positive" "{:.1f}M t" (Some 1000000%float) None None);
   ("mackinnon_port",
   mkconfig
      [mkvector "v11743" 24 None None]
      "level_yoy_pct" "positive" "{:.1f}M" (Some 1000%float) None None);
   ("valdez_wagegap",
   mkconfig
      [mkvector "v1481409741" 10 (Some "male_wage") None;
       mkvector "v1481409745" 10 (Some "female_wage") None]
      "wage_gap" "negative" "{:.1f}%" None None None);
   ("chartrand_employment",
   mkconfig
      [mkvector "v46438735" 24 (Some "yukon_emp") (Some "numerator");
       mkvector "v46438837" 24 (Some "nwt_emp") (Some "numerator");
       mkvector "v99443822" 24 (Some "nunavut_emp") (Some "numerator");
       mkvector "v46438711" 24 (Some "yukon_pop") (Some "denominator");
       mkvector "v46438813" 24 (Some "nwt_pop") (Some "denominator");
       mkvector "v99443810" 24 (Some "nunavut_pop") (Some "denominator")]
      "combined_rate" "positive" "{:.1f}%" None None None);
   ("chartrand_population",
   mkconfig
      [mkvector "v4" 20 (Some "yukon") None;
       mkvector "v6" 20 (Some "nwt") None;
       mkvector "v7" 20 (Some "nunavut") None]
      "sum_yoy_pct" "positive" "{:,.0f}" None None None);
   ("macdonald_income",
   mkconfig
      [mkvector "v8620" 10 None None]
      "level_yoy_pct" "positive" "${:.1f}B" (Some 1000000%float) None None);
   ("macdonald_productivity",
   mkconfig
      [mkvector "v170328" 20 None None]
      "level_yoy_pct" "positive" "${:.1f}B" (Some 1000000%float) None None);
   ("valdez_tourism",
   mkconfig
      [mkvector "v81364" 20 None None]
      "level_qoq_pct" "positive" "${:.1f}B" (Some 1000%float) None None)].

End MinisterVectors.

(** ** [fetch_official_data.py]

    The same data service as in [fetch_minister_data.py], asked once per
    indicator. A written [official_data.csv] is the list of its rows, as
    [build_site.py] reads it; [float_str] is [str] on a float, which the csv
    writer applies to the values. A write can fail: [writable] tells whether
    the file of a key can be written, and [after_failure] is what a failed
    write leaves behind. *)

Module FetchOfficialData.
Import FetchMinisterData.

(** An entry of [VECTOR_MAP]. *)
Record info : Type := mkinfo {
  vector : string;
  name : string;
  info_periods : Z
}.

Section Official.

Variable net : Z -> Z -> nat -> res response.

(** What the body of the [try] returns, or the exception it ends in. *)
Definition fetch_body (i : info) (w : world)
  : res (option (list observation)) * world :=
  match int (remove_v (vector i)) with
  | Raise e => (Raise e, w)
  | Ok vector_id =>
      let '(r, w1) := post net vector_id (info_periods i) w in
      (match r with
       | Raise e => Raise e
       | Ok response =>
           if negb (status_code response =? 200) then Ok None
           else
             result <- json response;;
             match result with
             | [] => Ok None
             | response_item :: _ =>
                 if bool_decide (status response_item = Some "FAILED") then Ok None
                 else
                   match vectorDataPoint response_item with
                   | [] => Ok None
                   | data_points =>
                       data <- read_points data_points;;
                       match data with
                       | [] => Ok None
                       | _ => Ok (Some (sort_by_date data))
                       end
                   end
             end
       end, w1)
  end.

(** [except Exception: return None] *)
Definition fetch_indicator_data (i : info) (w : world)
  : option (list observation) * world :=
  match fetch_body i w with
  | (Ok r, w1) => (r, w1)
  | (Raise _, w1) => (None, w1)
  end.

Variable float_str : float -> string.
Variable writable : string -> bool.
Variable after_failure :
  string -> gmap string (list BuildSite.row) -> gmap string (list BuildSite.row).

(** The row the csv writer makes of one observation. *)
Definition csv_row_of (o : observation) : BuildSite.row :=
  {[ "date" := Some (date o); "value" := Some (float_str (value o)) ]}.

(** [files] maps an indicator key to the rows of its [official_data.csv]. *)
Definition save_indicator_data (indicator_key : string)
    (data : option (list observation))
    (files : gmap string (list BuildSite.row))
  : bool * gmap string (list BuildSite.row) :=
  match data with
  | Some (o :: l) =>
      if writable indicator_key
      then (true, <[indicator_key := List.map csv_row_of (o :: l)]> files)
      else (false, after_failure indicator_key files)
  | _ => (false, files)
  end.

(** The counts [main] prints. *)
Record tally : Type := mktally { success_count : nat; fail_count : nat }.

(** The loop of [main] over the items of [VECTOR_MAP]. *)
Fixpoint main_loop (vector_map : list (string * info)) (t : tally)
    (files : gmap string (list BuildSite.row)) (w : world)
  : tally * gmap string (list BuildSite.row) * world :=
  match vector_map with
  | [] => (t, files, w)
  | (key, i) :: rest =>
      let '(data, w1) := fetch_indicator_data i w in
      let '(saved, files1) :=
        match data with
        | Some (o :: l) => save_indicator_data key data files
        | _ => (false, files)
        end in
      let t1 :=
        if saved
        then {| success_count := S (success_count t); fail_count := fail_count t |}
        else {| success_count := success_count t; fail_count := S (fail_count t) |} in
      main_loop rest t1 files1 (sleep 2 w1)
  end.

Definition main (vector_map : list (string * info))
    (files : gmap string (list BuildSite.row)) (w : world)
  : tally * gmap string (list BuildSite.row) * world :=
  main_loop vector_map {| success_count := 0; fail_count := 0 |} files w.

End Official.

End FetchOfficialData.

(** ** [build_site.py]: formatting and the minister cards

    [INDICATORS] comes from [indicators_config.py] and the metrics from
    [ministers_config.py], which are not part of the sources: the table of
    indicators is a parameter, and a metric is its key with its optional
    hard-coded block. [MINISTER_FRESH_DATA] is the ["metrics"] object of
    [minister_latest.json]; a block of it is a JSON object with text
    values. *)

Module Display.
Import BuildSite.

(** A metric of a minister: [metric["key"]] and [metric.get("latest")]. *)
Record metric : Type := mkmetric {
  key : string;
  hardcoded : option (gmap string string)
}.

(** The tuple [_minister_card_display] returns. *)
Record card : Type := mkcard {
  value_str : string;
  detail_line : string;
  growth_color : string;
  period_str : option string
}.

Definition METRIC_TO_INDICATOR : gmap string string :=
  list_to_map
    [("pm_gdp_growth", "gdp"); ("pm_gdp_percapita", "gdp_percapita");
     ("pm_unemployment", "unemployment"); ("pm_wages", "wages");
     ("pm_cpi", "inflation"); ("pm_retail", "retail");
     ("pm_employment", "employment_rate"); ("pm_trade", "trade");
     ("joly_manufacturing", "manufacturing"); ("chartrand_food", "cpi_food");
     ("robertson_starts", "housing_starts");
     ("robertson_affordability", "housing"); ("sidhu_exports", "exports");
     ("macdonald_exports", "exports"); ("diab_admissions", "immigration")].

(** [data.get(k)] for one of the keys a branch of [read_official_data]
    adds. *)
Definition get_extra (data : official) (k : string) : option float :=
  match extra data with
  | Some (k', v) => if String.eqb k' k then v else None
  | None => None
  end.

(** [value_class(val, unit)] *)
Definition value_class (val : option float) (unit : string) : string :=
  match val with
  | None => ""
  | Some val =>
      if String.eqb unit "%" || String.eqb unit "C$ millions" then ""
      else if fge val 0%float then "positive" else "negative"
  end.

Section Formatting.

Variable str_format : string -> float -> string.

Definition arrow_of (x : float) : string :=
  if fge x 0%float then "↑" else "↓".

(** [format_value(val, unit, use_arrow)]; [None] is the result of the calls
    that fall off the end of the function. *)
Definition format_value (val : option float) (unit : string) (use_arrow : bool)
  : option string :=
  match val with
  | None => Some "N/A"
  | Some val =>
      if String.eqb unit "C$ millions" then
        let val_b := (val / 1000)%float in
        Some ("C$" ++ str_format "{:,.1f}" val_b ++ "B")
      else if String.eqb unit "C$ (2017)" || contains "C$" unit then
        Some ("$" ++ str_format "{:,.0f}" val)
      else if String.eqb unit "%" then
        Some (str_format "{:.1f}" val ++ unit)
      else if String.eqb unit "% y/y" || String.eqb unit "% annualized"
              || String.eqb unit "pp" then
        if use_arrow then
          let arrow := arrow_of val in
          if String.eqb unit "pp"
          then Some (arrow ++ " " ++ str_format "{:.1f}" (abs val) ++ " pp")
          else Some (arrow ++ " " ++ str_format "{:.2f}" (abs val) ++ "%")
        else
          if String.eqb unit "% y/y"
          then Some (str_format "{:+.2f}" val ++ "% year over year")
          else if String.eqb unit "% annualized"
          then Some (str_format "{:+.2f}" val ++ "% annualized")
          else if String.eqb unit "pp"
          then Some (str_format "{:+.1f}" val ++ " percentage points")
          else None
      else Some (str_format "{:.2f}" val)
  end.

Definition format_absolute_value (val : option float) (indicator_key : string)
  : string :=
  let is_in (ks : list string) := bool_decide (indicator_key ∈ ks) in
  match val with
  | None => "N/A"
  | Some val =>
      if String.eqb indicator_key "gdp" then
        "$" ++ str_format "{:,.2f}" (val / 1000000)%float ++ "T"
      else if String.eqb indicator_key "gdp_percapita" then
        "$" ++ str_format "{:,.0f}" val
      else if is_in ["trade"; "exports"; "imports"] then
        "C$" ++ str_format "{:,.1f}" (val / 1000)%float ++ "B"
      else if is_in ["retail"; "manufacturing"] then
        "C$" ++ str_format "{:,.1f}" (val / 1000000)%float ++ "B"
      else if String.eqb indicator_key "business_investment" then
        "C$" ++ str_format "{:,.1f}" (val / 1000)%float ++ "B"
      else if String.eqb indicator_key "population" then
        str_format "{:,.2f}" (val / 1000000)%float ++ "M"
      else if is_in ["immigration"; "emigration"] then
        str_format "{:,.1f}" (val / 1000)%float ++ "K"
      else if String.eqb indicator_key "ei" then
        str_format "{:,.0f}" (val / 1000)%float ++ "K"
      else if String.eqb indicator_key "wages" then
        "$" ++ str_format "{:,.0f}" val
      else if String.eqb indicator_key "hours_worked" then
        str_format "{:.1f}" val ++ " hrs"
      else if String.eqb indicator_key "housing_starts" then
        str_format "{:,.0f}" val ++ "K"
      else if is_in ["inflation"; "cpi_shelter"; "cpi_food"; "cpi_transport";
                     "housing"] then
        str_format "{:.1f}" val
      else if is_in ["unemployment"; "employment_rate"; "participation_rate";
                     "jobvacancy"; "policy_rate"; "bond_5y"; "bond_10y"] then
        str_format "{:.1f}" val ++ "%"
      else str_format "{:,.0f}" val
  end.

Variable INDICATORS : gmap string indicator.
Variable MINISTER_FRESH_DATA : gmap string (gmap string string).

(** [(b["value"], b.get("detail", ""), b.get("detail_color", "neutral"),
    b.get("period", ""))] *)
Definition block_card (b : gmap string string) : res card :=
  match b !! "value" with
  | None => Raise KeyError
  | Some v =>
      Ok {| value_str := v;
            detail_line := default "" (b !! "detail");
            growth_color := default "neutral" (b !! "detail_color");
            period_str := Some (default "" (b !! "period")) |}
  end.

(** A dictionary that is there and not empty. *)
Definition truthy_block (b : option (gmap string string)) : bool :=
  match b with
  | Some m => negb (bool_decide (m = ∅))
  | None => false
  end.

Definition no_card : card :=
  {| value_str := "—"; detail_line := ""; growth_color := "neutral";
     period_str := Some "" |}.

(** [all_data] maps an indicator key to what [read_official_data] returned
    for it. *)
Definition _minister_card_display (m : metric)
    (all_data : gmap string (option official)) : res card :=
  let fresh := MINISTER_FRESH_DATA !! key m in
  if truthy_block fresh then
    match fresh with
    | Some b => block_card b
    | None => Ok no_card
    end
  else
    let latest := hardcoded m in
    if truthy_block latest then
      match latest with
      | Some b => block_card b
      | None => Ok no_card
      end
    else
      match METRIC_TO_INDICATOR !! key m with
      | None => Ok no_card
      | Some ind_key =>
          if negb (nonempty ind_key) then Ok no_card
          else
            match all_data !! ind_key, INDICATORS !! ind_key with
            | Some (Some data), Some ind =>
                match value data with
                | None => Ok no_card
                | Some val =>
                    let abs_str :=
                      format_absolute_value (Some (absolute data)) ind_key in
                    let period := period data in
                    let '(detail_line, growth_color) :=
                      if String.eqb (unit ind) "%" then
                        match get_extra data "yoy_pp_change" with
                        | Some yoy_pp =>
                            (arrow_of yoy_pp ++ " "
                             ++ str_format "{:.1f}" (abs yoy_pp)
                             ++ " pp year over year",
                             get_change_sentiment ind_key (Some yoy_pp))
                        | None => ("", "")
                        end
                      else if String.eqb (unit ind) "C$ millions" then
                        match get_extra data "yoy_change_millions" with
                        | Some yoy_chg =>
                            let yoy_b := (abs yoy_chg / 1000)%float in
                            (arrow_of yoy_chg ++ " C$"
                             ++ str_format "{:.1f}" yoy_b
                             ++ "B year over year",
                             get_change_sentiment ind_key (Some yoy_chg))
                        | None => ("", "")
                        end
                      else if is_dollar_unit (unit ind) then
                        match get_extra data "yoy_growth" with
                        | Some yoy_pct =>
                            (arrow_of yoy_pct ++ " "
                             ++ str_format "{:.2f}" (abs yoy_pct)
                             ++ "% year over year",
                             get_change_sentiment ind_key (Some yoy_pct))
                        | None => ("", "")
                        end
                      else
                        (default "None" (format_value (Some val) "% y/y" true)
                         ++ " year over year",
                         get_change_sentiment ind_key (Some val)) in
                    Ok {| value_str := abs_str; detail_line := detail_line;
                          growth_color := growth_color; period_str := period |}
                end
            | _, _ => Ok no_card
            end
      end.

End Formatting.

(** The JSON object [json.dump] writes for a block of
    [fetch_minister_data.py]. *)
Definition block_json (l : FetchMinisterData.latest) : gmap string string :=
  {[ "value" := FetchMinisterData.out_value l;
     "detail" := FetchMinisterData.detail l;
     "detail_color" := FetchMinisterData.detail_color l;
     "period" := FetchMinisterData.period l ]}.

End Display.

(** ** Further predicates used in the statements *)

Module Props2.
Import FetchMinisterData.

(** The order [data.sort(key=lambda x: x["date"])] sorts by. *)
Definition date_le (a b : observation) : Prop :=
  String.leb (date a) (date b) = true.

(** The observation a data point gives: it needs a reference period that is
    not empty and a value that is a number. *)
Definition point_observation (p : point) : option observation :=
  match refPer p, pvalue p with
  | Some ref, Some (JNumber x) => if nonempty ref then Some (mkobs ref x) else None
  | _, _ => None
  end.

(** The observations of a list that carry the date [d], in their order. *)
Definition with_date (d : string) (l : list observation) : list observation :=
  List.filter (fun o => String.eqb (date o) d) l.

(** The exceptions a strategy can end in before it formats its value:
    [ValueError] for a date or a month that does not parse; for the
    strategies that divide by the scalar, [ZeroDivisionError] when the
    scalar is zero; for the strategies that read labels, [KeyError] when a
    vector has none. *)
Definition date_error (e : exn) : Prop := e = ValueError.

Definition level_error (cfg : config) (e : exn) : Prop :=
  e = ValueError
  \/ (e = ZeroDivisionError /\ feq (scalar_of cfg) 0%float = true).

Definition label_error (cfg : config) (e : exn) : Prop :=
  e = ValueError
  \/ (e = KeyError /\ exists v, v ∈ vectors cfg /\ label v = None).

Definition strategy_error (name : string) (cfg : config) (e : exn) : Prop :=
  if bool_decide (name ∈ ["level_yoy_pct"; "level_qoq_pct"; "count_yoy_pct"])
  then level_error cfg e
  else if bool_decide (name ∈ ["share_pct"; "wage_gap"])
  then label_error cfg e
  else date_error e.

(** [str.format] raises [e] on the configured template, for some value. *)
Definition format_error (format_raises : string -> float -> option exn)
    (cfg : config) (e : exn) : Prop :=
  exists x, format_raises (format_value cfg) x = Some e.

(** One of the exceptions [P], or the one [str.format] raises. *)
Definition or_format (format_raises : string -> float -> option exn)
    (cfg : config) (P : exn -> Prop) (e : exn) : Prop :=
  P e \/ format_error format_raises cfg e.

(** [str.format] takes the configured template, whatever the value. *)
Definition format_accepted (format_raises : string -> float -> option exn)
    (cfg : config) : Prop :=
  forall x, format_raises (format_value cfg) x = None.

(** Every exception the computation can end in satisfies [P]. *)
Definition raises_only {A} (P : exn -> Prop) (m : res A) : Prop :=
  forall e, m = Raise e -> P e.

(** All the vectors of the map, in the order [main] walks them. *)
Definition all_listed (vector_map : list (string * config)) : list vector :=
  List.flat_map (fun kc => MinisterMain.config_vectors (snd kc)) vector_map.

Definition has_id (k : string) (v : vector) : bool := String.eqb (id v) k.

(** The number of sleeps of [secs] seconds among the sleeps [l]. *)
Definition pauses (secs : Z) (l : list Z) : nat :=
  length (List.filter (Z.eqb secs) l).

(** What the fetch loop of [main] spends on one vector: [n] requests and
    [k] sleeps of 5 seconds. Every request but the last one failed and was
    followed by a sleep; the last one was answered, or it was the third and
    failed as well. *)
Definition vector_effort (nk : nat * nat) : Prop :=
  (nk.1 = S nk.2 /\ (nk.2 < 3)%nat) \/ (nk.1 = 3%nat /\ nk.2 = 3%nat).

(** The sleeps of the loop: per vector its sleeps of 5 seconds and then
    the pause of 2 seconds. *)
Definition effort_sleeps (trace : list (nat * nat)) : list Z :=
  concat (List.map (fun nk => replicate nk.2 5 ++ [2])%list trace).

Definition effort_posts (trace : list (nat * nat)) : nat :=
  list_sum (List.map fst trace).

(** The metric [key] of the map has a block: its strategy returned [l0] on
    the data [d], and [l] is [l0] after the period format. *)
Definition computed (str_format : string -> float -> string)
    (format_raises : string -> float -> option exn)
    (float_sum : list float -> float)
    (d : gmap string (list observation))
    (vector_map : list (string * config)) (key : string) (l : latest) : Prop :=
  exists cfg f l0,
    (key, cfg) ∈ vector_map
    /\ COMPUTE_FUNCTIONS str_format format_raises float_sum (compute cfg) = Some f
    /\ f cfg d = Ok (Some l0)
    /\ MinisterMain.apply_period_format cfg l0 = Ok l.

(** A configuration its strategy cannot fail on: it lists a vector, its
    scalar is not zero where the strategy divides by it, and its vectors are
    labelled where the strategy reads the labels. *)
Definition sound_config (cfg : config) : bool :=
  match vectors cfg with [] => false | _ :: _ => true end
  && (if bool_decide (compute cfg ∈ ["level_yoy_pct"; "level_qoq_pct"; "count_yoy_pct"])
      then fne (scalar_of cfg) 0%float else true)
  && (if bool_decide (compute cfg ∈ ["share_pct"; "wage_gap"])
      then forallb (fun v => match label v with Some _ => true | None => false end)
                   (vectors cfg)
      else true).

(** *** The blocks of the strategies *)

(** The change in percent of [cur] against [prev], [0] against a zero. *)
Definition pct_change (cur prev : float) : float :=
  if fne prev 0%float then ((cur / prev - 1) * 100)%float else 0%float.

(** The block of [compute_rate_yoy_pp] for the first vector [vec]. *)
Definition rate_block_of (str_format : string -> float -> string)
    (format_raises : string -> float -> option exn)
    (cfg : config) (vec : vector)
    (all_data : gmap string (list observation)) (r : latest) : Prop :=
  exists data o i y p,
    all_data !! id vec = Some data
    /\ last data = Some o
    /\ get_yoy_index data = Ok (Some i)
    /\ getitem data i = Ok y
    /\ period_of data (date o) = Ok p
    /\ format_raises (format_value cfg) (value o) = None
    /\ r = {| out_value := str_format (format_value cfg) (value o);
              detail := fst (format_detail str_format (value o - value y)
                               "pp" (direction cfg));
              detail_color := snd (format_detail str_format (value o - value y)
                                     "pp" (direction cfg));
              period := p |}.

(** The block of [compute_level_qoq_pct] for the first vector [vec]. *)
Definition qoq_block_of (str_format : string -> float -> string)
    (format_raises : string -> float -> option exn)
    (cfg : config) (vec : vector)
    (all_data : gmap string (list observation)) (r : latest) : Prop :=
  exists data o prev p,
    all_data !! id vec = Some data
    /\ 2 <= len data
    /\ last data = Some o
    /\ getitem data (-2) = Ok prev
    /\ feq (scalar_of cfg) 0%float = false
    /\ format_period (date o) true = Ok p
    /\ format_raises (format_value cfg) (value o / scalar_of cfg)%float = None
    /\ let pct := pct_change (value o) (value prev) in
       r = {| out_value := str_format (format_value cfg)
                             (value o / scalar_of cfg)%float;
              detail := (if fge pct 0%float then up_arrow else down_arrow)
                        ++ " " ++ str_format "{:.1f}" (abs pct)
                        ++ "% quarter over quarter";
              detail_color := snd (format_detail str_format pct "%" (direction cfg));
              period := p |}.

(** The id of the last vector that carries the label [la]. *)
Definition labelled_id (la : string) (vs : list vector) : option string :=
  id <$> last (List.filter (fun v => bool_decide (label v = Some la)) vs).

(** [f a b], or [0] when [a] is zero. *)
Definition prior (f : float -> float -> float) (a b : float) : float :=
  if fne a 0%float then f a b else 0%float.

(** The share of [total] that is not [us], and the gap between [male] and
    [female], in percent. *)
Definition share_of (total us : float) : float := ((1 - us / total) * 100)%float.
Definition gap_of (male female : float) : float :=
  ((male - female) / male * 100)%float.

(** The detail and colour of a strategy over two labelled series: the
    change of [f] in percentage points against the observations at the
    lookback index [yi] of the first series, when the second series
    reaches that far back. *)
Definition pair_comparison (str_format : string -> float -> string)
    (f : float -> float -> float) (dir : string)
    (a_data b_data : list observation) (cur : float)
    (yi : option Z) (dc : string * string) : Prop :=
  match yi with
  | Some i =>
      if Z.abs i <=? len b_data then
        exists pa pb,
          getitem a_data i = Ok pa /\ getitem b_data i = Ok pb
          /\ dc = format_detail str_format
                    (cur - prior f (value pa) (value pb))%float "pp" dir
      else dc = ("", "neutral")
  | None => dc = ("", "neutral")
  end.

Definition pair_block (str_format : string -> float -> string)
    (format_raises : string -> float -> option exn)
    (la lb : string) (f : float -> float -> float)
    (label_period : list observation -> string -> res string)
    (cfg : config) (all_data : gmap string (list observation))
    (r : latest) : Prop :=
  exists ka kb a_data b_data oa ob yi dc p,
    labelled_id la (vectors cfg) = Some ka
    /\ labelled_id lb (vectors cfg) = Some kb
    /\ all_data !! ka = Some a_data
    /\ all_data !! kb = Some b_data
    /\ last a_data = Some oa
    /\ last b_data = Some ob
    /\ feq (value oa) 0%float = false
    /\ get_yoy_index a_data = Ok yi
    /\ pair_comparison str_format f (direction cfg) a_data b_data
         (f (value oa) (value ob)) yi dc
    /\ label_period a_data (date oa) = Ok p
    /\ format_raises (format_value cfg) (f (value oa) (value ob)) = None
    /\ r = {| out_value := str_format (format_value cfg) (f (value oa) (value ob));
              detail := fst dc; detail_color := snd dc; period := p |}.

(** The period labels: a quarter when the last gap exceeds 60 days and a
    month otherwise; a year when the last gap exceeds 300 days and a month
    otherwise. *)
Definition quarter_or_month (data : list observation) (d : string) : res string :=
  q <- is_quarterly data;; format_period d q.

Definition year_or_month (data : list observation) (d : string) : res string :=
  a <- is_annual data;; if a then Ok (slice 0 4 d) else Ok (slice 0 7 d).

(** The block of [read_official_data] for a monthly indicator: [d] is the
    date of the latest row, [lv], [pv] and [ya] are the values of the
    latest row, of the row before it and of the thirteenth row from the
    end, and [p] is the power the annualized monthly growth is made of. *)
Definition monthly_block (ind : BuildSite.indicator) (d : string)
    (lv pv ya p : float) : BuildSite.official :=
  let yoy_growth := pct_change lv ya in
  let block v s e :=
    {| BuildSite.date := Some d; BuildSite.period := Some (slice 0 7 d);
       BuildSite.value := v; BuildSite.secondary := s;
       BuildSite.absolute := lv; BuildSite.extra := e |} in
  if String.eqb (BuildSite.unit ind) "%" then
    block (Some lv) (Some (lv - ya)%float)
          (Some ("yoy_pp_change", Some (lv - ya)%float))
  else if String.eqb (BuildSite.unit ind) "C$ millions" then
    block (Some lv) (Some (lv - pv)%float)
          (Some ("yoy_change_millions", Some (lv - ya)%float))
  else if BuildSite.is_dollar_unit (BuildSite.unit ind) then
    block (Some lv) (Some yoy_growth) (Some ("yoy_growth", Some yoy_growth))
  else
    block (Some yoy_growth) (Some ((p - 1) * 100)%float) None.

(** The block for a quarterly indicator: [month] is the month of the date
    [d], and [ya] the value of the fifth row from the end. *)
Definition quarterly_block (ind : BuildSite.indicator) (d : string) (month : Z)
    (lv pv ya : float) : BuildSite.official :=
  let yoy_growth := pct_change lv ya in
  let qoq_growth := pct_change lv pv in
  let period := slice 0 4 d ++ "-Q" ++ str ((month - 1) / 3 + 1) in
  if BuildSite.is_dollar_unit (BuildSite.unit ind) then
    {| BuildSite.date := Some d; BuildSite.period := Some period;
       BuildSite.value := Some lv; BuildSite.secondary := Some yoy_growth;
       BuildSite.absolute := lv;
       BuildSite.extra := Some ("yoy_growth", Some yoy_growth) |}
  else
    {| BuildSite.date := Some d; BuildSite.period := Some period;
       BuildSite.value := Some yoy_growth; BuildSite.secondary := Some qoq_growth;
       BuildSite.absolute := lv; BuildSite.extra := None |}.

(** The exceptions the body of [read_official_data] can end in: a missing
    column, a text that is no number, a cell that is [None], and what the
    power of the annualized monthly growth raises. *)
Definition reader_error (float_pow : float -> float -> res float)
    (ind : BuildSite.indicator) (e : exn) : Prop :=
  e = KeyError \/ e = ValueError \/ e = TypeError
  \/ (BuildSite.frequency ind <> "Quarterly"
      /\ BuildSite.frequency ind <> "Daily"
      /\ exists x, float_pow x 12%float = Raise e).

(** A vector of some configuration of the map carries the id [k]. *)
Definition listed (vector_map : list (string * config)) (k : string) : Prop :=
  exists key cfg v,
    (key, cfg) ∈ vector_map /\ v ∈ MinisterMain.config_vectors cfg /\ id v = k.

End Props2.

(** ** Further sample data *)

Module Samples2.
Import FetchMinisterData.

(** An answer whose points come out of order, with a point without value,
    a point without reference period and two points of the same date. *)
Definition unsorted_points : list point :=
  [mkpoint (Some "2025-03-01") (Some (JNumber 3));
   mkpoint (Some "2025-01-01") (Some (JNumber 1));
   mkpoint (Some "2025-02-01") None;
   mkpoint (Some "2025-01-01") (Some (JNumber 9));
   mkpoint None (Some (JNumber 4))].

Definition unsorted_answer (vid latestN : Z) (n : nat) : res response :=
  Ok (mkresponse 200 (Ok [mkitem (Some "SUCCESS") unsorted_points])).

Definition sorted_series : list observation :=
  [mkobs "2025-01-01" 1; mkobs "2025-01-01" 9; mkobs "2025-03-01" 3].

(** A service that answers every request with the thirteen monthly
    observations of [Samples.monthly13]. *)
Definition monthly_points : list point :=
  List.map (fun o => mkpoint (Some (date o)) (Some (JNumber (value o))))
           Samples.monthly13.

Definition monthly_answer (vid latestN : Z) (n : nat) : res response :=
  Ok (mkresponse 200 (Ok [mkitem (Some "SUCCESS") monthly_points])).

(** A map of two metrics: a rate, and a metric whose strategy is not in the
    registry. *)
Definition small_map : list (string * config) :=
  [("rate", mkconfig [mkvector "v1" 24 None None] "rate_yoy_pp" "negative"
                     "{:.1f}%" None None None);
   ("other", mkconfig [mkvector "v2" 24 None None] "median" "positive"
                      "{:.1f}" None None None)].

Definition small_fetched : gmap string (list observation) :=
  <["v2" := Samples.monthly13]> (<["v1" := Samples.monthly13]> ∅).

Definition rate_block : latest :=
  {| out_value := "125.0%"; detail := "↑ 25.0 pp year over year";
     detail_color := "negative"; period := "2025-01" |}.

Definition small_doc : MinisterMain.document :=
  {| MinisterMain.count := 1; MinisterMain.metrics := {[ "rate" := rate_block ]} |}.

(** A quarterly level shown against the previous quarter. *)
Definition qoq_cfg : config :=
  mkconfig [mkvector "q" 20 None None] "level_qoq_pct" "positive"
           "${:,.0f}" None None None.

Definition qoq_data : gmap string (list observation) :=
  {[ "q" := Samples.quarterly13 ]}.

(** Exports of 200 of which 150 to the United States, a year after 100 of
    which 80. *)
Definition share_cfg : config :=
  mkconfig [mkvector "t" 24 (Some "total_exports") None;
            mkvector "u" 24 (Some "us_exports") None]
           "share_pct" "positive" "{:.1f}%" None None None.

Definition share_data : gmap string (list observation) :=
  list_to_map [("t", [mkobs "2024-01-01" 100; mkobs "2025-01-01" 200]);
               ("u", [mkobs "2024-01-01" 80; mkobs "2025-01-01" 150])].

Definition small_map_rate : config :=
  mkconfig [mkvector "v1" 24 None None] "rate_yoy_pp" "negative"
           "{:.1f}%" None None None.

(** Male and female wages of 40 and 30, a year after 40 and 20. *)
Definition gap_cfg : config :=
  mkconfig [mkvector "m" 10 (Some "male_wage") None;
            mkvector "f" 10 (Some "female_wage") None]
           "wage_gap" "negative" "{:.1f}%" None None None.

Definition gap_data : gmap string (list observation) :=
  list_to_map [("m", [mkobs "2024-01-01" 40; mkobs "2025-01-01" 40]);
               ("f", [mkobs "2024-01-01" 20; mkobs "2025-01-01" 30])].

Definition qoq_block : latest :=
  {| out_value := "$60"; detail := "↑ 13.2% quarter over quarter";
     detail_color := "positive"; period := "2025-Q1" |}.

Definition share_block : latest :=
  {| out_value := "25.0%"; detail := "↑ 5.0 pp year over year";
     detail_color := "positive"; period := "2025-Q1" |}.

Definition gap_block : latest :=
  {| out_value := "25.0%"; detail := "↓ 25.0 pp year over year";
     detail_color := "positive"; period := "2025" |}.

(** The sum of the two series of [share_data]. *)
Definition sum_cfg : config :=
  mkconfig [mkvector "t" 24 None None; mkvector "u" 24 None None]
           "sum_yoy_pct" "positive" "{:,.0f}" None None None.

(** Two monthly rows whose growth, annualized, overflows. *)
Definition rows_overflow : list BuildSite.row :=
  [Samples.csv_row "2024-12-01" "0.000000000000000001";
   Samples.csv_row "2025-01-01" "9000000000000000"].

(** Three quarterly rows. *)
Definition quarterly_rows : list BuildSite.row :=
  [Samples.csv_row "2024-07-01" "100"; Samples.csv_row "2024-10-01" "110";
   Samples.csv_row "2025-01-01" "121"].

(** Two indicators, the second with an id that is no number, and the
    files after a run that could write. *)
Definition two_indicators : list (string * FetchOfficialData.info) :=
  [("gdp", FetchOfficialData.mkinfo "v65201210" "Real GDP" 60);
   ("bad", FetchOfficialData.mkinfo "vector" "No number" 60)].

Definition two_files : gmap string (list BuildSite.row) :=
  {[ "gdp" := List.map (FetchOfficialData.csv_row_of (Instances.str_format "{:.1f}"))
                       Samples.monthly13 ]}.

(** A level metric whose scalar is zero. *)
Definition zero_scalar_cfg : config :=
  mkconfig [mkvector "v1" 24 None None] "level_yoy_pct" "positive"
           "${:.1f}B" (Some 0%float) None None.

(** A rate whose template names a second argument. *)
Definition second_argument_cfg : config :=
  mkconfig [mkvector "v1" 24 None None] "rate_yoy_pp" "negative"
           "{1:.1f}%" None None None.

End Samples2.

(** ** Properties *)

Section PyFacts.

Lemma getitem_in_range {A} (l : list A) (i : Z) :
  - len l <= i < len l -> exists x, getitem l i = Ok x.
Proof.
  intros Hi. unfold getitem, len in *.
  set (j := if i <? 0 then i + Z.of_nat (length l) else i).
  assert (Hj : 0 <= j < Z.of_nat (length l)).
  { subst j. destruct (Z.ltb_spec i 0); lia. }
  replace ((0 <=? j) && (j <? Z.of_nat (length l))) with true
    by (symmetry; apply andb_true_iff; split; [apply Z.leb_le | apply Z.ltb_lt]; lia).
  destruct (lookup_lt_is_Some_2 l (Z.to_nat j)) as [x Hx]; [lia|].
  exists x. now rewrite Hx.
Qed.

Lemma getitem_last {A} (x : A) (l : list A) :
  exists y, getitem (x :: l) (-1) = Ok y.
Proof. apply getitem_in_range. unfold len. cbn [length]. lia. Qed.

Lemma bind_Ok {A B} (m : res A) (k : A -> res B) (b : B) :
  Py.bind m k = Ok b -> exists a, m = Ok a /\ k a = Ok b.
Proof. destruct m as [a|e]; cbn; [eauto | discriminate]. Qed.

End PyFacts.

Module CadenceFacts.
Import FetchMinisterData Cadence.

(** [get_yoy_index] is the lookback index of the cadence. *)
Lemma get_yoy_index_cadence (data : list observation) :
  get_yoy_index data = (c <- cadence_of data;; Ok (lookback_index c (len data))).
Proof.
  unfold get_yoy_index, cadence_of.
  destruct (is_annual data) as [[|]|e]; cbn; try reflexivity.
  destruct (is_quarterly data) as [[|]|e]; reflexivity.
Qed.

Lemma gap_tests (data : list observation) (o1 o2 : observation) (d1 d2 : Py.date) :
  2 <= len data ->
  getitem data (-1) = Ok o1 ->
  getitem data (-2) = Ok o2 ->
  strptime_ymd (slice 0 10 (date o1)) = Ok d1 ->
  strptime_ymd (slice 0 10 (date o2)) = Ok d2 ->
  is_annual data = Ok (300 <? days_between d1 d2)
  /\ is_quarterly data = Ok (60 <? days_between d1 d2).
Proof.
  intros Hlen H1 H2 P1 P2. unfold is_annual, is_quarterly.
  replace (len data <? 2) with false by (symmetry; apply Z.ltb_ge; lia).
  rewrite H1, H2. cbn. rewrite P1, P2. cbn. split; reflexivity.
Qed.

(** C3. For a series of at least two observations whose last two dates
    parse, the cadence depends only on the day gap between them: more than
    300 days is Annual, more than 60 (and at most 300) is Quarterly, anything
    less is Monthly; [get_yoy_index] takes the branch of that cadence. In
    particular 400 days give Annual, 90 days Quarterly and 30 days Monthly. *)
Theorem cadence_by_last_gap
    (data : list observation) (o1 o2 : observation) (d1 d2 : Py.date) :
  2 <= len data ->
  getitem data (-1) = Ok o1 ->
  getitem data (-2) = Ok o2 ->
  strptime_ymd (slice 0 10 (date o1)) = Ok d1 ->
  strptime_ymd (slice 0 10 (date o2)) = Ok d2 ->
  let gap := days_between d1 d2 in
  cadence_of data = Ok (cadence_of_gap gap)
  /\ get_yoy_index data = Ok (lookback_index (cadence_of_gap gap) (len data))
  /\ (300 < gap -> cadence_of data = Ok Annual)
  /\ (60 < gap <= 300 -> cadence_of data = Ok Quarterly)
  /\ (gap <= 60 -> cadence_of data = Ok Monthly)
  /\ (gap = 400 -> cadence_of data = Ok Annual)
  /\ (gap = 90 -> cadence_of data = Ok Quarterly)
  /\ (gap = 30 -> cadence_of data = Ok Monthly).
Proof.
  intros Hlen H1 H2 P1 P2 gap.
  destruct (gap_tests data o1 o2 d1 d2 Hlen H1 H2 P1 P2) as [Ha Hq].
  fold gap in Ha, Hq.
  assert (Hc : cadence_of data = Ok (cadence_of_gap gap)).
  { unfold cadence_of, cadence_of_gap. rewrite Ha. cbn.
    destruct (300 <? gap); [reflexivity|]. rewrite Hq. cbn.
    destruct (60 <? gap); reflexivity. }
  split; [exact Hc|].
  split; [rewrite get_yoy_index_cadence, Hc; reflexivity|].
  rewrite Hc. unfold cadence_of_gap.
  repeat apply conj; intros Hg.
  - replace (300 <? gap) with true by (symmetry; apply Z.ltb_lt; lia). reflexivity.
  - replace (300 <? gap) with false by (symmetry; apply Z.ltb_ge; lia).
    replace (60 <? gap) with true by (symmetry; apply Z.ltb_lt; lia). reflexivity.
  - replace (300 <? gap) with false by (symmetry; apply Z.ltb_ge; lia).
    replace (60 <? gap) with false by (symmetry; apply Z.ltb_ge; lia). reflexivity.
  - rewrite Hg. reflexivity.
  - rewrite Hg. reflexivity.
  - rewrite Hg. reflexivity.
Qed.

Lemma cadence_by_last_gap_witness :
  days_between (Py.mkdate 2025 2 4) (Py.mkdate 2024 1 1) = 400
  /\ cadence_of Samples.gap400 = Ok Annual.
Proof.
  split; [reflexivity|].
  pose proof (cadence_by_last_gap Samples.gap400
                (Samples.obs "2025-02-04" 2) (Samples.obs "2024-01-01" 1)
                (Py.mkdate 2025 2 4) (Py.mkdate 2024 1 1)) as H.
  cbv zeta in H.
  refine (proj1 (H _ _ _ _ _)); first [reflexivity | unfold len; cbn; lia].
Defined.

Example gap90_is_quarterly : cadence_of Samples.gap90 = Ok Quarterly.
Proof. reflexivity. Qed.

Example gap30_is_monthly : cadence_of Samples.gap30 = Ok Monthly.
Proof. reflexivity. Qed.

End CadenceFacts.

Module YoyIndexFacts.
Import FetchMinisterData Cadence CadenceFacts.

Lemma strptime_raises (s : string) (e : exn) :
  strptime_ymd s = Raise e -> e = ValueError.
Proof.
  unfold strptime_ymd.
  repeat match goal with
         | |- context [match ?x with _ => _ end] => destruct x
         end; congruence.
Qed.

Lemma gap_test_raises (k : Z) (data : list observation) (e : exn) :
  (if len data <? 2 then Ok false
   else
     o1 <- getitem data (-1);;
     d1 <- strptime_ymd (slice 0 10 (date o1));;
     o2 <- getitem data (-2);;
     d2 <- strptime_ymd (slice 0 10 (date o2));;
     Ok (k <? days_between d1 d2)) = Raise e ->
  e = ValueError.
Proof.
  destruct (Z.ltb_spec (len data) 2) as [|Hlen]; [discriminate|].
  destruct (getitem_in_range data (-1)) as [o1 E1]; [lia|].
  destruct (getitem_in_range data (-2)) as [o2 E2]; [lia|].
  rewrite E1. cbn.
  destruct (strptime_ymd (slice 0 10 (date o1))) eqn:P1; cbn.
  - rewrite E2. cbn.
    destruct (strptime_ymd (slice 0 10 (date o2))) eqn:P2; cbn; [discriminate|].
    intros [= <-]. eapply strptime_raises; eauto.
  - intros [= <-]. eapply strptime_raises; eauto.
Qed.

Lemma is_annual_raises data e : is_annual data = Raise e -> e = ValueError.
Proof. apply gap_test_raises. Qed.

Lemma is_quarterly_raises data e : is_quarterly data = Raise e -> e = ValueError.
Proof. apply gap_test_raises. Qed.

Lemma get_yoy_index_raises data e : get_yoy_index data = Raise e -> e = ValueError.
Proof.
  unfold get_yoy_index.
  destruct (is_annual data) as [[|]|e1] eqn:Ha; cbn; try discriminate.
  - destruct (is_quarterly data) as [[|]|e2] eqn:Hq; cbn; try discriminate.
    intros [= <-]. eapply is_quarterly_raises; eauto.
  - intros [= <-]. eapply is_annual_raises; eauto.
Qed.

Lemma get_yoy_index_values (data : list observation) (i : Z) :
  get_yoy_index data = Ok (Some i) ->
  (i = -2 /\ 2 <= len data) \/ (i = -5 /\ 5 <= len data)
  \/ (i = -13 /\ 13 <= len data).
Proof.
  rewrite get_yoy_index_cadence. intros H.
  apply bind_Ok in H as (c & _ & H). injection H as H.
  destruct c; cbn in H.
  - destruct (Z.leb_spec 2 (len data)); [|discriminate]. injection H as <-. auto.
  - destruct (Z.leb_spec 5 (len data)); [|discriminate]. injection H as <-. auto.
  - destruct (Z.leb_spec 13 (len data)); [|discriminate]. injection H as <-. auto.
Qed.

Lemma long_enough_getitem (other : list observation) (i : Z) :
  i < 0 -> long_enough (Some other) i = true ->
  exists o, getitem other i = Ok o.
Proof.
  intros Hi H. destruct other as [|o l]; [discriminate|].
  cbn [long_enough] in H. apply Z.leb_le in H.
  apply getitem_in_range. lia.
Qed.

(** The loop over the year-ago points breaks at a series that is missing
    or too short. *)
Lemma prev_values_short all_data (vs : list vector) (i : Z) :
  i < 0 ->
  Exists (fun v => long_enough (all_data !! id v) i = false) vs ->
  prev_values all_data vs i = Ok None.
Proof.
  intros Hi. induction 1 as [v vs Hv | v vs _ IH]; cbn [prev_values].
  - destruct (all_data !! id v) as [data|]; [|reflexivity]. now rewrite Hv.
  - destruct (all_data !! id v) as [data|]; [|reflexivity].
    destruct (long_enough (Some data) i) eqn:Hl; [|reflexivity].
    destruct (long_enough_getitem data i Hi Hl) as [o ->]. cbn [Py.bind].
    rewrite IH. reflexivity.
Qed.

End YoyIndexFacts.

(** ** Order facts on binary64 numbers *)

Section FloatOrder.

Lemma Prim2SF_zero : Prim2SF 0%float = S754_zero false.
Proof. reflexivity. Qed.

Lemma fgt_fge (c : float) : fgt c 0%float = true -> fge c 0%float = true.
Proof.
  unfold fgt, fge. rewrite FloatAxioms.ltb_spec, FloatAxioms.leb_spec. unfold SFltb, SFleb.
  destruct (SFcompare (Prim2SF 0%float) (Prim2SF c)) as [[]|]; congruence.
Qed.

Lemma fgt_not_fle (c : float) : fgt c 0%float = true -> fle c 0%float = false.
Proof.
  unfold fgt, fle. rewrite FloatAxioms.ltb_spec, FloatAxioms.leb_spec, Prim2SF_zero.
  unfold SFltb, SFleb.
  destruct (Prim2SF c) as [s| s | | s m e]; cbn; try congruence;
    destruct s; cbn; congruence.
Qed.

End FloatOrder.

Module SentimentFacts.
Import FetchMinisterData BuildSite.

Section WithFormat.

Variable str_format : string -> float -> string.
Variable format_raises : string -> float -> option exn.
Variable float_sum : list float -> float.

Lemma format_detail_color (change : float) (unit direction : string) :
  snd (format_detail str_format change unit direction) =
  if String.eqb direction "positive" then
    (if fge change 0%float then "positive" else "negative")
  else if String.eqb direction "negative" then
    (if fle change 0%float then "positive" else "negative")
  else "neutral".
Proof. reflexivity. Qed.

Lemma format_detail_arrow (change : float) (unit direction : string) :
  exists rest,
    fst (format_detail str_format change unit direction) =
    (if fge change 0%float then up_arrow else down_arrow) ++ " " ++ rest.
Proof.
  unfold format_detail. cbn [fst].
  destruct (String.eqb unit "pp"); eexists; reflexivity.
Qed.

End WithFormat.

Ltac each_key H :=
  repeat (apply elem_of_cons in H as [-> | H]);
  [.. | apply elem_of_nil in H; destruct H].

(** C7, as the code has it. The sentiment is a lookup on the direction and
    the sign of the change: under [positive] an increase is "positive", under
    [negative] an increase is "negative", and any other direction gives
    "neutral" whatever the sign. At a change of exactly zero the arrow points
    up, and [format_detail] answers "positive" under both directions ([>= 0]
    for [positive], [<= 0] for [negative]); [get_change_sentiment] tests
    [> 0], so there zero gets the sentiment of a decrease. *)
Theorem sentiment_lookup
    (str_format : string -> float -> string) (change : float) (unit : string) :
  snd (format_detail str_format change unit "positive")
    = (if fge change 0%float then "positive" else "negative")
  /\ snd (format_detail str_format change unit "negative")
    = (if fle change 0%float then "positive" else "negative")
  /\ (forall d, d <> "positive" -> d <> "negative" ->
        snd (format_detail str_format change unit d) = "neutral")
  /\ (fgt change 0%float = true ->
        snd (format_detail str_format change unit "positive") = "positive"
        /\ snd (format_detail str_format change unit "negative") = "negative")
  /\ (forall d, exists rest,
        fst (format_detail str_format 0%float unit d) = up_arrow ++ " " ++ rest)
  /\ snd (format_detail str_format 0%float unit "positive") = "positive"
  /\ snd (format_detail str_format 0%float unit "negative") = "positive"
  /\ (forall key, key ∈ positive_growth_indicators ->
        get_change_sentiment key (Some change)
        = if fgt change 0%float then "positive" else "negative")
  /\ (forall key, key ∈ negative_growth_indicators ->
        get_change_sentiment key (Some change)
        = if fgt change 0%float then "negative" else "positive")
  /\ (forall key, key ∈ neutral_indicators ->
        get_change_sentiment key (Some change) = "neutral")
  /\ (forall key, get_change_sentiment key None = "neutral").
Proof.
  repeat apply conj; try reflexivity.
  - intros d Hp Hn. rewrite format_detail_color.
    apply String.eqb_neq in Hp, Hn. now rewrite Hp, Hn.
  - intros Hinc. rewrite !format_detail_color.
    pose proof (fgt_fge change Hinc) as Hge.
    pose proof (fgt_not_fle change Hinc) as Hle.
    rewrite Hge, Hle. split; reflexivity.
  - intros d. apply (format_detail_arrow str_format 0%float unit d).
  - intros key H. unfold positive_growth_indicators in H.
    each_key H; reflexivity.
  - intros key H. unfold negative_growth_indicators in H.
    each_key H; reflexivity.
  - intros key H. unfold neutral_indicators in H.
    each_key H; reflexivity.
Qed.

Lemma sentiment_lookup_witness :
  fgt 1.5%float 0%float = true
  /\ snd (format_detail Instances.str_format 1.5%float "pp" "negative") = "negative".
Proof.
  split; [reflexivity|].
  destruct (sentiment_lookup Instances.str_format 1.5%float "pp")
    as (_ & _ & _ & H & _).
  exact (proj2 (H eq_refl)).
Defined.

(** C7 as stated fails at zero: under the [negative] direction
    [format_detail] calls a zero change "positive" although it calls an
    increase "negative", and [get_change_sentiment] calls a zero change of a
    positive-growth indicator "negative" although it calls an increase
    "positive". *)
Lemma zero_is_not_treated_as_increase :
  snd (format_detail Instances.str_format 0%float "pp" "negative") = "positive"
  /\ snd (format_detail Instances.str_format 1%float "pp" "negative") = "negative"
  /\ get_change_sentiment "gdp" (Some 0%float) = "negative"
  /\ get_change_sentiment "gdp" (Some 1%float) = "positive".
Proof. repeat split; reflexivity. Qed.

End SentimentFacts.

Module ResultFacts.
Import FetchMinisterData Props.

(** Taking a computation that returned apart, one step at a time. *)
Ltac invert_step :=
  match goal with
  | H : Ok _ = Ok _ |- _ => injection H as H
  | H : Some _ = Some _ |- _ => injection H as H
  | H : Raise _ = Ok _ |- _ => discriminate H
  | H : None = Some _ |- _ => discriminate H
  | H : (_, _) = (_, _) |- _ => injection H as ? ?
  | H : Py.bind ?m _ = Ok _ |- _ =>
      let E := fresh "E" in
      destruct m eqn:E; cbn [Py.bind] in H; [|discriminate H]
  | H : (let '(_, _) := ?p in _) = Ok _ |- _ =>
      let E := fresh "E" in destruct p eqn:E
  | H : (if ?b then _ else _) = Ok _ |- _ =>
      let E := fresh "E" in destruct b eqn:E
  | H : match ?x with _ => _ end = Ok _ |- _ =>
      let E := fresh "E" in destruct x eqn:E
  end.

Ltac invert_run := repeat invert_step.

Section WithFormat.

Variable str_format : string -> float -> string.
Variable format_raises : string -> float -> option exn.
Variable float_sum : list float -> float.

Local Abbreviation joint := (Props.joint str_format).

Lemma joint_empty dir v p : joint dir (mklatest v "" "neutral" p).
Proof. left. split; reflexivity. Qed.

Lemma joint_format_detail dir v p change unit d c :
  format_detail str_format change unit dir = (d, c) ->
  joint dir (mklatest v d c p).
Proof.
  intros H. right. exists change.
  destruct (SentimentFacts.format_detail_arrow str_format change unit dir)
    as [rest Hrest].
  exists rest. rewrite H in Hrest. cbn in *. split; [exact Hrest|].
  change c with (snd (d, c)). rewrite <- H. reflexivity.
Qed.

Lemma joint_not_both dir r :
  joint dir r -> detail r = "" -> detail_color r = "neutral".
Proof.
  intros [[_ H] | (change & rest & Hd & _)] He; [exact H|].
  rewrite Hd in He. unfold up_arrow, down_arrow in He.
  destruct (fge change 0%float); discriminate He.
Qed.

Lemma rate_yoy_pp_joint cfg all_data r :
  compute_rate_yoy_pp str_format format_raises cfg all_data = Ok (Some r) ->
  joint (direction cfg) r.
Proof.
  unfold compute_rate_yoy_pp. intros H. invert_run. subst r.
  eapply joint_format_detail; eauto.
Qed.

Lemma level_yoy_pct_joint cfg all_data r :
  compute_level_yoy_pct str_format format_raises cfg all_data = Ok (Some r) ->
  joint (direction cfg) r.
Proof.
  unfold compute_level_yoy_pct. intros H. invert_run; subst r;
    eapply joint_format_detail; eauto.
Qed.

Lemma level_qoq_pct_joint cfg all_data r :
  compute_level_qoq_pct str_format format_raises cfg all_data = Ok (Some r) ->
  joint (direction cfg) r.
Proof.
  unfold compute_level_qoq_pct. intros H. invert_run; subst r;
    right; eexists _, _; split; reflexivity.
Qed.

Ltac solve_joint :=
  subst;
  first [ apply joint_empty
        | eapply joint_format_detail; eassumption
        | right; eexists _, _; split; reflexivity ].

Lemma share_pct_joint cfg all_data r :
  compute_share_pct str_format format_raises cfg all_data = Ok (Some r) ->
  joint (direction cfg) r.
Proof. unfold compute_share_pct. intros H. invert_run; solve_joint. Qed.

Lemma wage_gap_joint cfg all_data r :
  compute_wage_gap str_format format_raises cfg all_data = Ok (Some r) ->
  joint (direction cfg) r.
Proof. unfold compute_wage_gap. intros H. invert_run; solve_joint. Qed.

Lemma composite_avg_joint cfg all_data r :
  compute_composite_avg str_format format_raises float_sum cfg all_data = Ok (Some r) ->
  joint (direction cfg) r.
Proof. unfold compute_composite_avg. intros H. invert_run; solve_joint. Qed.

Lemma sum_yoy_pct_joint cfg all_data r :
  compute_sum_yoy_pct str_format format_raises cfg all_data = Ok (Some r) ->
  joint (direction cfg) r.
Proof. unfold compute_sum_yoy_pct. intros H. invert_run; solve_joint. Qed.

Lemma combined_rate_joint cfg all_data r :
  compute_combined_rate str_format format_raises cfg all_data = Ok (Some r) ->
  joint (direction cfg) r.
Proof. unfold compute_combined_rate. intros H. invert_run; solve_joint. Qed.

Lemma registry_joint name f cfg all_data r :
  COMPUTE_FUNCTIONS str_format format_raises float_sum name = Some f ->
  f cfg all_data = Ok (Some r) ->
  joint (direction cfg) r.
Proof.
  unfold COMPUTE_FUNCTIONS. intros Hf.
  repeat match type of Hf with
         | (if ?b then _ else _) = _ => destruct b
         end;
    try discriminate Hf; injection Hf as <-;
    eauto using rate_yoy_pp_joint, level_yoy_pct_joint, level_qoq_pct_joint,
      share_pct_joint, wage_gap_joint, composite_avg_joint, sum_yoy_pct_joint,
      combined_rate_joint.
Qed.

Lemma share_pct_no_lookback cfg all_data r tv uv total_data us_data :
  find_labels "total_exports" "us_exports" (vectors cfg) (None, None) = Ok (tv, uv) ->
  get_data all_data tv = Some total_data ->
  get_data all_data uv = Some us_data ->
  (forall i, get_yoy_index total_data = Ok (Some i) -> len us_data < Z.abs i) ->
  compute_share_pct str_format format_raises cfg all_data = Ok (Some r) ->
  detail r = "" /\ detail_color r = "neutral".
Proof.
  intros Hl Ht Hu Hno H. unfold compute_share_pct in H.
  rewrite Hl in H. cbn [Py.bind] in H. rewrite Ht, Hu in H.
  invert_run; subst; try (split; reflexivity).
  all: match goal with
       | G : (Z.abs ?z <=? _) = true |- _ =>
           assert (Hz : len us_data < Z.abs z)
             by (first [ apply Hno; assumption | exact (Hno z eq_refl) ]);
           apply Z.leb_le in G; lia
       end.
Qed.

Lemma combined_rate_no_lookback cfg all_data r n0 ns ref_data :
  with_role "numerator" (vectors cfg) = n0 :: ns ->
  all_data !! id n0 = Some ref_data ->
  (forall i pns pds,
      get_yoy_index ref_data = Ok (Some i) ->
      prev_values all_data (n0 :: ns) i = Ok (Some pns) ->
      prev_values all_data (with_role "denominator" (vectors cfg)) i = Ok (Some pds) ->
      Py.sum pds = 0%float) ->
  compute_combined_rate str_format format_raises cfg all_data = Ok (Some r) ->
  detail r = "" /\ detail_color r = "neutral".
Proof.
  intros Hn Href Hno H. unfold compute_combined_rate in H. cbv zeta in H.
  rewrite Hn in H.
  destruct (with_role "denominator" (vectors cfg)) as [|d0 ds] eqn:Hd;
    [discriminate H|].
  invert_run; subst; try (split; reflexivity).
  all: try congruence.
  all: match goal with
       | G : fne (Py.sum ?pds) _ = true |- _ =>
           assert (Hz : Py.sum pds = 0%float)
             by (first [ eapply Hno; eassumption
                       | exact (Hno _ _ pds eq_refl eq_refl eq_refl) ]);
           rewrite Hz in G; discriminate G
       end.
Qed.

Lemma wage_gap_no_lookback cfg all_data r mv fv male_data female_data :
  find_labels "male_wage" "female_wage" (vectors cfg) (None, None) = Ok (mv, fv) ->
  get_data all_data mv = Some male_data ->
  get_data all_data fv = Some female_data ->
  (forall i, get_yoy_index male_data = Ok (Some i) -> len female_data < Z.abs i) ->
  compute_wage_gap str_format format_raises cfg all_data = Ok (Some r) ->
  detail r = "" /\ detail_color r = "neutral".
Proof.
  intros Hl Hm Hf Hno H. unfold compute_wage_gap in H.
  rewrite Hl in H. cbn [Py.bind] in H. rewrite Hm, Hf in H.
  invert_run; subst; try (split; reflexivity).
  all: match goal with
       | G : (Z.abs ?z <=? _) = true |- _ =>
           assert (Hz : len female_data < Z.abs z)
             by (first [ apply Hno; assumption | exact (Hno z eq_refl) ]);
           apply Z.leb_le in G; lia
       end.
Qed.

(** A lookback index and a series that does not reach it: the loop over
    the year-ago points gives nothing. *)
Ltac too_short Hvs Href Hno :=
  match goal with
  | Ev : getitem (vectors _) 0 = Ok ?v, Er : _ !! id ?v = Some ?l,
    Ei : get_yoy_index ?l = Ok (Some ?z),
    Ep : prev_values _ (vectors _) ?z = Ok (Some _) |- _ =>
      rewrite Hvs in Ev; injection Ev as <-;
      rewrite Href in Er; injection Er as <-;
      pose proof (YoyIndexFacts.get_yoy_index_values _ _ Ei);
      rewrite <- Hvs in Hno;
      rewrite (YoyIndexFacts.prev_values_short _ (vectors _) z) in Ep;
      [discriminate Ep | lia | apply Hno; exact Ei]
  end.

Lemma composite_avg_no_lookback cfg all_data r v0 vs ref_data :
  vectors cfg = v0 :: vs ->
  all_data !! id v0 = Some ref_data ->
  (forall i, get_yoy_index ref_data = Ok (Some i) ->
     Exists (fun v => long_enough (all_data !! id v) i = false) (v0 :: vs)) ->
  compute_composite_avg str_format format_raises float_sum cfg all_data
  = Ok (Some r) ->
  detail r = "" /\ detail_color r = "neutral".
Proof.
  intros Hvs Href Hno H. unfold compute_composite_avg in H.
  invert_run; subst; try (split; reflexivity); too_short Hvs Href Hno.
Qed.

Lemma sum_yoy_pct_no_lookback cfg all_data r v0 vs ref_data :
  vectors cfg = v0 :: vs ->
  all_data !! id v0 = Some ref_data ->
  (forall i, get_yoy_index ref_data = Ok (Some i) ->
     Exists (fun v => long_enough (all_data !! id v) i = false) (v0 :: vs)) ->
  compute_sum_yoy_pct str_format format_raises cfg all_data = Ok (Some r) ->
  detail r = "" /\ detail_color r = "neutral".
Proof.
  intros Hvs Href Hno H. unfold compute_sum_yoy_pct in H.
  invert_run; subst; try (split; reflexivity); too_short Hvs Href Hno.
Qed.

Lemma sum_yoy_pct_zero_total cfg all_data r v0 vs ref_data :
  vectors cfg = v0 :: vs ->
  all_data !! id v0 = Some ref_data ->
  (forall i xs, get_yoy_index ref_data = Ok (Some i) ->
     prev_values all_data (v0 :: vs) i = Ok (Some xs) ->
     feq (Py.sum xs) 0%float = true) ->
  compute_sum_yoy_pct str_format format_raises cfg all_data = Ok (Some r) ->
  detail r = "" /\ detail_color r = "neutral".
Proof.
  intros Hvs Href Hno H. unfold compute_sum_yoy_pct in H.
  invert_run; subst; try (split; reflexivity).
  all: match goal with
       | Ev : getitem (vectors _) 0 = Ok ?v, Er : _ !! id ?v = Some ?l,
         Ei : get_yoy_index ?l = Ok (Some ?z),
         Ep : prev_values _ (vectors _) ?z = Ok (Some ?xs),
         G : fne (Py.sum ?xs) _ = true |- _ =>
           rewrite Hvs in Ev, Ep; injection Ev as <-;
           rewrite Href in Er; injection Er as <-;
           pose proof (Hno z xs Ei Ep) as Hz;
           unfold fne, feq in *; rewrite Hz in G; discriminate G
       end.
Qed.

Lemma combined_rate_too_short cfg all_data r n0 ns ref_data :
  with_role "numerator" (vectors cfg) = n0 :: ns ->
  all_data !! id n0 = Some ref_data ->
  (forall i, get_yoy_index ref_data = Ok (Some i) ->
     Exists (fun v => long_enough (all_data !! id v) i = false)
            (with_role "numerator" (vectors cfg)
             ++ with_role "denominator" (vectors cfg))%list) ->
  compute_combined_rate str_format format_raises cfg all_data = Ok (Some r) ->
  detail r = "" /\ detail_color r = "neutral".
Proof.
  intros Hn Href Hno H. unfold compute_combined_rate in H. cbv zeta in H.
  rewrite Hn in *.
  destruct (with_role "denominator" (vectors cfg)) as [|d0 ds] eqn:Hd;
    [discriminate H|].
  invert_run; subst; try (split; reflexivity).
  all: try congruence.
  all: match goal with
       | Ei : get_yoy_index _ = Ok (Some ?z),
         Ep : prev_values _ _ ?z = Ok (Some ?pn),
         Eq : prev_values _ _ ?z = Ok (Some ?pd),
         G : fne (Py.sum ?pd) _ = true |- _ =>
           pose proof (YoyIndexFacts.get_yoy_index_values _ _ Ei);
           apply Hno in Ei; apply Exists_app in Ei as [Hs | Hs];
           [ rewrite (YoyIndexFacts.prev_values_short _ _ z) in Ep by (lia || exact Hs);
             discriminate Ep
           | rewrite (YoyIndexFacts.prev_values_short _ _ z) in Eq by (lia || exact Hs);
             discriminate Eq ]
       end.
Qed.

Lemma get_data_lookup all_data k (l : list observation) :
  get_data all_data k = Some l -> exists key, k = Some key /\ all_data !! key = Some l.
Proof.
  unfold get_data. destruct k as [key|]; [|discriminate].
  destruct (all_data !! key) as [[|o l']|] eqn:E; try discriminate.
  intros [= <-]. eauto.
Qed.

(** No series has a lookback index. *)
Ltac no_index Hall :=
  match goal with
  | E : get_yoy_index ?l = Ok (Some _), G : get_data _ _ = Some ?l |- _ =>
      apply get_data_lookup in G as (? & _ & G); apply Hall in G; congruence
  | E : get_yoy_index ?l = Ok (Some _), G : _ !! _ = Some ?l |- _ =>
      apply Hall in G; congruence
  end.

Lemma registry_no_lookback name f cfg all_data r :
  COMPUTE_FUNCTIONS str_format format_raises float_sum name = Some f ->
  name <> "level_qoq_pct" ->
  (forall k data, all_data !! k = Some data -> get_yoy_index data = Ok None) ->
  f cfg all_data = Ok (Some r) ->
  detail r = "" /\ detail_color r = "neutral".
Proof.
  unfold COMPUTE_FUNCTIONS. intros Hf Hname Hall.
  repeat match type of Hf with
         | (if String.eqb ?a ?b then _ else _) = _ =>
             let E := fresh "E" in destruct (String.eqb a b) eqn:E
         end;
    try discriminate Hf; injection Hf as <-;
    try (apply String.eqb_eq in E1; congruence);
    try (apply String.eqb_eq in E2; congruence);
    unfold compute_count_yoy_pct, compute_rate_yoy_pp, compute_level_yoy_pct,
      compute_share_pct, compute_wage_gap, compute_composite_avg,
      compute_sum_yoy_pct, compute_combined_rate;
    intros H; invert_run; subst; try (split; reflexivity); no_index Hall.
Qed.

End WithFormat.

(** C8. Whatever strategy of the registry produced a result, its comparison
    text and its colour go together: either the text is empty and the colour
    is "neutral", or both come from one change (the text opens with the arrow
    of the change, the colour is the one [format_detail] gives it). So an
    empty text never carries another colour than "neutral". And where the
    lookback is missing the result is the empty pair:
    - in every strategy that compares with a year ago, when no series has a
      lookback index ([rate_yoy_pp] and [level_yoy_pct] then produce no
      result at all; [level_qoq_pct] compares with the previous observation,
      which a result always has);
    - in [share_pct] and in [wage_gap], when the reference series has no
      lookback index or the other series is shorter than it;
    - in [composite_avg] and in [sum_yoy_pct], when the first series has no
      lookback index or one of the series is shorter than it; in
      [sum_yoy_pct] also when the year-ago values sum to zero;
    - in [combined_rate], when there is no index, a series is too short, or
      the year-ago denominators sum to zero. *)
Theorem detail_and_color_joint (str_format : string -> float -> string)
    (format_raises : string -> float -> option exn)
    (float_sum : list float -> float) :
  (forall name f cfg all_data r,
      COMPUTE_FUNCTIONS str_format format_raises float_sum name = Some f ->
      f cfg all_data = Ok (Some r) ->
      joint str_format (direction cfg) r
      /\ (detail r = "" -> detail_color r = "neutral")
      /\ (detail_color r <> "neutral" -> detail r <> ""))
  /\ (forall name f cfg all_data r,
        COMPUTE_FUNCTIONS str_format format_raises float_sum name = Some f ->
        name <> "level_qoq_pct" ->
        (forall k data, all_data !! k = Some data ->
                        get_yoy_index data = Ok None) ->
        f cfg all_data = Ok (Some r) ->
        detail r = "" /\ detail_color r = "neutral")
  /\ (forall cfg all_data r tv uv total_data us_data,
        find_labels "total_exports" "us_exports" (vectors cfg) (None, None)
          = Ok (tv, uv) ->
        get_data all_data tv = Some total_data ->
        get_data all_data uv = Some us_data ->
        (forall i, get_yoy_index total_data = Ok (Some i) ->
                   len us_data < Z.abs i) ->
        compute_share_pct str_format format_raises cfg all_data = Ok (Some r) ->
        detail r = "" /\ detail_color r = "neutral")
  /\ (forall cfg all_data r n0 ns ref_data,
        with_role "numerator" (vectors cfg) = n0 :: ns ->
        all_data !! id n0 = Some ref_data ->
        (forall i pns pds,
            get_yoy_index ref_data = Ok (Some i) ->
            prev_values all_data (n0 :: ns) i = Ok (Some pns) ->
            prev_values all_data (with_role "denominator" (vectors cfg)) i
              = Ok (Some pds) ->
            Py.sum pds = 0%float) ->
        compute_combined_rate str_format format_raises cfg all_data = Ok (Some r) ->
        detail r = "" /\ detail_color r = "neutral")
  /\ (forall cfg all_data r mv fv male_data female_data,
        find_labels "male_wage" "female_wage" (vectors cfg) (None, None)
          = Ok (mv, fv) ->
        get_data all_data mv = Some male_data ->
        get_data all_data fv = Some female_data ->
        (forall i, get_yoy_index male_data = Ok (Some i) ->
                   len female_data < Z.abs i) ->
        compute_wage_gap str_format format_raises cfg all_data = Ok (Some r) ->
        detail r = "" /\ detail_color r = "neutral")
  /\ (forall cfg all_data r v0 vs ref_data,
        vectors cfg = v0 :: vs ->
        all_data !! id v0 = Some ref_data ->
        (forall i, get_yoy_index ref_data = Ok (Some i) ->
           Exists (fun v => long_enough (all_data !! id v) i = false) (v0 :: vs)) ->
        (compute_composite_avg str_format format_raises float_sum cfg all_data
         = Ok (Some r) ->
         detail r = "" /\ detail_color r = "neutral")
        /\ (compute_sum_yoy_pct str_format format_raises cfg all_data
            = Ok (Some r) ->
            detail r = "" /\ detail_color r = "neutral"))
  /\ (forall cfg all_data r v0 vs ref_data,
        vectors cfg = v0 :: vs ->
        all_data !! id v0 = Some ref_data ->
        (forall i xs, get_yoy_index ref_data = Ok (Some i) ->
           prev_values all_data (v0 :: vs) i = Ok (Some xs) ->
           feq (Py.sum xs) 0%float = true) ->
        compute_sum_yoy_pct str_format format_raises cfg all_data = Ok (Some r) ->
        detail r = "" /\ detail_color r = "neutral")
  /\ (forall cfg all_data r n0 ns ref_data,
        with_role "numerator" (vectors cfg) = n0 :: ns ->
        all_data !! id n0 = Some ref_data ->
        (forall i, get_yoy_index ref_data = Ok (Some i) ->
           Exists (fun v => long_enough (all_data !! id v) i = false)
                  (with_role "numerator" (vectors cfg)
                   ++ with_role "denominator" (vectors cfg))%list) ->
        compute_combined_rate str_format format_raises cfg all_data = Ok (Some r) ->
        detail r = "" /\ detail_color r = "neutral").
Proof.
  repeat apply conj.
  - intros name f cfg all_data r Hf Hr.
    pose proof (registry_joint str_format format_raises float_sum
                  name f cfg all_data r Hf Hr) as J.
    split; [exact J|]. split.
    + apply (joint_not_both str_format _ _ J).
    + intros Hc He. apply Hc. apply (joint_not_both str_format _ _ J He).
  - apply registry_no_lookback.
  - apply share_pct_no_lookback.
  - apply combined_rate_no_lookback.
  - apply wage_gap_no_lookback.
  - intros cfg all_data r v0 vs ref_data Hvs Href Hno. split.
    + eapply composite_avg_no_lookback; eassumption.
    + eapply sum_yoy_pct_no_lookback; eassumption.
  - apply sum_yoy_pct_zero_total.
  - apply combined_rate_too_short.
Qed.

Lemma detail_and_color_joint_witness :
  (exists r,
     compute_combined_rate Instances.str_format Instances.format_raises
       Samples.combined_cfg Samples.combined_data = Ok (Some r)
     /\ detail r = "" /\ detail_color r = "neutral")
  /\ (exists r,
        compute_composite_avg Instances.str_format Instances.format_raises Py.sum
          Samples.short_cfg Samples.short_data = Ok (Some r)
        /\ detail r = "" /\ detail_color r = "neutral").
Proof.
  pose proof (detail_and_color_joint Instances.str_format
                Instances.format_raises Py.sum)
    as (_ & _ & _ & Hc & _ & Hs & _).
  split.
  - eexists. split; [vm_compute; reflexivity|].
    refine (Hc Samples.combined_cfg Samples.combined_data _
              (Samples.role_vector "n1" "numerator")
              [Samples.role_vector "n2" "numerator";
               Samples.role_vector "n3" "numerator"]
              [Samples.obs "2025-01-01" 10] _ _ _ _).
    + reflexivity.
    + reflexivity.
    + intros i pns pds Hi. vm_compute in Hi. discriminate Hi.
    + vm_compute. reflexivity.
  - eexists. split; [vm_compute; reflexivity|].
    refine (proj1 (Hs Samples.short_cfg Samples.short_data _
                     (mkvector "a" 20 None None) [mkvector "s" 20 None None]
                     Samples.monthly13 _ _ _) _).
    + reflexivity.
    + reflexivity.
    + intros i Hi. vm_compute in Hi. injection Hi as <-.
      apply Exists_cons_tl, Exists_cons_hd. reflexivity.
    + vm_compute. reflexivity.
Defined.

End ResultFacts.

Module GrowthFacts.
Import FetchMinisterData Cadence CadenceFacts.

Lemma get_data_some all_data k (data : list observation) :
  all_data !! k = Some data -> 1 <= len data ->
  get_data all_data (Some k) = Some data.
Proof.
  intros H Hlen. unfold get_data. rewrite H.
  destruct data; [unfold len in Hlen; cbn in Hlen; lia | reflexivity].
Qed.

Lemma getitem_elem {A} (l : list A) (i : Z) (x : A) :
  getitem l i = Ok x -> x ∈ l.
Proof.
  unfold getitem. destruct (_ && _); [|discriminate].
  destruct (l !! _) eqn:E; [|discriminate].
  intros [= <-]. eapply list_elem_of_lookup_2; eauto.
Qed.

Lemma monthly_period (data : list observation) (d : string) :
  cadence_of data = Ok Monthly ->
  period_of data d = Ok (slice 0 7 d).
Proof.
  unfold cadence_of, period_of.
  destruct (is_annual data) as [[|]|]; cbn; try discriminate.
  destruct (is_quarterly data) as [[|]|]; cbn; try discriminate.
  reflexivity.
Qed.

Lemma truediv_nonzero (x y : float) :
  feq y 0%float = false -> truediv x y = Ok (x / y)%float.
Proof. intros H. unfold truediv. now rewrite H. Qed.

Section WithFormat.

Variable str_format : string -> float -> string.
Variable format_raises : string -> float -> option exn.
Variable float_sum : list float -> float.

(** The result of [compute_level_yoy_pct] on a series with a lookback
    observation [y] at index [i]. *)
Lemma level_yoy_pct_run cfg all_data vec data o y i p :
  getitem (vectors cfg) 0 = Ok vec ->
  all_data !! id vec = Some data ->
  2 <= len data ->
  feq (scalar_of cfg) 0%float = false ->
  getitem data (-1) = Ok o ->
  get_yoy_index data = Ok (Some i) ->
  getitem data i = Ok y ->
  period_of data (date o) = Ok p ->
  compute_level_yoy_pct str_format format_raises cfg all_data =
  (out <- format_with str_format format_raises (format_value cfg)
            (value o / scalar_of cfg)%float;;
   Ok (Some
         (let pct_change :=
            if fne (value y) 0%float
            then ((value o / value y - 1) * 100)%float else 0%float in
          {| out_value := out;
             detail := fst (format_detail str_format pct_change "%" (direction cfg));
             detail_color := snd (format_detail str_format pct_change "%" (direction cfg));
             period := p |}))).
Proof.
  intros Hv Hd Hlen Hs Ho Hi Hy Hp. unfold compute_level_yoy_pct.
  rewrite Hv. cbn [Py.bind]. rewrite (get_data_some _ _ _ Hd) by lia.
  replace (len data <? 2) with false by (symmetry; apply Z.ltb_ge; lia).
  rewrite Ho. cbn [Py.bind]. rewrite (truediv_nonzero _ _ Hs). cbn [Py.bind].
  rewrite Hi. cbn [Py.bind]. rewrite Hy. cbn [Py.bind].
  destruct (fne (value y) 0%float) eqn:Hz.
  - rewrite truediv_nonzero
      by (unfold fne in Hz; apply negb_true_iff in Hz; exact Hz).
    cbn [Py.bind]. rewrite Hp. reflexivity.
  - cbn [Py.bind]. rewrite Hp. reflexivity.
Qed.

End WithFormat.

End GrowthFacts.

Module ReaderFacts.
Import BuildSite Props Props2.

Section WithParsers.

Variable py_float : string -> option float.
Variable float_pow : float -> float -> res float.

Lemma growth_pct latest prev :
  growth latest prev = Ok (pct_change latest prev).
Proof.
  unfold growth, pct_change, truediv, feq, fne.
  destruct (PrimFloat.eqb prev 0); reflexivity.
Qed.

Lemma pct_change_nonzero latest prev :
  feq prev 0%float = false ->
  pct_change latest prev = ((latest / prev - 1) * 100)%float.
Proof. intros H. unfold pct_change, fne, feq in *. now rewrite H. Qed.

Lemma pct_change_zero latest prev :
  feq prev 0%float = true -> pct_change latest prev = 0%float.
Proof. intros H. unfold pct_change, fne, feq in *. now rewrite H. Qed.

(** The value of the row [latest = rows[-1]]. *)
Lemma value_at_last rows latest lv :
  getitem rows (-1) = Ok latest ->
  value_at py_float rows (-1) = Ok lv ->
  exists c, cell latest "value" = Ok c /\ to_float py_float c = Ok lv.
Proof.
  intros Hl H. unfold value_at in H. rewrite Hl in H. cbn [Py.bind] in H.
  destruct (cell latest "value") as [c|]; [|discriminate H].
  exists c. split; [reflexivity | exact H].
Qed.

Lemma kept_nonempty (all_rows : list row) (n : Z) :
  0 < n -> n <= len (List.filter has_value all_rows) ->
  exists r rs, List.filter has_value all_rows = r :: rs.
Proof.
  intros Hn H. destruct (List.filter has_value all_rows) as [|r rs]; [|eauto].
  unfold len in H. cbn in H. lia.
Qed.

(** [read_official_data] on a monthly indicator whose file keeps at least
    thirteen rows: the latest row is dated [d], and the values of the
    latest row, of the row before it and of the thirteenth row from the end
    are the numbers [lv], [pv] and [ya]. *)
Lemma read_official_monthly ind all_rows latest d lv pv ya :
  frequency ind = "Monthly" ->
  let rows := List.filter has_value all_rows in
  13 <= len rows ->
  getitem rows (-1) = Ok latest ->
  latest !! "date" = Some (Some d) ->
  value_at py_float rows (-1) = Ok lv ->
  value_at py_float rows (-2) = Ok pv ->
  value_at py_float rows (-13) = Ok ya ->
  read_official_data py_float float_pow ind (Some (Ok all_rows))
  = catch_to_none
      (p <- float_pow (1 + pct_change lv pv / 100)%float 12%float;;
       Ok (Some (monthly_block ind d lv pv ya p))).
Proof.
  intros Hf rows Hlen Hl Hd Hlv Hpv Hya.
  destruct (value_at_last rows latest lv Hl Hlv) as (c & Hc & Hx).
  destruct (kept_nonempty all_rows 13) as (r0 & rs & Hk); [lia | exact Hlen |].
  unfold read_official_data. cbn [Py.bind]. fold rows.
  change (List.filter has_value all_rows) with rows in Hk.
  destruct rows as [|r1 rs1] eqn:Hrows; [discriminate Hk|].
  rewrite <- Hrows in *. clear Hk.
  f_equal. unfold official_body.
  rewrite Hl. cbn [Py.bind]. rewrite Hc. cbn [Py.bind]. rewrite Hx. cbn [Py.bind].
  unfold cell at 1. rewrite Hd. cbn [Py.bind]. unfold official_dated.
  rewrite Hf. cbn [String.eqb Ascii.eqb Bool.eqb negb slice_of Py.bind].
  replace (2 <=? len rows) with true by (symmetry; apply Z.leb_le; lia).
  rewrite Hpv. cbn [Py.bind]. rewrite growth_pct. cbn [Py.bind].
  destruct (float_pow _ _) as [p|e]; cbn [Py.bind]; [|reflexivity].
  unfold year_over_year.
  replace (13 <=? len rows) with true by (symmetry; apply Z.leb_le; lia).
  change (- (13)) with (-13). rewrite Hya. cbn [Py.bind].
  rewrite growth_pct. cbn [Py.bind].
  unfold monthly_block.
  destruct (String.eqb (unit ind) "%"); [reflexivity|].
  destruct (String.eqb (unit ind) "C$ millions").
  - try rewrite Hpv. try rewrite Hya. reflexivity.
  - destruct (is_dollar_unit (unit ind)); reflexivity.
Qed.

(** The same for a quarterly indicator whose file keeps at least five
    rows; [month] is the month the date [d] names. *)
Lemma read_official_quarterly ind all_rows latest d month lv pv ya :
  frequency ind = "Quarterly" ->
  let rows := List.filter has_value all_rows in
  5 <= len rows ->
  getitem rows (-1) = Ok latest ->
  latest !! "date" = Some (Some d) ->
  Py.int (slice 5 7 d) = Ok month ->
  value_at py_float rows (-1) = Ok lv ->
  value_at py_float rows (-2) = Ok pv ->
  value_at py_float rows (-5) = Ok ya ->
  read_official_data py_float float_pow ind (Some (Ok all_rows))
  = Ok (Some (quarterly_block ind d month lv pv ya)).
Proof.
  intros Hf rows Hlen Hl Hd Hm Hlv Hpv Hya.
  destruct (value_at_last rows latest lv Hl Hlv) as (c & Hc & Hx).
  destruct (kept_nonempty all_rows 5) as (r0 & rs & Hk); [lia | exact Hlen |].
  unfold read_official_data. cbn [Py.bind]. fold rows.
  change (List.filter has_value all_rows) with rows in Hk.
  destruct rows as [|r1 rs1] eqn:Hrows; [discriminate Hk|].
  rewrite <- Hrows in *. clear Hk.
  unfold official_body.
  rewrite Hl. cbn [Py.bind]. rewrite Hc. cbn [Py.bind]. rewrite Hx. cbn [Py.bind].
  unfold cell at 1. rewrite Hd. cbn [Py.bind]. unfold official_dated.
  rewrite Hf. cbn [String.eqb Ascii.eqb Bool.eqb slice_of Py.bind].
  rewrite Hm. cbn [Py.bind].
  replace (2 <=? len rows) with true by (symmetry; apply Z.leb_le; lia).
  replace (5 <=? len rows) with true by (symmetry; apply Z.leb_le; lia).
  rewrite Hpv. cbn [Py.bind]. rewrite growth_pct. cbn [Py.bind].
  rewrite Hya. cbn [Py.bind]. rewrite growth_pct. cbn [Py.bind].
  unfold quarterly_block.
  destruct (is_dollar_unit (unit ind)); reflexivity.
Qed.

End WithParsers.

End ReaderFacts.

Module YearOverYear.
Import FetchMinisterData Cadence CadenceFacts GrowthFacts Props.

(** [compute_level_yoy_pct] stops at the division by a zero scalar. *)
Lemma level_yoy_pct_zero_scalar (str_format : string -> float -> string)
    (format_raises : string -> float -> option exn) cfg all_data vec data :
  getitem (vectors cfg) 0 = Ok vec ->
  all_data !! id vec = Some data ->
  2 <= len data ->
  feq (scalar_of cfg) 0%float = true ->
  compute_level_yoy_pct str_format format_raises cfg all_data
  = Raise ZeroDivisionError.
Proof.
  intros Hv Hd Hlen Hs. unfold compute_level_yoy_pct.
  rewrite Hv. cbn [Py.bind]. rewrite (get_data_some _ _ _ Hd) by lia.
  replace (len data <? 2) with false by (symmetry; apply Z.ltb_ge; lia).
  destruct (getitem_in_range data (-1)) as [o Ho]; [lia|].
  rewrite Ho. cbn [Py.bind]. unfold truediv. rewrite Hs. reflexivity.
Qed.

(** C2, as the code has it. A monthly series with at least thirteen
    observations, none of them zero, is compared with the thirteenth
    observation from the end.
    - [compute_level_yoy_pct] (and [compute_count_yoy_pct], which calls it)
      makes its detail line and colour from
      [(latest / obs[-13] - 1) * 100], and then formats its value; with a
      zero scalar it ends in [ZeroDivisionError] before any comparison.
    - [read_official_data], on a monthly indicator whose file keeps at least
      thirteen rows with non-zero numbers in the last two rows and in the
      thirteenth from the end, first annualizes the month-over-month growth.
      When that power raises, nothing is produced: the exception goes to the
      caller (unless it is one of the three the function catches). Otherwise
      the block has [(latest / rows[-13] - 1) * 100] as its value for a
      growth indicator and as [secondary] and [yoy_growth] for a dollar
      level; for a rate ([%]) and for [C$ millions] it has the difference
      [latest - rows[-13]] and no percentage. *)
Theorem monthly_yoy_is_thirteenth_from_last
    (str_format : string -> float -> string)
    (format_raises : string -> float -> option exn)
    (py_float : string -> option float)
    (float_pow : float -> float -> res float) :
  (forall cfg all_data vec data,
      getitem (vectors cfg) 0 = Ok vec ->
      all_data !! id vec = Some data ->
      13 <= len data ->
      cadence_of data = Ok Monthly ->
      (forall o, o ∈ data -> feq (value o) 0%float = false) ->
      exists o y,
        getitem data (-1) = Ok o
        /\ getitem data (-13) = Ok y
        /\ get_yoy_index data = Ok (Some (-13))
        /\ (feq (scalar_of cfg) 0%float = true ->
            compute_level_yoy_pct str_format format_raises cfg all_data
            = Raise ZeroDivisionError)
        /\ (feq (scalar_of cfg) 0%float = false ->
            compute_level_yoy_pct str_format format_raises cfg all_data
            = (out <- format_with str_format format_raises (format_value cfg)
                        (value o / scalar_of cfg)%float;;
               Ok (Some
                     {| out_value := out;
                        detail :=
                          fst (format_detail str_format
                                 ((value o / value y - 1) * 100)%float
                                 "%" (direction cfg));
                        detail_color :=
                          snd (format_detail str_format
                                 ((value o / value y - 1) * 100)%float
                                 "%" (direction cfg));
                        period := slice 0 7 (date o) |})))
        /\ compute_count_yoy_pct str_format format_raises cfg all_data
           = compute_level_yoy_pct str_format format_raises cfg all_data)
  /\ (forall ind all_rows latest d lv pv ya,
        BuildSite.frequency ind = "Monthly" ->
        let rows := List.filter BuildSite.has_value all_rows in
        13 <= len rows ->
        getitem rows (-1) = Ok latest ->
        latest !! "date" = Some (Some d) ->
        BuildSite.value_at py_float rows (-1) = Ok lv ->
        BuildSite.value_at py_float rows (-2) = Ok pv ->
        BuildSite.value_at py_float rows (-13) = Ok ya ->
        feq pv 0%float = false ->
        feq ya 0%float = false ->
        let yoy := ((lv / ya - 1) * 100)%float in
        let u := BuildSite.unit ind in
        match float_pow (1 + (lv / pv - 1) * 100 / 100)%float 12%float with
        | Raise e =>
            BuildSite.read_official_data py_float float_pow ind
              (Some (Ok all_rows))
            = BuildSite.catch_to_none (Raise e)
        | Ok p =>
            exists r,
              BuildSite.read_official_data py_float float_pow ind
                (Some (Ok all_rows)) = Ok (Some r)
              /\ BuildSite.date r = Some d
              /\ BuildSite.absolute r = lv
              /\ (u = "%" ->
                  BuildSite.value r = Some lv
                  /\ BuildSite.secondary r = Some (lv - ya)%float
                  /\ BuildSite.extra r
                     = Some ("yoy_pp_change", Some (lv - ya)%float))
              /\ (u = "C$ millions" ->
                  BuildSite.value r = Some lv
                  /\ BuildSite.secondary r = Some (lv - pv)%float
                  /\ BuildSite.extra r
                     = Some ("yoy_change_millions", Some (lv - ya)%float))
              /\ (u <> "%" -> u <> "C$ millions" ->
                  BuildSite.is_dollar_unit u = true ->
                  BuildSite.value r = Some lv
                  /\ BuildSite.secondary r = Some yoy
                  /\ BuildSite.extra r = Some ("yoy_growth", Some yoy))
              /\ (u <> "%" -> u <> "C$ millions" ->
                  BuildSite.is_dollar_unit u = false ->
                  BuildSite.value r = Some yoy
                  /\ BuildSite.secondary r = Some ((p - 1) * 100)%float
                  /\ BuildSite.extra r = None)
        end).
Proof.
  split.
  - intros cfg all_data vec data Hv Hd Hlen Hc Hnz.
    destruct (getitem_in_range data (-1)) as [o Ho]; [lia|].
    destruct (getitem_in_range data (-13)) as [y Hy]; [lia|].
    assert (Hi : get_yoy_index data = Ok (Some (-13))).
    { rewrite get_yoy_index_cadence, Hc. cbn.
      replace (13 <=? len data) with true by (symmetry; apply Z.leb_le; lia).
      reflexivity. }
    exists o, y. repeat apply conj; try assumption; try reflexivity.
    + intros Hs.
      apply (level_yoy_pct_zero_scalar str_format format_raises cfg all_data
               vec data Hv Hd); [lia | exact Hs].
    + intros Hs.
      rewrite (level_yoy_pct_run str_format format_raises cfg all_data vec data
                 o y (-13) (slice 0 7 (date o)) Hv Hd ltac:(lia) Hs Ho Hi Hy
                 (monthly_period data (date o) Hc)).
      assert (Hy0 : fne (value y) 0%float = true).
      { unfold fne. apply negb_true_iff. apply (Hnz y).
        eapply getitem_elem; eauto. }
      cbv zeta. rewrite Hy0. reflexivity.
  - intros ind all_rows latest d lv pv ya Hf rows Hlen Hl Hd Hlv Hpv Hya
      Hpz Hyz yoy u.
    pose proof (ReaderFacts.read_official_monthly py_float float_pow ind all_rows
                  latest d lv pv ya Hf Hlen Hl Hd Hlv Hpv Hya) as Hrun.
    rewrite (ReaderFacts.pct_change_nonzero _ _ Hpz) in Hrun.
    destruct (float_pow _ _) as [p|e]; cbn [Py.bind] in Hrun; [|exact Hrun].
    eexists. split; [exact Hrun|].
    unfold Props2.monthly_block.
    rewrite (ReaderFacts.pct_change_nonzero _ _ Hyz). fold yoy. fold u.
    destruct (String.eqb u "%") eqn:E1.
    { apply String.eqb_eq in E1.
      repeat apply conj; try reflexivity; intros; try congruence;
        repeat apply conj; reflexivity. }
    destruct (String.eqb u "C$ millions") eqn:E2.
    { apply String.eqb_eq in E2. apply String.eqb_neq in E1.
      repeat apply conj; try reflexivity; intros; try congruence;
        repeat apply conj; reflexivity. }
    apply String.eqb_neq in E1, E2.
    destruct (BuildSite.is_dollar_unit u) eqn:E3;
      repeat apply conj; try reflexivity; intros; try congruence;
        repeat apply conj; reflexivity.
Qed.

Lemma monthly_yoy_is_thirteenth_from_last_witness :
  (exists r,
      compute_level_yoy_pct Instances.str_format Instances.format_raises
        Samples.level_cfg Samples.level_data = Ok (Some r)
      /\ (detail r, detail_color r)
         = format_detail Instances.str_format ((125 / 100 - 1) * 100)%float
             "%" "positive")
  /\ (exists r,
        BuildSite.read_official_data Instances.float_of_decimal
          Instances.float_pow Samples.growth_indicator
          (Some (Ok Samples.official_rows)) = Ok (Some r)
        /\ BuildSite.value r = Some ((125 / 100 - 1) * 100)%float).
Proof.
  pose proof (monthly_yoy_is_thirteenth_from_last Instances.str_format
                Instances.format_raises Instances.float_of_decimal
                Instances.float_pow) as [Hm Hb].
  split.
  - destruct (Hm Samples.level_cfg Samples.level_data
                (mkvector "v1" 24 None None) Samples.monthly13)
      as (o & y & Ho & Hy & _ & _ & Hr & _).
    + reflexivity.
    + reflexivity.
    + unfold len. cbn. lia.
    + reflexivity.
    + intros o Ho. unfold Samples.monthly13 in Ho.
      repeat (apply elem_of_cons in Ho as [-> | Ho]); try reflexivity.
      apply elem_of_nil in Ho. destruct Ho.
    + injection Ho as <-. injection Hy as <-.
      eexists. split; [rewrite Hr by reflexivity; reflexivity | reflexivity].
  - pose proof (Hb Samples.growth_indicator Samples.official_rows
                  (Samples.csv_row "2025-01-01" "125") "2025-01-01"
                  125%float 111%float 100%float) as H.
    cbv zeta in H.
    assert (Hlen : 13 <= len (List.filter BuildSite.has_value Samples.official_rows))
      by (vm_compute; discriminate).
    specialize (H eq_refl Hlen eq_refl eq_refl eq_refl eq_refl eq_refl
                  eq_refl eq_refl).
    destruct (Instances.float_pow _ _) as [p|e] eqn:Hp;
      [|vm_compute in Hp; discriminate Hp].
    destruct H as (r & Hr & _ & _ & _ & _ & _ & Hg).
    exists r. split; [exact Hr|].
    apply Hg; [discriminate | discriminate | reflexivity].
Defined.

(** C2 as stated fails. Thirteen monthly rows, all numbers other than zero,
    whose last month-over-month growth is so large that its annualization
    overflows: [read_official_data] ends in [OverflowError] and no change is
    computed. And [compute_level_yoy_pct] on thirteen monthly observations
    without a zero, under a configuration whose scalar is zero, ends in
    [ZeroDivisionError]. *)
Lemma annualized_growth_overflows :
  Forall (numeric_nonzero Instances.float_of_decimal)
         Samples.official_rows_overflow
  /\ len Samples.official_rows_overflow = 13
  /\ BuildSite.read_official_data Instances.float_of_decimal
       Instances.float_pow Samples.growth_indicator
       (Some (Ok Samples.official_rows_overflow))
     = Raise OverflowError
  /\ compute_level_yoy_pct Instances.str_format Instances.format_raises
       Samples2.zero_scalar_cfg Samples.level_data
     = Raise ZeroDivisionError.
Proof.
  split; [|repeat split; vm_compute; reflexivity].
  unfold Samples.official_rows_overflow, Samples.official_rows,
    Samples.official_rows_zero. cbn [tail take app].
  repeat constructor; eexists _, _; repeat split; vm_compute; reflexivity.
Qed.

(** C1 as stated fails: with a zero thirteen months back,
    [compute_level_yoy_pct] shows a year-over-year change of 0.0%, coloured
    as an improvement, and for a growth indicator [read_official_data] has
    the year-over-year growth 0 as its value. *)
Lemma zero_lookback_shown_as_zero_growth :
  compute_level_yoy_pct Instances.str_format Instances.format_raises
    Samples.level_cfg Samples.level_data_zero
  = Ok (Some {| out_value := "$0.1B";
                detail := "↑ 0.0% year over year";
                detail_color := "positive";
                period := "2025-01" |})
  /\ match BuildSite.read_official_data Instances.float_of_decimal
             Instances.float_pow Samples.growth_indicator
             (Some (Ok Samples.official_rows_zero)) with
     | Ok (Some r) => BuildSite.value r = Some 0%float
     | _ => False
     end.
Proof. split; vm_compute; reflexivity. Qed.

(** C1, as the code has it. When the year-ago observation exists and is
    zero, the growth against it is reported as 0, by the same fallback that
    month-over-month and quarter-over-quarter growth have:
    - [compute_level_yoy_pct] builds its detail line, which is not empty,
      from a change of 0;
    - [read_official_data] has the growth 0 where it reports a
      year-over-year growth: as the value of a growth indicator, and as
      [secondary] and [yoy_growth] of a dollar level, monthly (against
      [rows[-13]]) and quarterly (against [rows[-5]]); for a monthly rate
      ([%]) and for [C$ millions] it reports the difference
      [latest - rows[-13]], which needs no division.
    Among the strategies [combined_rate] and [sum_yoy_pct] leave the
    comparison out (empty text, neutral colour) when the year-ago
    denominators, or the year-ago values, sum to zero. *)
Theorem zero_lookback_falls_back_to_zero
    (str_format : string -> float -> string)
    (format_raises : string -> float -> option exn)
    (py_float : string -> option float)
    (float_pow : float -> float -> res float) :
  (forall cfg all_data vec data o y i p,
      getitem (vectors cfg) 0 = Ok vec ->
      all_data !! id vec = Some data ->
      2 <= len data ->
      feq (scalar_of cfg) 0%float = false ->
      getitem data (-1) = Ok o ->
      get_yoy_index data = Ok (Some i) ->
      getitem data i = Ok y ->
      period_of data (date o) = Ok p ->
      feq (value y) 0%float = true ->
      compute_level_yoy_pct str_format format_raises cfg all_data
      = (out <- format_with str_format format_raises (format_value cfg)
                  (value o / scalar_of cfg)%float;;
         Ok (Some
               {| out_value := out;
                  detail := fst (format_detail str_format 0%float "%"
                                   (direction cfg));
                  detail_color := snd (format_detail str_format 0%float "%"
                                         (direction cfg));
                  period := p |}))
      /\ fst (format_detail str_format 0%float "%" (direction cfg)) <> "")
  /\ (forall ind all_rows latest d lv pv ya,
        BuildSite.frequency ind = "Monthly" ->
        let rows := List.filter BuildSite.has_value all_rows in
        13 <= len rows ->
        getitem rows (-1) = Ok latest ->
        latest !! "date" = Some (Some d) ->
        BuildSite.value_at py_float rows (-1) = Ok lv ->
        BuildSite.value_at py_float rows (-2) = Ok pv ->
        BuildSite.value_at py_float rows (-13) = Ok ya ->
        feq ya 0%float = true ->
        let u := BuildSite.unit ind in
        match float_pow (1 + Props2.pct_change lv pv / 100)%float 12%float with
        | Raise e =>
            BuildSite.read_official_data py_float float_pow ind
              (Some (Ok all_rows))
            = BuildSite.catch_to_none (Raise e)
        | Ok p =>
            exists r,
              BuildSite.read_official_data py_float float_pow ind
                (Some (Ok all_rows)) = Ok (Some r)
              /\ (u = "%" ->
                  BuildSite.value r = Some lv
                  /\ BuildSite.secondary r = Some (lv - ya)%float
                  /\ BuildSite.extra r
                     = Some ("yoy_pp_change", Some (lv - ya)%float))
              /\ (u = "C$ millions" ->
                  BuildSite.value r = Some lv
                  /\ BuildSite.extra r
                     = Some ("yoy_change_millions", Some (lv - ya)%float))
              /\ (u <> "%" -> u <> "C$ millions" ->
                  BuildSite.is_dollar_unit u = true ->
                  BuildSite.value r = Some lv
                  /\ BuildSite.secondary r = Some 0%float
                  /\ BuildSite.extra r = Some ("yoy_growth", Some 0%float))
              /\ (u <> "%" -> u <> "C$ millions" ->
                  BuildSite.is_dollar_unit u = false ->
                  BuildSite.value r = Some 0%float)
        end)
  /\ (forall ind all_rows latest d month lv pv ya,
        BuildSite.frequency ind = "Quarterly" ->
        let rows := List.filter BuildSite.has_value all_rows in
        5 <= len rows ->
        getitem rows (-1) = Ok latest ->
        latest !! "date" = Some (Some d) ->
        Py.int (slice 5 7 d) = Ok month ->
        BuildSite.value_at py_float rows (-1) = Ok lv ->
        BuildSite.value_at py_float rows (-2) = Ok pv ->
        BuildSite.value_at py_float rows (-5) = Ok ya ->
        feq ya 0%float = true ->
        exists r,
          BuildSite.read_official_data py_float float_pow ind
            (Some (Ok all_rows)) = Ok (Some r)
          /\ (BuildSite.is_dollar_unit (BuildSite.unit ind) = true ->
              BuildSite.value r = Some lv
              /\ BuildSite.secondary r = Some 0%float
              /\ BuildSite.extra r = Some ("yoy_growth", Some 0%float))
          /\ (BuildSite.is_dollar_unit (BuildSite.unit ind) = false ->
              BuildSite.value r = Some 0%float))
  /\ (forall latest prev,
        feq prev 0%float = true -> BuildSite.growth latest prev = Ok 0%float)
  /\ (forall cfg all_data r n0 ns ref_data,
        with_role "numerator" (vectors cfg) = n0 :: ns ->
        all_data !! id n0 = Some ref_data ->
        (forall i pns pds,
            get_yoy_index ref_data = Ok (Some i) ->
            prev_values all_data (n0 :: ns) i = Ok (Some pns) ->
            prev_values all_data (with_role "denominator" (vectors cfg)) i
              = Ok (Some pds) ->
            Py.sum pds = 0%float) ->
        compute_combined_rate str_format format_raises cfg all_data
        = Ok (Some r) ->
        detail r = "" /\ detail_color r = "neutral")
  /\ (forall cfg all_data r v0 vs ref_data,
        vectors cfg = v0 :: vs ->
        all_data !! id v0 = Some ref_data ->
        (forall i xs, get_yoy_index ref_data = Ok (Some i) ->
           prev_values all_data (v0 :: vs) i = Ok (Some xs) ->
           feq (Py.sum xs) 0%float = true) ->
        compute_sum_yoy_pct str_format format_raises cfg all_data
        = Ok (Some r) ->
        detail r = "" /\ detail_color r = "neutral").
Proof.
  repeat apply conj.
  - intros cfg all_data vec data o y i p Hv Hd Hlen Hs Ho Hi Hy Hp Hz.
    rewrite (level_yoy_pct_run str_format format_raises cfg all_data vec data
               o y i p Hv Hd Hlen Hs Ho Hi Hy Hp).
    cbv zeta. unfold fne. unfold feq in Hz. rewrite Hz. cbn [negb].
    split; [reflexivity|].
    cbn. unfold up_arrow. destruct (String.eqb "%" "pp"); discriminate.
  - intros ind all_rows latest d lv pv ya Hf rows Hlen Hl Hd Hlv Hpv Hya Hyz u.
    pose proof (ReaderFacts.read_official_monthly py_float float_pow ind all_rows
                  latest d lv pv ya Hf Hlen Hl Hd Hlv Hpv Hya) as Hrun.
    destruct (float_pow _ _) as [p|e]; cbn [Py.bind] in Hrun; [|exact Hrun].
    eexists. split; [exact Hrun|].
    unfold Props2.monthly_block.
    rewrite (ReaderFacts.pct_change_zero _ _ Hyz). fold u.
    destruct (String.eqb u "%") eqn:E1.
    { apply String.eqb_eq in E1.
      repeat apply conj; try reflexivity; intros; try congruence;
        repeat apply conj; reflexivity. }
    destruct (String.eqb u "C$ millions") eqn:E2.
    { apply String.eqb_eq in E2. apply String.eqb_neq in E1.
      repeat apply conj; try reflexivity; intros; try congruence;
        repeat apply conj; reflexivity. }
    apply String.eqb_neq in E1, E2.
    destruct (BuildSite.is_dollar_unit u) eqn:E3;
      repeat apply conj; try reflexivity; intros; try congruence;
        repeat apply conj; reflexivity.
  - intros ind all_rows latest d month lv pv ya Hf rows Hlen Hl Hd Hm
      Hlv Hpv Hya Hyz.
    eexists. split.
    + apply (ReaderFacts.read_official_quarterly py_float float_pow ind all_rows
               latest d month lv pv ya Hf Hlen Hl Hd Hm Hlv Hpv Hya).
    + unfold Props2.quarterly_block.
      rewrite (ReaderFacts.pct_change_zero _ _ Hyz).
      destruct (BuildSite.is_dollar_unit (BuildSite.unit ind));
        split; intros; try discriminate; repeat apply conj; reflexivity.
  - intros latest prev Hz. rewrite ReaderFacts.growth_pct.
    now rewrite (ReaderFacts.pct_change_zero _ _ Hz).
  - intros cfg all_data r n0 ns ref_data.
    apply ResultFacts.combined_rate_no_lookback.
  - intros cfg all_data r v0 vs ref_data.
    apply ResultFacts.sum_yoy_pct_zero_total.
Qed.

Lemma zero_lookback_falls_back_to_zero_witness :
  (exists r,
     compute_level_yoy_pct Instances.str_format Instances.format_raises
       Samples.level_cfg Samples.level_data_zero = Ok (Some r)
     /\ (detail r, detail_color r)
        = format_detail Instances.str_format 0%float "%" "positive")
  /\ (exists r,
        BuildSite.read_official_data Instances.float_of_decimal
          Instances.float_pow Samples.dollar_indicator
          (Some (Ok Samples.official_rows_zero)) = Ok (Some r)
        /\ BuildSite.secondary r = Some 0%float)
  /\ (exists r,
        BuildSite.read_official_data Instances.float_of_decimal
          Instances.float_pow Samples.quarterly_indicator
          (Some (Ok Samples.quarterly_rows_zero)) = Ok (Some r)
        /\ BuildSite.value r = Some 0%float).
Proof.
  pose proof (zero_lookback_falls_back_to_zero Instances.str_format
                Instances.format_raises Instances.float_of_decimal
                Instances.float_pow) as (Hl & Hm & Hq & _).
  repeat apply conj.
  - destruct (Hl Samples.level_cfg Samples.level_data_zero
                (mkvector "v1" 24 None None) Samples.monthly13_zero
                (mkobs "2025-01-01" 125) (mkobs "2024-01-01" 0) (-13) "2025-01")
      as [Hr _]; try reflexivity.
    + vm_compute. discriminate.
    + eexists. split; [rewrite Hr; reflexivity | reflexivity].
  - pose proof (Hm Samples.dollar_indicator Samples.official_rows_zero
                  (Samples.csv_row "2025-01-01" "125") "2025-01-01"
                  125%float 111%float 0%float) as H.
    cbv zeta in H.
    assert (Hlen : 13 <= len (List.filter BuildSite.has_value
                                Samples.official_rows_zero))
      by (vm_compute; discriminate).
    specialize (H eq_refl Hlen eq_refl eq_refl eq_refl eq_refl eq_refl eq_refl).
    destruct (Instances.float_pow _ _) as [p|e] eqn:Hp;
      [|vm_compute in Hp; discriminate Hp].
    destruct H as (r & Hr & _ & _ & Hd & _).
    exists r. split; [exact Hr|].
    apply Hd; [discriminate | discriminate | reflexivity].
  - destruct (Hq Samples.quarterly_indicator Samples.quarterly_rows_zero
                (Samples.csv_row "2025-01-01" "125") "2025-01-01" 1
                125%float 103%float 0%float) as (r & Hr & _ & Hg);
      try reflexivity; try (vm_compute; discriminate).
    exists r. split; [exact Hr | apply Hg; reflexivity].
Defined.

End YearOverYear.

Module StrategyFacts.
Import FetchMinisterData Cadence CadenceFacts YoyIndexFacts GrowthFacts Props.

Lemma getitem_minus_one {A} (l : list A) :
  getitem l (-1) = match last l with
                   | Some x => Ok x
                   | None => Raise IndexError
                   end.
Proof.
  unfold getitem. rewrite last_lookup. cbn [Z.ltb Z.compare].
  destruct l as [|x l]; [reflexivity|].
  replace ((0 <=? -1 + Z.of_nat (length (x :: l)))
           && (-1 + Z.of_nat (length (x :: l)) <? Z.of_nat (length (x :: l))))
    with true
    by (symmetry; apply andb_true_iff; split;
        [apply Z.leb_le | apply Z.ltb_lt]; cbn [length]; lia).
  replace (Z.to_nat (-1 + Z.of_nat (length (x :: l)))) with (pred (length (x :: l)))
    by (cbn [length]; lia).
  destruct (lookup_lt_is_Some_2 (x :: l) (pred (length (x :: l)))) as [y Hy];
    [cbn [length]; lia|].
  rewrite Hy. reflexivity.
Qed.

Lemma get_data_unavailable all_data v :
  unavailable all_data v <-> get_data all_data (Some (id v)) = None.
Proof.
  unfold unavailable, get_data.
  destruct (all_data !! id v) as [[|o l]|]; split; intros H;
    try reflexivity; try discriminate; auto.
  destruct H; discriminate.
Qed.

(** [latest_values] never raises; it gives up at an unavailable series and
    otherwise lists the latest values. *)
Lemma latest_values_unavailable all_data vs v :
  v ∈ vs -> unavailable all_data v -> latest_values all_data vs = Ok None.
Proof.
  intros Hin Hun. induction vs as [|w vs IH]; [inversion Hin|].
  cbn [latest_values].
  destruct (get_data all_data (Some (id w))) as [data|] eqn:Hw; [|reflexivity].
  assert (Hdata : exists o, getitem data (-1) = Ok o).
  { unfold get_data in Hw. destruct (all_data !! id w) as [[|o l]|];
      try discriminate. injection Hw as <-. apply getitem_last. }
  destruct Hdata as [o Ho]. rewrite Ho. cbn [Py.bind].
  apply elem_of_cons in Hin as [-> | Hin].
  - apply get_data_unavailable in Hun. congruence.
  - rewrite (IH Hin). reflexivity.
Qed.

Lemma latest_values_listed all_data vs xs :
  Forall2 (latest_of all_data) vs xs ->
  latest_values all_data vs = Ok (Some xs).
Proof.
  induction 1 as [|v x vs xs (data & o & Hd & Hl & Hx) _ IH]; [reflexivity|].
  cbn [latest_values]. unfold get_data. rewrite Hd.
  destruct data as [|o0 l]; [discriminate Hl|].
  rewrite getitem_minus_one, Hl. cbn [Py.bind]. rewrite IH. cbn [Py.bind].
  now rewrite Hx.
Qed.

Lemma prev_values_total all_data vs i :
  i < 0 -> exists r, prev_values all_data vs i = Ok r.
Proof.
  intros Hi. induction vs as [|v vs [r IH]]; [eexists; reflexivity|].
  cbn [prev_values]. destruct (all_data !! id v) as [data|]; [|eauto].
  destruct (long_enough (Some data) i) eqn:Hl; [|eauto].
  destruct (long_enough_getitem data i Hi Hl) as [o Ho].
  rewrite Ho, IH. cbn [Py.bind]. eauto.
Qed.

Lemma prev_values_listed all_data vs i xs :
  i < 0 ->
  Forall (fun v => long_enough (all_data !! id v) i = true) vs ->
  Forall2 (value_at_index all_data i) vs xs ->
  prev_values all_data vs i = Ok (Some xs).
Proof.
  intros Hi Hlong H. induction H as [|v x vs xs (data & o & Hd & Ho & Hx) _ IH];
    [reflexivity|].
  apply Forall_cons in Hlong as [Hl Hlong].
  cbn [prev_values]. rewrite Hd in *. rewrite Hl, Ho. cbn [Py.bind].
  rewrite (IH Hlong). cbn [Py.bind]. now rewrite Hx.
Qed.

Lemma is_quarterly_annual data q :
  is_quarterly data = Ok q -> exists a, is_annual data = Ok a.
Proof.
  unfold is_quarterly, is_annual.
  destruct (len data <? 2); [eauto|].
  destruct (getitem data (-1)); cbn; [|discriminate].
  destruct (strptime_ymd _); cbn; [|discriminate].
  destruct (getitem data (-2)); cbn; [|discriminate].
  destruct (strptime_ymd _); cbn; [eauto | discriminate].
Qed.

Lemma get_yoy_index_total data q :
  is_quarterly data = Ok q -> exists yi, get_yoy_index data = Ok yi.
Proof.
  intros Hq. destruct (is_quarterly_annual data q Hq) as [a Ha].
  unfold get_yoy_index. rewrite Ha. cbn [Py.bind].
  destruct a; [eauto|]. rewrite Hq. cbn [Py.bind]. destruct q; eauto.
Qed.

End StrategyFacts.

Module CombinedRate.
Import FetchMinisterData YoyIndexFacts GrowthFacts StrategyFacts Props.

Section WithFormat.

Variable str_format : string -> float -> string.
Variable format_raises : string -> float -> option exn.
Variable float_sum : list float -> float.




End WithFormat.



End CombinedRate.

Module CompositeAvg.
Import FetchMinisterData YoyIndexFacts GrowthFacts StrategyFacts Props.

(** The result of [compute_composite_avg] when every input is there. *)
Lemma composite_avg_run (str_format : string -> float -> string)
    (format_raises : string -> float -> option exn)
    (float_sum : list float -> float)
    (cfg : config) (all_data : gmap string (list observation))
    (v0 : vector) (vs : list vector) (values weights : list float)
    (ref_data : list observation) (o : observation) (q : bool) (p : string) :
  vectors cfg = v0 :: vs ->
  Forall2 (latest_of all_data) (vectors cfg) values ->
  match population_vectors cfg with
  | Some pvs => Forall2 (latest_of all_data) pvs weights
  | None => weights = replicate (length values) 1%float
  end ->
  feq (total_weight_of float_sum cfg weights) 0%float = false ->
  all_data !! id v0 = Some ref_data ->
  last ref_data = Some o ->
  is_quarterly ref_data = Ok q ->
  format_period (date o) q = Ok p ->
  let total := total_weight_of float_sum cfg weights in
  let avg := (weighted_sum float_sum values weights / total)%float in
  exists d c,
    compute_composite_avg str_format format_raises float_sum cfg all_data
    = (out <- format_with str_format format_raises (format_value cfg) avg;;
       Ok (Some {| out_value := out; detail := d; detail_color := c;
                   period := p |}))
    /\ (forall i prevs,
          get_yoy_index ref_data = Ok (Some i) ->
          Forall (fun v => long_enough (all_data !! id v) i = true) (vectors cfg) ->
          Forall2 (value_at_index all_data i) (vectors cfg) prevs ->
          (d, c)
          = format_detail str_format
              (avg - weighted_sum float_sum prevs weights / total)%float
              "pp" (direction cfg))
    /\ (forall i,
          get_yoy_index ref_data = Ok (Some i) ->
          Exists (fun v => long_enough (all_data !! id v) i = false) (vectors cfg) ->
          d = "" /\ c = "neutral")
    /\ (get_yoy_index ref_data = Ok None -> d = "" /\ c = "neutral").
Proof.
  intros Hvs Hvals Hws Hz Href Ho Hq Hp total avg.
  unfold compute_composite_avg.
  rewrite (latest_values_listed _ _ _ Hvals). cbn [Py.bind].
  assert (Hw : match population_vectors cfg with
               | Some pvs => latest_values all_data pvs
               | None => Ok (Some (replicate (length values) 1%float))
               end = Ok (Some weights)).
  { destruct (population_vectors cfg) as [pvs|].
    - apply latest_values_listed, Hws.
    - now rewrite Hws. }
  rewrite Hw. cbn [Py.bind]. rewrite Hz.
  rewrite (truediv_nonzero _ _ Hz). cbn [Py.bind].
  assert (Hg : getitem (vectors cfg) 0 = Ok v0) by (rewrite Hvs; reflexivity).
  rewrite Hg. cbn [Py.bind]. rewrite Href.
  destruct (get_yoy_index_total ref_data q Hq) as [yi Hyi].
  rewrite Hyi. cbn [Py.bind].
  rewrite getitem_minus_one, Ho.
  destruct yi as [i|].
  - assert (Hi : i < 0) by (pose proof (get_yoy_index_values _ _ Hyi); lia).
    destruct (prev_values_total all_data (vectors cfg) i Hi) as [pv Hpv].
    rewrite Hpv. cbn [Py.bind].
    destruct pv as [[|x xs]|]; cbn [Py.bind].
    + rewrite Hq. cbn [Py.bind]. rewrite Hp. cbn [Py.bind].
      eexists _, _. split; [reflexivity|]. repeat apply conj.
      * intros i' prevs [= <-] Hlong Hprev.
        rewrite (prev_values_listed _ _ _ _ Hi Hlong Hprev) in Hpv.
        injection Hpv as ->. rewrite Hvs in Hprev. inversion Hprev.
      * intros; split; reflexivity.
      * intros [=].
    + rewrite (truediv_nonzero _ _ Hz). cbn [Py.bind].
      rewrite Hq. cbn [Py.bind]. rewrite Hp. cbn [Py.bind].
      eexists _, _. split; [reflexivity|]. repeat apply conj.
      * intros i' prevs [= <-] Hlong Hprev.
        rewrite (prev_values_listed _ _ _ _ Hi Hlong Hprev) in Hpv.
        injection Hpv as ->. reflexivity.
      * intros i' [= <-] Hshort.
        rewrite (prev_values_short _ _ _ Hi Hshort) in Hpv. discriminate Hpv.
      * intros [=].
    + rewrite Hq. cbn [Py.bind]. rewrite Hp. cbn [Py.bind].
      eexists _, _. split; [reflexivity|]. repeat apply conj.
      * intros i' prevs [= <-] Hlong Hprev.
        rewrite (prev_values_listed _ _ _ _ Hi Hlong Hprev) in Hpv.
        discriminate Hpv.
      * intros; split; reflexivity.
      * intros [=].
  - cbn [Py.bind]. rewrite Hq. cbn [Py.bind]. rewrite Hp. cbn [Py.bind].
    eexists _, _. split; [reflexivity|]. repeat apply conj.
    + intros i prevs [=].
    + intros i [=].
    + intros _. split; reflexivity.
Qed.

Lemma own_index_values all_data (vs : list vector) (i : Z) :
  (forall v, v ∈ vs ->
     exists data, all_data !! id v = Some data
                  /\ get_yoy_index data = Ok (Some i)) ->
  Forall (fun v => long_enough (all_data !! id v) i = true) vs
  /\ exists prevs, Forall2 (value_at_index all_data i) vs prevs.
Proof.
  induction vs as [|v vs IH]; intros H.
  - split; [constructor | exists []; constructor].
  - destruct (H v) as (data & Hd & Hi); [apply elem_of_cons; auto|].
    destruct IH as [Hl [prevs Hp]].
    { intros w Hw. apply H. apply elem_of_cons. auto. }
    pose proof (get_yoy_index_values data i Hi) as Hv.
    destruct (getitem_in_range data i) as [o Ho]; [lia|].
    split.
    + constructor; [|exact Hl]. rewrite Hd.
      destruct data as [|o0 l]; [unfold len in Hv; cbn in Hv; lia|].
      cbn [long_enough]. apply Z.leb_le. lia.
    + exists (value o :: prevs). constructor; [|exact Hp].
      exists data, o. auto.
Qed.

(** C6, as the code has it. [compute_composite_avg] returns the weighted
    average of the latest values of its input series: the sum of value times
    weight over the sum of the weights, under the configured format (what
    [str.format] raises on the template is what the strategy raises). The
    weights are the latest values of the parallel [population_vectors]; when
    none are configured they are all 1 and their sum is the number of
    series. Its year-over-year detail is the percentage-point change of that
    average against the average, under the same weights, of the values found
    at one lookback index: the index [get_yoy_index] gives the first input
    series, counted in each series from that series' own end. These are the
    year-ago values of every series when each of them has that lookback
    index by its own dates. The comparison is left out (empty text, neutral
    colour) when the first series has no lookback index and when one of the
    series is shorter than the index. Side conditions: the weights do not
    sum to zero and the dates of the first series parse. *)
Theorem composite_avg_value (str_format : string -> float -> string)
    (format_raises : string -> float -> option exn)
    (float_sum : list float -> float)
    (cfg : config) (all_data : gmap string (list observation))
    (v0 : vector) (vs : list vector) (values weights : list float)
    (ref_data : list observation) (o : observation) (q : bool) (p : string) :
  vectors cfg = v0 :: vs ->
  Forall2 (latest_of all_data) (vectors cfg) values ->
  match population_vectors cfg with
  | Some pvs => Forall2 (latest_of all_data) pvs weights
  | None => weights = replicate (length values) 1%float
  end ->
  feq (total_weight_of float_sum cfg weights) 0%float = false ->
  all_data !! id v0 = Some ref_data ->
  last ref_data = Some o ->
  is_quarterly ref_data = Ok q ->
  format_period (date o) q = Ok p ->
  let total := total_weight_of float_sum cfg weights in
  let avg := (weighted_sum float_sum values weights / total)%float in
  (population_vectors cfg = None -> total = float_of_int (len values))
  /\ exists d c,
       compute_composite_avg str_format format_raises float_sum cfg all_data
       = (out <- format_with str_format format_raises (format_value cfg) avg;;
          Ok (Some {| out_value := out; detail := d; detail_color := c;
                      period := p |}))
       /\ (forall i prevs,
             get_yoy_index ref_data = Ok (Some i) ->
             Forall (fun v => long_enough (all_data !! id v) i = true)
                    (vectors cfg) ->
             Forall2 (value_at_index all_data i) (vectors cfg) prevs ->
             (d, c)
             = format_detail str_format
                 (avg - weighted_sum float_sum prevs weights / total)%float
                 "pp" (direction cfg))
       /\ (forall i,
             (forall v, v ∈ vectors cfg ->
                exists data, all_data !! id v = Some data
                             /\ get_yoy_index data = Ok (Some i)) ->
             exists prevs,
               Forall2 (value_at_index all_data i) (vectors cfg) prevs
               /\ (d, c)
                  = format_detail str_format
                      (avg - weighted_sum float_sum prevs weights / total)%float
                      "pp" (direction cfg))
       /\ (forall i,
             get_yoy_index ref_data = Ok (Some i) ->
             Exists (fun v => long_enough (all_data !! id v) i = false)
                    (vectors cfg) ->
             d = "" /\ c = "neutral")
       /\ (get_yoy_index ref_data = Ok None -> d = "" /\ c = "neutral").
Proof.
  intros Hvs Hvals Hws Hz Href Ho Hq Hp total avg. split.
  { intros Hnone. unfold total, total_weight_of. rewrite Hnone in *.
    rewrite Hws. unfold len. rewrite length_replicate. reflexivity. }
  destruct (composite_avg_run str_format format_raises float_sum cfg all_data
              v0 vs values weights ref_data o q p Hvs Hvals Hws Hz Href Ho Hq Hp)
    as (d & c & Hr & Hd & Hs & Hn).
  exists d, c. split; [exact Hr|]. split; [exact Hd|].
  split; [|split; [exact Hs | exact Hn]].
  intros i Hown.
  destruct (own_index_values all_data (vectors cfg) i Hown) as [Hl [prevs Hp']].
  exists prevs. split; [exact Hp'|].
  apply (Hd i prevs); [|exact Hl|exact Hp'].
  destruct (Hown v0) as (data & Hd0 & Hi0); [rewrite Hvs; apply elem_of_cons; auto|].
  rewrite Href in Hd0. injection Hd0 as <-. exact Hi0.
Qed.

Example composite_equal_weights :
  compute_composite_avg Instances.str_format Instances.format_raises Py.sum
    Samples.composite_cfg Samples.composite_data
  = Ok (Some {| out_value := "125.0%";
                detail := "↑ 75.0 pp year over year";
                detail_color := "negative";
                period := "2025-01" |}).
Proof. vm_compute. reflexivity. Qed.

Lemma composite_avg_value_witness :
  (exists r,
     compute_composite_avg Instances.str_format Instances.format_raises Py.sum
       Samples.weighted_cfg Samples.composite_data = Ok (Some r)
     /\ out_value r = "125.0%"
     /\ (detail r, detail_color r)
        = format_detail Instances.str_format (125 - 75)%float "pp" "negative")
  /\ (exists r,
        compute_composite_avg Instances.str_format Instances.format_raises Py.sum
          Samples.short_cfg Samples.short_data = Ok (Some r)
        /\ detail r = "" /\ detail_color r = "neutral").
Proof.
  split.
  - destruct (composite_avg_value Instances.str_format Instances.format_raises
                Py.sum Samples.weighted_cfg Samples.composite_data
                (mkvector "a" 20 None None) [mkvector "b" 20 None None]
                [125; 125]%float [3; 1]%float
                Samples.monthly13 (Samples.obs "2025-01-01" 125) false "2025-01")
      as (_ & d & c & Hr & Hd & _); try reflexivity.
    + repeat constructor; eexists _, _; repeat split; reflexivity.
    + cbn. repeat constructor; eexists _, _; repeat split; reflexivity.
    + eexists. split; [rewrite Hr; vm_compute; reflexivity|].
      split; [reflexivity|]. cbn [detail detail_color].
      rewrite (Hd (-13) [100; 0]%float).
      * vm_compute. reflexivity.
      * reflexivity.
      * repeat constructor.
      * repeat constructor; eexists _, _; repeat split; reflexivity.
  - destruct (composite_avg_value Instances.str_format Instances.format_raises
                Py.sum Samples.short_cfg Samples.short_data
                (mkvector "a" 20 None None) [mkvector "s" 20 None None]
                [125; 50]%float [1; 1]%float
                Samples.monthly13 (Samples.obs "2025-01-01" 125) false "2025-01")
      as (_ & d & c & Hr & _ & _ & Hs & _); try reflexivity.
    + repeat constructor; eexists _, _; repeat split; reflexivity.
    + destruct (Hs (-13)) as [-> ->].
      * reflexivity.
      * apply Exists_cons_tl, Exists_cons_hd. reflexivity.
      * eexists. split; [rewrite Hr; vm_compute; reflexivity|].
        split; reflexivity.
Defined.

(** C6 as stated fails when the input series differ in cadence: with a
    monthly first series and a quarterly second one, the quarterly series is
    read thirteen observations back (index -13, the lookback of the first
    series) and not at its own year-ago index -5; the detail is the change
    against 55, not against the average 75 of the two year-ago values. *)
Lemma lookback_index_comes_from_first_series :
  compute_composite_avg Instances.str_format Instances.format_raises Py.sum
    Samples.mixed_cfg Samples.mixed_data
  = Ok (Some {| out_value := "92.5%";
                detail := "↑ 37.5 pp year over year";
                detail_color := "negative";
                period := "2025-01" |})
  /\ get_yoy_index Samples.quarterly13 = Ok (Some (-5))
  /\ own_lookback_values Samples.mixed_data (vectors Samples.mixed_cfg)
     = Ok (Some [100; 50]%float)
  /\ prev_values Samples.mixed_data (vectors Samples.mixed_cfg) (-13)
     = Ok (Some [100; 10]%float)
  /\ fst (format_detail Instances.str_format
            (92.5 - weighted_sum Py.sum [100; 50] [1; 1] / 2)%float
            "pp" "negative")
     = "↑ 17.5 pp year over year".
Proof. repeat split; vm_compute; reflexivity. Qed.

End CompositeAvg.

Module FetchFacts.
Import FetchMinisterData Props.

Section WithNet.

Variable net : Z -> Z -> nat -> res response.

Lemma attempts_returned n vid latestN w x :
  try_body (net vid latestN (posts w)) = Returned x ->
  attempts net (S n) vid latestN w
  = (x, {| posts := S (posts w); slept := slept w |}).
Proof. intros H. cbn [attempts post]. now rewrite H. Qed.

Lemma attempts_transient n vid latestN w :
  transient (try_body (net vid latestN (posts w))) ->
  attempts net (S n) vid latestN w
  = attempts net n vid latestN
      {| posts := S (posts w); slept := slept w ++ [5] |}.
Proof.
  intros [H | [e H]]; cbn [attempts post]; rewrite H; reflexivity.
Qed.

Lemma fetch_vector_attempts vector_id periods vid w :
  int (remove_v vector_id) = Ok vid ->
  fetch_vector net vector_id periods w
  = (Ok (fst (attempts net 3 vid periods w)), snd (attempts net 3 vid periods w)).
Proof.
  intros H. unfold fetch_vector. rewrite H.
  destruct (attempts net 3 vid periods w). reflexivity.
Qed.

Lemma failed_status_returned resp it its :
  status_code resp = 200 ->
  json resp = Ok (it :: its) ->
  status it = Some "FAILED" ->
  try_body (Ok resp) = Returned None.
Proof.
  intros Hc Hj Hs. unfold try_body. rewrite Hc, Hj, Hs. reflexivity.
Qed.

Lemma failed_attempt_transient (r : res response) :
  failed_attempt r -> transient (try_body r).
Proof.
  unfold failed_attempt, transient, try_body.
  destruct r as [resp|e]; [|intros _; right; eauto].
  destruct (Z.eqb_spec (status_code resp) 200) as [Hc|Hc]; cbn [negb].
  - intros [H | H]; [contradiction|].
    destruct (json resp) as [[|it its]|e]; [destruct H | | right; eauto].
    destruct H as [Hs [e He]].
    destruct (bool_decide_reflect (status it = Some "FAILED")); [contradiction|].
    rewrite He. right. eauto.
  - intros _. left. reflexivity.
Qed.

Lemma sort_by_date_cons (o : observation) (l : list observation) :
  exists x xs, sort_by_date (o :: l) = x :: xs.
Proof.
  cbn. generalize (foldr insert_by_date [] l). intros s.
  destruct s as [|y s]; cbn; [eauto|].
  destruct (String.leb (date o) (date y)); eauto.
Qed.

Lemma usable_points_returned resp it its data :
  status_code resp = 200 ->
  json resp = Ok (it :: its) ->
  status it <> Some "FAILED" ->
  read_points (vectorDataPoint it) = Ok data ->
  data <> [] ->
  try_body (Ok resp) = Returned (Some (sort_by_date data)).
Proof.
  intros Hc Hj Hs Hp Hne. unfold try_body. rewrite Hc, Hj, Hp. cbn [negb Z.eqb].
  destruct (bool_decide_reflect (status it = Some "FAILED")); [contradiction|].
  destruct data as [|o l]; [congruence|].
  destruct (sort_by_date_cons o l) as (x & xs & ->). reflexivity.
Qed.

End WithNet.

(** C4, as the code has it. For a vector id that [int] accepts,
    [fetch_vector] never raises. An attempt that ends in an exception or in
    a status other than 200 is followed by a sleep of 5 seconds and by the
    next attempt, three attempts at most: two such failures and a third
    attempt that succeeds give the series after exactly two sleeps, three
    failures give [None] after three sleeps. An attempt that reaches a
    [return] is the last one, and no sleep follows it: an answer whose
    status is "FAILED", an empty answer and an answer without a usable point
    give [None] at once, an answer with usable points gives them, sorted. *)
Theorem fetch_vector_retries
    (net : Z -> Z -> nat -> res response)
    (vector_id : string) (periods vid : Z) (w : world) :
  int (remove_v vector_id) = Ok vid ->
  let answer (k : nat) := net vid periods (posts w + k)%nat in
  let after (n : nat) (sleeps : list Z) :=
    {| posts := posts w + n; slept := slept w ++ sleeps |} in
  (exists x w', fetch_vector net vector_id periods w = (Ok x, w'))
  /\ (forall resp it its data,
        failed_attempt (answer 0%nat) -> failed_attempt (answer 1%nat) ->
        answer 2%nat = Ok resp ->
        status_code resp = 200 ->
        json resp = Ok (it :: its) ->
        status it <> Some "FAILED" ->
        read_points (vectorDataPoint it) = Ok data ->
        data <> [] ->
        fetch_vector net vector_id periods w
        = (Ok (Some (sort_by_date data)), after 3%nat [5; 5]))
  /\ (failed_attempt (answer 0%nat) -> failed_attempt (answer 1%nat) ->
      failed_attempt (answer 2%nat) ->
        fetch_vector net vector_id periods w
        = (Ok None, after 3%nat [5; 5; 5]))
  /\ (forall resp it its,
        answer 0%nat = Ok resp ->
        status_code resp = 200 ->
        json resp = Ok (it :: its) ->
        status it = Some "FAILED" ->
        fetch_vector net vector_id periods w = (Ok None, after 1%nat []))
  /\ (forall resp,
        answer 0%nat = Ok resp ->
        status_code resp = 200 ->
        json resp = Ok [] ->
        fetch_vector net vector_id periods w = (Ok None, after 1%nat []))
  /\ (forall resp it its,
        answer 0%nat = Ok resp ->
        status_code resp = 200 ->
        json resp = Ok (it :: its) ->
        status it <> Some "FAILED" ->
        read_points (vectorDataPoint it) = Ok [] ->
        fetch_vector net vector_id periods w = (Ok None, after 1%nat []))
  /\ (forall resp it its data,
        answer 0%nat = Ok resp ->
        status_code resp = 200 ->
        json resp = Ok (it :: its) ->
        status it <> Some "FAILED" ->
        read_points (vectorDataPoint it) = Ok data ->
        data <> [] ->
        fetch_vector net vector_id periods w
        = (Ok (Some (sort_by_date data)), after 1%nat [])).
Proof.
  intros Hid answer after.
  assert (H0 : answer 0%nat = net vid periods (posts w))
    by (unfold answer; now rewrite Nat.add_0_r).
  assert (Hret : forall x, try_body (answer 0%nat) = Returned x ->
            fetch_vector net vector_id periods w = (Ok x, after 1%nat [])).
  { intros x Hx. rewrite (fetch_vector_attempts net _ _ _ _ Hid).
    rewrite H0 in Hx. rewrite (attempts_returned net _ _ _ _ _ Hx).
    cbn [fst snd]. unfold after. rewrite Nat.add_1_r, app_nil_r. reflexivity. }
  repeat apply conj.
  - rewrite (fetch_vector_attempts net _ _ _ _ Hid). eauto.
  - intros resp it its data T0 T1 R2 Hc Hj Hs Hp Hne.
    apply failed_attempt_transient in T0, T1.
    rewrite (fetch_vector_attempts net _ _ _ _ Hid).
    rewrite H0 in T0. rewrite (attempts_transient net _ _ _ _ T0).
    unfold answer in T1, R2. rewrite Nat.add_1_r in T1.
    replace (posts w + 2)%nat with (S (S (posts w))) in R2 by lia.
    rewrite (attempts_transient net 1 vid periods
               {| posts := S (posts w); slept := slept w ++ [5] |} T1).
    cbn [posts slept].
    rewrite (attempts_returned net 0 vid periods
               {| posts := S (S (posts w)); slept := (slept w ++ [5]) ++ [5] |}
               (Some (sort_by_date data))).
    + cbn [fst snd posts slept]. unfold after. rewrite <- app_assoc. cbn [app].
      replace (S (S (S (posts w)))) with (posts w + 3)%nat by lia. reflexivity.
    + cbn [posts]. rewrite R2. eapply usable_points_returned; eauto.
  - intros T0 T1 T2. apply failed_attempt_transient in T0, T1, T2.
    rewrite (fetch_vector_attempts net _ _ _ _ Hid).
    rewrite H0 in T0. rewrite (attempts_transient net _ _ _ _ T0).
    unfold answer in T1, T2. rewrite Nat.add_1_r in T1.
    replace (posts w + 2)%nat with (S (S (posts w))) in T2 by lia.
    rewrite (attempts_transient net 1 vid periods
               {| posts := S (posts w); slept := slept w ++ [5] |} T1).
    cbn [posts slept].
    rewrite (attempts_transient net 0 vid periods
               {| posts := S (S (posts w)); slept := (slept w ++ [5]) ++ [5] |}
               T2).
    cbn [attempts fst snd posts slept]. unfold after.
    rewrite <- !app_assoc. cbn [app].
    replace (S (S (S (posts w)))) with (posts w + 3)%nat by lia. reflexivity.
  - intros resp it its Hn Hc Hj Hs. apply Hret. rewrite Hn.
    eapply failed_status_returned; eauto.
  - intros resp Hn Hc Hj. apply Hret. rewrite Hn.
    unfold try_body. rewrite Hc, Hj. reflexivity.
  - intros resp it its Hn Hc Hj Hs Hp. apply Hret. rewrite Hn.
    unfold try_body. rewrite Hc, Hj, Hp. cbn.
    destruct (bool_decide_reflect (status it = Some "FAILED")); [contradiction|].
    reflexivity.
  - intros resp it its data Hn Hc Hj Hs Hp Hne. apply Hret. rewrite Hn.
    eapply usable_points_returned; eauto.
Qed.

Lemma fetch_vector_retries_witness :
  fetch_vector Samples.fine_at_third "v2062815" 24 (mkworld 0 [])
  = (Ok (Some [mkobs "2025-01-01" 7]), mkworld 3 [5; 5]).
Proof.
  refine (proj1 (proj2 (fetch_vector_retries Samples.fine_at_third
                          "v2062815" 24 2062815 (mkworld 0 []) eq_refl))
            Samples.one_point
            (mkitem (Some "SUCCESS")
                    [mkpoint (Some "2025-01-01") (Some (JNumber 7))]) []
            [mkobs "2025-01-01" 7] I _ eq_refl eq_refl eq_refl _ eq_refl _).
  - left. discriminate.
  - discriminate.
  - discriminate.
Defined.

(** C4 as stated fails: when the first answer carries the status "FAILED",
    [fetch_vector] returns [None] after one request and no sleep, although
    the second request would have been answered. *)
Lemma failed_status_is_not_retried :
  fetch_vector Samples.failed_then_fine "v2062815" 24 (mkworld 0 [])
  = (Ok None, mkworld 1 [])
  /\ try_body (Samples.failed_then_fine 2062815 24 1)
     = Returned (Some [mkobs "2025-01-01" 7]).
Proof. split; reflexivity. Qed.

End FetchFacts.

Module IndexSafety.
Import FetchMinisterData YoyIndexFacts GrowthFacts StrategyFacts Props.

Lemma safe_bind {A B} (m : res A) (k : A -> res B) :
  no_index_error m ->
  (forall a, m = Ok a -> no_index_error (k a)) ->
  no_index_error (Py.bind m k).
Proof.
  unfold no_index_error. intros Hm Hk. destruct m as [a|e]; cbn.
  - apply Hk. reflexivity.
  - intros [= ->]. apply Hm. reflexivity.
Qed.

Lemma safe_Ok {A} (a : A) : no_index_error (Ok a).
Proof. discriminate. Qed.

Lemma safe_of_raises {A} (m : res A) (e0 : exn) :
  e0 <> IndexError -> (forall e, m = Raise e -> e = e0) -> no_index_error m.
Proof. intros Hne H Hm. apply Hne. symmetry. apply H. exact Hm. Qed.

Lemma safe_of_total {A} (m : res A) : (exists a, m = Ok a) -> no_index_error m.
Proof. intros [a ->]. discriminate. Qed.

Lemma int_raises s e : int s = Raise e -> e = ValueError.
Proof.
  unfold int. destruct (strip s) as [|c r]; cbn.
  - intros [= <-]. reflexivity.
  - repeat match goal with
           | |- context [match ?x with _ => _ end] => destruct x
           end; congruence.
Qed.

Lemma format_period_raises d q e : format_period d q = Raise e -> e = ValueError.
Proof.
  unfold format_period. destruct q; [|discriminate].
  destruct (int (slice 5 7 d)) eqn:E; cbn; [discriminate|].
  intros [= <-]. eapply int_raises; eauto.
Qed.

Lemma period_of_raises data d e : period_of data d = Raise e -> e = ValueError.
Proof.
  unfold period_of.
  destruct (is_annual data) as [[|]|e1] eqn:Ha; cbn; try discriminate.
  - destruct (is_quarterly data) as [q|e2] eqn:Hq; cbn.
    + apply format_period_raises.
    + intros [= <-]. eapply is_quarterly_raises; eauto.
  - intros [= <-]. eapply is_annual_raises; eauto.
Qed.

Lemma truediv_raises x y e : truediv x y = Raise e -> e = ZeroDivisionError.
Proof. unfold truediv. destruct (feq y 0%float); congruence. Qed.

Lemma find_labels_raises la lb vs acc e :
  find_labels la lb vs acc = Raise e -> e = KeyError.
Proof.
  revert acc. induction vs as [|v vs IH]; intros acc; cbn; [discriminate|].
  destruct (label v); [|congruence].
  destruct (String.eqb s la); [apply IH|].
  destruct (String.eqb s lb); apply IH.
Qed.

Lemma latest_values_total all_data vs : exists r, latest_values all_data vs = Ok r.
Proof.
  induction vs as [|v vs [r IH]]; [eexists; reflexivity|].
  cbn [latest_values].
  destruct (get_data all_data (Some (id v))) as [data|] eqn:Hd; [|eauto].
  unfold get_data in Hd. destruct (all_data !! id v) as [[|o l]|];
    try discriminate. injection Hd as <-.
  destruct (getitem_last o l) as [y Hy]. rewrite Hy, IH. cbn [Py.bind]. eauto.
Qed.

Lemma get_data_last all_data k (data : list observation) :
  get_data all_data k = Some data -> exists o, getitem data (-1) = Ok o.
Proof.
  unfold get_data. destruct k as [key|]; [|discriminate].
  destruct (all_data !! key) as [[|o l]|]; try discriminate.
  intros [= <-]. apply getitem_last.
Qed.

Lemma yoy_index_negative data i : get_yoy_index data = Ok (Some i) -> i < 0.
Proof. intros H. pose proof (get_yoy_index_values data i H). lia. Qed.

Lemma yoy_index_access data i :
  get_yoy_index data = Ok (Some i) -> exists o, getitem data i = Ok o.
Proof.
  intros H. pose proof (get_yoy_index_values data i H).
  apply getitem_in_range. lia.
Qed.

Lemma guarded_access (data other : list observation) i :
  get_yoy_index data = Ok (Some i) ->
  (Z.abs i <=? len other) = true ->
  exists o, getitem other i = Ok o.
Proof.
  intros H G. pose proof (yoy_index_negative data i H). apply Z.leb_le in G.
  apply getitem_in_range. lia.
Qed.

Lemma first_vector (vs : list vector) :
  vs <> [] -> exists v, getitem vs 0 = Ok v.
Proof. destruct vs as [|v vs]; [congruence|]. intros _. eexists. reflexivity. Qed.

Lemma second_last (data : list observation) :
  (len data <? 2) = false -> exists o, getitem data (-2) = Ok o.
Proof. intros H. apply Z.ltb_ge in H. apply getitem_in_range. lia. Qed.

Lemma latest_values_head all_data v vs xs (data : list observation) :
  latest_values all_data (v :: vs) = Ok (Some xs) ->
  all_data !! id v = Some data ->
  exists o, getitem data (-1) = Ok o.
Proof.
  cbn [latest_values]. unfold get_data. intros H Hd. rewrite Hd in H.
  destruct data as [|o l]; [discriminate H|]. apply getitem_last.
Qed.

Lemma latest_values_first all_data vs v xs (data : list observation) :
  latest_values all_data vs = Ok (Some xs) ->
  getitem vs 0 = Ok v ->
  all_data !! id v = Some data ->
  exists o, getitem data (-1) = Ok o.
Proof.
  destruct vs as [|w vs]; [discriminate|].
  intros H [= <-]. eapply latest_values_head; eauto.
Qed.

Ltac safe_total :=
  apply safe_of_total;
  first [ eapply get_data_last; eassumption
        | eapply latest_values_first; eassumption
        | match goal with
          | H : latest_values _ (?v :: _) = _, G : _ !! id ?v = Some ?d
            |- exists o, getitem ?d _ = _ =>
              exact (latest_values_head _ _ _ _ _ H G)
          end
        | eapply yoy_index_access; eassumption
        | eapply guarded_access; eassumption
        | eapply second_last; eassumption
        | eapply first_vector; eassumption
        | apply latest_values_total
        | eapply prev_values_total; eapply yoy_index_negative; eassumption ].

Ltac safe_raises :=
  first [ eapply safe_of_raises; [|apply get_yoy_index_raises]
        | eapply safe_of_raises; [|apply is_quarterly_raises]
        | eapply safe_of_raises; [|apply is_annual_raises]
        | eapply safe_of_raises; [|apply period_of_raises]
        | eapply safe_of_raises; [|apply format_period_raises]
        | eapply safe_of_raises; [|apply truediv_raises]
        | eapply safe_of_raises; [|apply find_labels_raises] ];
  discriminate.

Lemma from_format_bind (format_raises : string -> float -> option exn) cfg
    {A B} (m : res A) (k : A -> res B) :
  no_index_error m ->
  (forall a, m = Ok a -> index_error_from_format format_raises cfg (k a)) ->
  index_error_from_format format_raises cfg (Py.bind m k).
Proof.
  unfold no_index_error, index_error_from_format. intros Hm Hk.
  destruct m as [a|e]; cbn.
  - apply Hk. reflexivity.
  - intros [= ->]. exfalso. apply Hm. reflexivity.
Qed.

Lemma from_format_format (str_format : string -> float -> string)
    (format_raises : string -> float -> option exn) cfg
    {B} (x : float) (k : string -> res B) :
  (forall a, k a <> Raise IndexError) ->
  index_error_from_format format_raises cfg
    (Py.bind (format_with str_format format_raises (format_value cfg) x) k).
Proof.
  unfold index_error_from_format, format_with. intros Hk.
  destruct (format_raises (format_value cfg) x) as [e|] eqn:E; cbn.
  - intros [= ->]. eauto.
  - intros H. destruct (Hk _ H).
Qed.

Lemma from_format_safe (format_raises : string -> float -> option exn) cfg
    {A} (m : res A) :
  no_index_error m -> index_error_from_format format_raises cfg m.
Proof. intros H E. destruct (H E). Qed.

Ltac safe_step :=
  lazymatch goal with
  | |- index_error_from_format _ _ (Py.bind (format_with _ _ _ _) _) =>
      apply from_format_format; intros ?; discriminate
  | |- index_error_from_format _ _ (Py.bind _ _) =>
      apply from_format_bind; [ | intros ? ?]
  | |- index_error_from_format _ _ (let '(_, _) := ?p in _) => destruct p eqn:?
  | |- index_error_from_format _ _ (if ?b then _ else _) => destruct b eqn:?
  | |- index_error_from_format _ _ (match ?x with _ => _ end) => destruct x eqn:?
  | |- index_error_from_format _ _ _ => apply from_format_safe
  | |- no_index_error (Py.bind _ _) => apply safe_bind; [ | intros ? ?]
  | |- no_index_error (Ok _) => apply safe_Ok
  | |- no_index_error (Raise _) => unfold no_index_error; discriminate
  | |- no_index_error (let '(_, _) := ?p in _) => destruct p eqn:?
  | |- no_index_error (if ?b then _ else _) => destruct b eqn:?
  | |- no_index_error (match ?x with _ => _ end) => destruct x eqn:?
  | |- _ => first [safe_total | safe_raises]
  end.

Ltac safe_run := repeat safe_step.

Section WithFormat.

Variable str_format : string -> float -> string.
Variable format_raises : string -> float -> option exn.
Variable float_sum : list float -> float.

Local Abbreviation safe := (index_error_from_format format_raises).

Lemma rate_yoy_pp_safe cfg all_data :
  vectors cfg <> [] ->
  safe cfg (compute_rate_yoy_pp str_format format_raises cfg all_data).
Proof. intros Hne. unfold compute_rate_yoy_pp. safe_run. Qed.

Lemma level_yoy_pct_safe cfg all_data :
  vectors cfg <> [] ->
  safe cfg (compute_level_yoy_pct str_format format_raises cfg all_data).
Proof. intros Hne. unfold compute_level_yoy_pct. safe_run. Qed.

Lemma level_qoq_pct_safe cfg all_data :
  vectors cfg <> [] ->
  safe cfg (compute_level_qoq_pct str_format format_raises cfg all_data).
Proof. intros Hne. unfold compute_level_qoq_pct. safe_run. Qed.

Lemma share_pct_safe cfg all_data :
  safe cfg (compute_share_pct str_format format_raises cfg all_data).
Proof. unfold compute_share_pct. safe_run. Qed.

Lemma wage_gap_safe cfg all_data :
  safe cfg (compute_wage_gap str_format format_raises cfg all_data).
Proof. unfold compute_wage_gap. safe_run. Qed.

Lemma composite_avg_safe cfg all_data :
  vectors cfg <> [] ->
  safe cfg (compute_composite_avg str_format format_raises float_sum cfg all_data).
Proof. intros Hne. unfold compute_composite_avg. safe_run. Qed.

Lemma sum_yoy_pct_safe cfg all_data :
  vectors cfg <> [] ->
  safe cfg (compute_sum_yoy_pct str_format format_raises cfg all_data).
Proof. intros Hne. unfold compute_sum_yoy_pct. safe_run. Qed.

Lemma combined_rate_safe cfg all_data :
  safe cfg (compute_combined_rate str_format format_raises cfg all_data).
Proof. unfold compute_combined_rate. cbv zeta. safe_run. Qed.

Lemma registry_safe name f cfg all_data :
  COMPUTE_FUNCTIONS str_format format_raises float_sum name = Some f ->
  vectors cfg <> [] ->
  safe cfg (f cfg all_data).
Proof.
  unfold COMPUTE_FUNCTIONS. intros Hf Hne.
  repeat match type of Hf with
         | (if ?b then _ else _) = _ => destruct b
         end;
    try discriminate Hf; injection Hf as <-;
    eauto using rate_yoy_pp_safe, level_yoy_pct_safe, level_qoq_pct_safe,
      share_pct_safe, wage_gap_safe, composite_avg_safe, sum_yoy_pct_safe,
      combined_rate_safe.
Qed.

End WithFormat.

(** C10. [get_yoy_index] names a lookback index only when the series
    contains it: [-2] needs two observations, [-5] five, [-13] thirteen, and
    the answer is [None] otherwise. So [data[yoy_idx]] is in bounds for the
    series the index came from, and for every other series that passed the
    guard [data and len(data) >= abs(yoy_idx)]; computing the index never
    raises [IndexError] either, and no index of a strategy of the registry
    is out of range on a configuration that lists at least one vector: if
    the strategy ends in [IndexError], it is the one [str.format] raised on
    the configured template, and where the template gives none, there is
    none. *)
Theorem get_yoy_index_in_bounds (data : list observation) :
  get_yoy_index data <> Raise IndexError
  /\ (forall r, get_yoy_index data = Ok r ->
        r = None \/ r = Some (-2) \/ r = Some (-5) \/ r = Some (-13))
  /\ (forall i : Z,
        get_yoy_index data = Ok (Some i) ->
        ((i = -2 /\ 2 <= len data) \/ (i = -5 /\ 5 <= len data)
         \/ (i = -13 /\ 13 <= len data))
        /\ (exists o, getitem data i = Ok o)
        /\ (forall other, long_enough (Some other) i = true ->
                          exists o, getitem other i = Ok o))
  /\ (forall str_format format_raises float_sum name f cfg all_data,
        COMPUTE_FUNCTIONS str_format format_raises float_sum name = Some f ->
        vectors cfg <> [] ->
        (f cfg all_data = Raise IndexError ->
         exists x, format_raises (format_value cfg) x = Some IndexError)
        /\ ((forall x, format_raises (format_value cfg) x <> Some IndexError) ->
            f cfg all_data <> Raise IndexError)).
Proof.
  repeat apply conj.
  - intros H. apply get_yoy_index_raises in H. discriminate.
  - intros [i|] H; [|auto]. right.
    destruct (get_yoy_index_values data i H) as [[-> _] | [[-> _] | [-> _]]]; auto.
  - intros i H. pose proof (get_yoy_index_values data i H) as Hv.
    split; [exact Hv|]. split.
    + apply getitem_in_range. lia.
    + intros other Ho. apply long_enough_getitem; [lia | exact Ho].
  - intros str_format format_raises float_sum name f cfg all_data Hf Hne.
    pose proof (registry_safe str_format format_raises float_sum name f cfg
                  all_data Hf Hne) as Hs.
    split; [exact Hs|].
    intros Hno E. destruct (Hs E) as [x Hx]. exact (Hno x Hx).
Qed.

Lemma get_yoy_index_in_bounds_witness :
  get_yoy_index Samples.monthly13 = Ok (Some (-13))
  /\ exists o, getitem Samples.monthly13 (-13) = Ok o.
Proof.
  split; [reflexivity|].
  destruct (get_yoy_index_in_bounds Samples.monthly13) as (_ & _ & H & _).
  exact (proj1 (proj2 (H (-13) eq_refl))).
Defined.

End IndexSafety.

Module RowFacts.
Import BuildSite Props.

Lemma nonempty_false (s : string) : nonempty s = false <-> s = "".
Proof. destruct s; cbn; split; intros H; congruence. Qed.

Lemma catch_to_none_Ok {A} (m : res (option A)) (a : A) :
  catch_to_none m = Ok (Some a) -> m = Ok (Some a).
Proof. unfold catch_to_none. destruct m as [[x|]|[]]; congruence. Qed.

Lemma kept_row (r : row) : no_value r -> has_value r = false.
Proof.
  unfold no_value, has_value.
  destruct (r !! "value") as [[v|]|]; try reflexivity.
  intros H. rewrite H. apply andb_false_r.
Qed.

Section WithParsers.

Variable py_float : string -> option float.
Variable float_pow : float -> float -> res float.

Lemma chart_row_malformed (r : row) :
  malformed py_float r -> chart_row py_float r = [].
Proof.
  unfold malformed, chart_row, no_date, no_value.
  intros [Hd | [Hv | (v & Hv & Hf)]].
  - destruct (r !! "date") as [[d|]|]; cbn [from_option id]; try reflexivity.
    + subst d. destruct (default (Some "") (r !! "value")); reflexivity.
    + destruct (default (Some "") (r !! "value")); reflexivity.
  - destruct (default (Some "") (r !! "date")) as [d|]; [|reflexivity].
    destruct (r !! "value") as [[v|]|]; cbn [from_option id]; try reflexivity.
    + rewrite Hv. cbn [nonempty]. rewrite !andb_false_r. reflexivity.
    + rewrite andb_false_r. reflexivity.
  - destruct (default (Some "") (r !! "date")) as [d|]; [|reflexivity].
    rewrite Hv. cbn [from_option id]. rewrite Hf. destruct (_ && _); reflexivity.
Qed.

Lemma chart_row_wellformed (r : row) (d v : string) (x : float) :
  r !! "date" = Some (Some d) -> d <> "" ->
  r !! "value" = Some (Some v) -> strip v <> "" ->
  py_float v = Some x ->
  chart_row py_float r = [mkchart d x].
Proof.
  intros Hd Hne Hv Hs Hf. unfold chart_row. rewrite Hd, Hv. cbn [from_option id].
  assert (H1 : nonempty d = true)
    by (destruct (nonempty d) eqn:E; [reflexivity | apply nonempty_false in E; congruence]).
  assert (H2 : nonempty (strip v) = true)
    by (destruct (nonempty (strip v)) eqn:E;
        [reflexivity | apply nonempty_false in E; congruence]).
  assert (H3 : nonempty v = true).
  { destruct v; [|reflexivity]. exfalso. apply Hs. reflexivity. }
  rewrite H1, H2, H3, Hf. reflexivity.
Qed.

Lemma chart_history_drop (before after : list row) (bad : row) :
  malformed py_float bad ->
  read_chart_history py_float (Some (Ok (before ++ bad :: after)%list))
  = read_chart_history py_float (Some (Ok (before ++ after)%list)).
Proof.
  intros Hbad. unfold read_chart_history. cbn [Py.bind].
  rewrite !List.map_app, !concat_app. cbn [List.map concat].
  rewrite (chart_row_malformed bad Hbad). reflexivity.
Qed.

Lemma official_drop_blank ind (before after : list row) (bad : row) :
  no_value bad ->
  read_official_data py_float float_pow ind (Some (Ok (before ++ bad :: after)%list))
  = read_official_data py_float float_pow ind (Some (Ok (before ++ after)%list)).
Proof.
  intros Hbad. apply kept_row in Hbad. unfold read_official_data. cbn [Py.bind].
  rewrite !List.filter_app. cbn [List.filter]. rewrite Hbad. reflexivity.
Qed.

(** The result when the body of the [try] raises one of the three
    exceptions of the [except] clause. *)
Lemma official_caught ind (all_rows : list row) (e : exn) :
  official_body py_float float_pow ind (List.filter has_value all_rows) = Raise e ->
  e = KeyError \/ e = ValueError \/ e = TypeError ->
  read_official_data py_float float_pow ind (Some (Ok all_rows)) = Ok None.
Proof.
  intros Hb He. unfold read_official_data. cbn [Py.bind].
  destruct (List.filter has_value all_rows) as [|r0 rows]; [reflexivity|].
  rewrite Hb. destruct He as [-> | [-> | ->]]; reflexivity.
Qed.

Lemma official_bad_latest ind (all_rows : list row) (r : row) (v : string) :
  last (List.filter has_value all_rows) = Some r ->
  r !! "value" = Some (Some v) ->
  py_float v = None ->
  read_official_data py_float float_pow ind (Some (Ok all_rows)) = Ok None.
Proof.
  intros Hl Hv Hf. apply (official_caught ind all_rows ValueError); [|auto].
  unfold official_body.
  rewrite StrategyFacts.getitem_minus_one, Hl. cbn [Py.bind].
  unfold cell at 1. rewrite Hv. cbn [Py.bind].
  unfold to_float. rewrite Hf. reflexivity.
Qed.

(** The value of a row the filter keeps. *)
Lemma kept_value (all_rows : list row) (r : row) :
  r ∈ List.filter has_value all_rows ->
  exists v, r !! "value" = Some (Some v).
Proof.
  intros H. apply list_elem_of_In, List.filter_In in H as [_ H].
  unfold has_value in H. destruct (r !! "value") as [[v|]|]; try discriminate.
  eauto.
Qed.

Lemma last_elem {A} (l : list A) (x : A) : last l = Some x -> x ∈ l.
Proof.
  rewrite last_lookup. intros H. eapply list_elem_of_lookup_2; eauto.
Qed.

(** The body of the [try] up to the date of the latest row. *)
Lemma official_body_date ind (all_rows : list row) (r : row) :
  last (List.filter has_value all_rows) = Some r ->
  (exists e, official_body py_float float_pow ind (List.filter has_value all_rows)
             = Raise e /\ e = ValueError)
  \/ exists lv,
       official_body py_float float_pow ind (List.filter has_value all_rows)
       = (latest_date <- cell r "date";;
          official_dated py_float float_pow ind
            (List.filter has_value all_rows) lv latest_date).
Proof.
  intros Hl. destruct (kept_value all_rows r (last_elem _ _ Hl)) as [v Hv].
  assert (E : official_body py_float float_pow ind (List.filter has_value all_rows)
              = (latest_value <- to_float py_float (Some v);;
                 latest_date <- cell r "date";;
                 official_dated py_float float_pow ind
                   (List.filter has_value all_rows) latest_value latest_date)).
  { unfold official_body.
    rewrite StrategyFacts.getitem_minus_one, Hl. cbn [Py.bind].
    unfold cell at 1. rewrite Hv. reflexivity. }
  rewrite E. unfold to_float.
  destruct (py_float v) as [lv|]; cbn [Py.bind]; [right; eauto | left; eauto].
Qed.

Lemma official_no_date_column ind (all_rows : list row) (r : row) :
  last (List.filter has_value all_rows) = Some r ->
  r !! "date" = None ->
  read_official_data py_float float_pow ind (Some (Ok all_rows)) = Ok None.
Proof.
  intros Hl Hd.
  destruct (official_body_date ind all_rows r Hl) as [(e & He & ->) | (lv & Hb)].
  - apply (official_caught ind all_rows ValueError); auto.
  - apply (official_caught ind all_rows KeyError); [|auto].
    rewrite Hb. unfold cell. rewrite Hd. reflexivity.
Qed.

Lemma official_short_row ind (all_rows : list row) (r : row) :
  last (List.filter has_value all_rows) = Some r ->
  r !! "date" = Some None ->
  frequency ind <> "Daily" ->
  read_official_data py_float float_pow ind (Some (Ok all_rows)) = Ok None.
Proof.
  intros Hl Hd Hf.
  destruct (official_body_date ind all_rows r Hl) as [(e & He & ->) | (lv & Hb)].
  - apply (official_caught ind all_rows ValueError); auto.
  - apply (official_caught ind all_rows TypeError); [|auto].
    rewrite Hb. unfold cell. rewrite Hd. cbn [Py.bind]. unfold official_dated.
    destruct (String.eqb (frequency ind) "Quarterly"); [reflexivity|].
    destruct (String.eqb_spec (frequency ind) "Daily"); [contradiction|].
    reflexivity.
Qed.

Lemma official_short_row_daily ind (all_rows : list row) (r : row) b :
  last (List.filter has_value all_rows) = Some r ->
  r !! "date" = Some None ->
  read_official_data py_float float_pow ind (Some (Ok all_rows)) = Ok (Some b) ->
  frequency ind = "Daily" /\ date b = None /\ period b = None.
Proof.
  intros Hl Hd Hr.
  destruct (String.eqb_spec (frequency ind) "Daily") as [Hf|Hf].
  - split; [exact Hf|].
    unfold read_official_data in Hr. cbn [Py.bind] in Hr.
    destruct (List.filter has_value all_rows) as [|r0 rows] eqn:Hk;
      [discriminate Hr|].
    rewrite <- Hk in *.
    destruct (official_body_date ind all_rows r Hl) as [(e & He & ->) | (lv & Hb)].
    + rewrite He in Hr. discriminate Hr.
    + rewrite Hb in Hr. unfold cell in Hr. rewrite Hd in Hr.
      cbn [Py.bind] in Hr. unfold official_dated in Hr. rewrite Hf in Hr.
      cbn [String.eqb Ascii.eqb Bool.eqb Py.bind] in Hr.
      apply catch_to_none_Ok in Hr.
      ResultFacts.invert_run; subst; split; reflexivity.
  - rewrite (official_short_row ind all_rows r Hl Hd Hf) in Hr. discriminate Hr.
Qed.

Lemma official_empty_date ind (all_rows : list row) (r : row) :
  last (List.filter has_value all_rows) = Some r ->
  r !! "date" = Some (Some "") ->
  (frequency ind = "Quarterly" ->
   read_official_data py_float float_pow ind (Some (Ok all_rows)) = Ok None)
  /\ (forall b,
        read_official_data py_float float_pow ind (Some (Ok all_rows))
        = Ok (Some b) ->
        date b = Some "" /\ period b = Some "").
Proof.
  intros Hl Hd.
  destruct (official_body_date ind all_rows r Hl) as [(e & He & ->) | (lv & Hb)].
  { split.
    - intros _. apply (official_caught ind all_rows ValueError); auto.
    - intros b Hr.
      rewrite (official_caught ind all_rows ValueError) in Hr by auto.
      discriminate Hr. }
  unfold cell in Hb. rewrite Hd in Hb. cbn [Py.bind] in Hb. split.
  - intros Hf. apply (official_caught ind all_rows ValueError); [|auto].
    rewrite Hb. unfold official_dated. rewrite Hf. reflexivity.
  - intros b Hr. unfold read_official_data in Hr. cbn [Py.bind] in Hr.
    destruct (List.filter has_value all_rows) as [|r0 rows] eqn:Hk;
      [discriminate Hr|].
    rewrite <- Hk in *. rewrite Hb in Hr. apply catch_to_none_Ok in Hr.
    unfold official_dated in Hr.
    destruct (String.eqb (frequency ind) "Quarterly"); [discriminate Hr|].
    destruct (String.eqb (frequency ind) "Daily");
      cbn [slice_of Py.bind] in Hr;
      ResultFacts.invert_run; subst; split; reflexivity.
Qed.

Lemma official_bad_previous ind (all_rows : list row) (r2 : row) (v : string) :
  getitem (List.filter has_value all_rows) (-2) = Ok r2 ->
  r2 !! "value" = Some (Some v) ->
  py_float v = None ->
  read_official_data py_float float_pow ind (Some (Ok all_rows)) = Ok None.
Proof.
  intros H2 Hv Hf.
  assert (Hva : value_at py_float (List.filter has_value all_rows) (-2)
                = Raise ValueError).
  { unfold value_at, cell, to_float. rewrite H2. cbn [Py.bind].
    rewrite Hv. cbn [Py.bind]. rewrite Hf. reflexivity. }
  assert (Hlen : (2 <=? len (List.filter has_value all_rows)) = true).
  { apply Z.leb_le. unfold getitem in H2. cbn [Z.ltb Z.compare] in H2.
    destruct (_ && _) eqn:E in H2; [|discriminate H2].
    apply andb_true_iff in E as [E _]. apply Z.leb_le in E. unfold len. lia. }
  destruct (getitem_in_range (List.filter has_value all_rows) (-1)) as [r Hl].
  { apply Z.leb_le in Hlen. lia. }
  rewrite StrategyFacts.getitem_minus_one in Hl.
  destruct (last (List.filter has_value all_rows)) as [r'|] eqn:Hl';
    [injection Hl as -> | discriminate Hl].
  rename Hl' into Hl.
  destruct (official_body_date ind all_rows r Hl) as [(e & He & ->) | (lv & Hb)];
    [apply (official_caught ind all_rows ValueError); auto|].
  assert (Hcaught : exists e,
             official_body py_float float_pow ind (List.filter has_value all_rows)
             = Raise e /\ (e = KeyError \/ e = ValueError \/ e = TypeError)).
  { rewrite Hb. unfold cell. destruct (r !! "date") as [dc|]; [|eauto].
    cbn [Py.bind]. unfold official_dated. rewrite Hlen, Hva.
    destruct (String.eqb (frequency ind) "Quarterly").
    - destruct dc as [d|]; cbn [slice_of Py.bind]; [|eauto].
      destruct (Py.int (slice 5 7 d)) as [m|e] eqn:Hm; cbn [Py.bind]; [eauto|].
      apply IndexSafety.int_raises in Hm. subst e. eauto.
    - destruct (String.eqb (frequency ind) "Daily"); cbn [Py.bind]; [eauto|].
      destruct dc as [d|]; cbn [slice_of Py.bind]; eauto. }
  destruct Hcaught as (e & He & Hc). eapply official_caught; eauto.
Qed.

End WithParsers.

(** C9, as the code has it. [read_chart_history] drops every malformed row
    (no date, no value, a blank value, a value that is not a number) and
    reads the other rows as if it were not there; a well-formed row gives
    its point. [read_official_data] drops the rows without value in the
    same way; a value that is not a number is kept, and the metric is
    absent for the run ([None], no exception) when it is the value of the
    latest row kept or of the row before it. The metric is absent as well
    when the file has no date column and, unless the indicator is daily,
    when the latest row kept is too short to have a date; for a daily
    indicator the block then has no date and no period. An empty date in
    the latest row kept is read as a date: a quarterly metric is absent,
    and a block of another frequency has an empty date and an empty
    period. *)
Theorem malformed_rows
    (py_float : string -> option float)
    (float_pow : float -> float -> res float) :
  (forall before after bad,
      malformed py_float bad ->
      read_chart_history py_float (Some (Ok (before ++ bad :: after)%list))
      = read_chart_history py_float (Some (Ok (before ++ after)%list)))
  /\ (forall r d v x,
        r !! "date" = Some (Some d) -> d <> "" ->
        r !! "value" = Some (Some v) -> strip v <> "" ->
        py_float v = Some x ->
        chart_row py_float r = [mkchart d x])
  /\ (forall ind before after bad,
        no_value bad ->
        read_official_data py_float float_pow ind
          (Some (Ok (before ++ bad :: after)%list))
        = read_official_data py_float float_pow ind
            (Some (Ok (before ++ after)%list)))
  /\ (forall ind all_rows r v,
        last (List.filter has_value all_rows) = Some r ->
        r !! "value" = Some (Some v) ->
        py_float v = None ->
        read_official_data py_float float_pow ind (Some (Ok all_rows)) = Ok None)
  /\ (forall ind all_rows r2 v,
        getitem (List.filter has_value all_rows) (-2) = Ok r2 ->
        r2 !! "value" = Some (Some v) ->
        py_float v = None ->
        read_official_data py_float float_pow ind (Some (Ok all_rows)) = Ok None)
  /\ (forall ind all_rows r,
        last (List.filter has_value all_rows) = Some r ->
        r !! "date" = None ->
        read_official_data py_float float_pow ind (Some (Ok all_rows)) = Ok None)
  /\ (forall ind all_rows r,
        last (List.filter has_value all_rows) = Some r ->
        r !! "date" = Some None ->
        (frequency ind <> "Daily" ->
         read_official_data py_float float_pow ind (Some (Ok all_rows)) = Ok None)
        /\ (forall b,
              read_official_data py_float float_pow ind (Some (Ok all_rows))
              = Ok (Some b) ->
              frequency ind = "Daily" /\ date b = None /\ period b = None))
  /\ (forall ind all_rows r,
        last (List.filter has_value all_rows) = Some r ->
        r !! "date" = Some (Some "") ->
        (frequency ind = "Quarterly" ->
         read_official_data py_float float_pow ind (Some (Ok all_rows)) = Ok None)
        /\ (forall b,
              read_official_data py_float float_pow ind (Some (Ok all_rows))
              = Ok (Some b) ->
              date b = Some "" /\ period b = Some "")).
Proof.
  repeat apply conj.
  - apply chart_history_drop.
  - apply chart_row_wellformed.
  - apply official_drop_blank.
  - apply official_bad_latest.
  - apply official_bad_previous.
  - apply official_no_date_column.
  - intros ind all_rows r Hl Hd. split.
    + apply (official_short_row py_float float_pow ind all_rows r Hl Hd).
    + intros b. apply (official_short_row_daily py_float float_pow ind all_rows r b Hl Hd).
  - apply official_empty_date.
Qed.

Lemma malformed_rows_witness :
  read_chart_history Instances.float_of_decimal
    (Some (Ok Samples.rows_with_bad_last))
  = Ok [mkchart "2024-12-01" 5.5]
  /\ read_official_data Instances.float_of_decimal Instances.float_pow
       Samples.rate_indicator (Some (Ok Samples.rows_with_bad_last)) = Ok None.
Proof.
  destruct (malformed_rows Instances.float_of_decimal Instances.float_pow)
    as (Hchart & _ & _ & Hbad & _).
  split.
  - refine (eq_trans (Hchart [Samples.csv_row "2024-12-01" "5.5"] []
                        (Samples.csv_row "2025-01-01" "n/a") _) _).
    + right. right. exists "n/a". split; reflexivity.
    + reflexivity.
  - apply (Hbad Samples.rate_indicator Samples.rows_with_bad_last
             (Samples.csv_row "2025-01-01" "n/a") "n/a"); reflexivity.
Defined.

(** C9 as stated fails for [read_official_data]: a last row whose value is
    not a number is not dropped; the metric is absent, although the rows
    that remain give a value. [read_chart_history] reads the same file as
    the one remaining point. And a last row without date is not dropped
    either: with an empty date the block of a monthly indicator has an
    empty date and period, and with a row that stops before the date the
    block of a daily indicator has none. *)
Lemma bad_latest_row_loses_the_metric :
  read_official_data Instances.float_of_decimal Instances.float_pow
    Samples.rate_indicator (Some (Ok Samples.rows_with_bad_last)) = Ok None
  /\ read_official_data Instances.float_of_decimal Instances.float_pow
       Samples.rate_indicator (Some (Ok Samples.rows_without_bad))
     = Ok (Some {| date := Some "2024-12-01"; period := Some "2024-12";
                   value := Some 5.5%float; secondary := None;
                   absolute := 5.5%float;
                   extra := Some ("yoy_pp_change", None) |})
  /\ read_chart_history Instances.float_of_decimal
       (Some (Ok Samples.rows_with_bad_last))
     = Ok [mkchart "2024-12-01" 5.5]
  /\ read_official_data Instances.float_of_decimal Instances.float_pow
       Samples.rate_indicator (Some (Ok Samples.rows_with_empty_date))
     = Ok (Some {| date := Some ""; period := Some "";
                   value := Some 5.75%float; secondary := None;
                   absolute := 5.75%float;
                   extra := Some ("yoy_pp_change", None) |})
  /\ read_official_data Instances.float_of_decimal Instances.float_pow
       Samples.daily_indicator (Some (Ok Samples.rows_with_short_last))
     = Ok (Some {| date := None; period := None;
                   value := Some 5.75%float; secondary := None;
                   absolute := 5.75%float;
                   extra := Some ("yoy_pp_change", None) |}).
Proof. repeat split; vm_compute; reflexivity. Qed.

End RowFacts.

(** ** Further properties: the fetched series *)

Module StringOrder.

Lemma ascii_compare_refl (c : ascii) : Ascii.compare c c = Eq.
Proof. unfold Ascii.compare. apply N.compare_refl. Qed.

Lemma compare_refl (s : string) : String.compare s s = Eq.
Proof.
  induction s as [|c s IH]; [reflexivity|]. cbn.
  now rewrite ascii_compare_refl.
Qed.

Lemma compare_lt_trans (a b c : string) :
  String.compare a b = Lt -> String.compare b c = Lt -> String.compare a c = Lt.
Proof.
  revert b c. induction a as [|x a IH]; intros [|y b] [|z c]; cbn;
    try congruence.
  destruct (Ascii.compare x y) eqn:Hxy; try discriminate;
    destruct (Ascii.compare y z) eqn:Hyz; try discriminate; intros H1 H2.
  - apply Ascii.compare_eq_iff in Hxy, Hyz. subst.
    rewrite ascii_compare_refl. eapply IH; eauto.
  - apply Ascii.compare_eq_iff in Hxy. subst. now rewrite Hyz.
  - apply Ascii.compare_eq_iff in Hyz. subst. now rewrite Hxy.
  - unfold Ascii.compare in *.
    rewrite N.compare_lt_iff in Hxy. rewrite N.compare_lt_iff in Hyz.
    pose proof (N.lt_trans _ _ _ Hxy Hyz) as Hxz.
    apply N.compare_lt_iff in Hxz. now rewrite Hxz.
Qed.

Lemma leb_refl (s : string) : String.leb s s = true.
Proof. unfold String.leb. now rewrite compare_refl. Qed.

Lemma leb_trans (a b c : string) :
  String.leb a b = true -> String.leb b c = true -> String.leb a c = true.
Proof.
  unfold String.leb.
  destruct (String.compare a b) eqn:Hab; try discriminate;
    destruct (String.compare b c) eqn:Hbc; try discriminate; intros _ _.
  - apply String.compare_eq_iff in Hab, Hbc. subst. now rewrite compare_refl.
  - apply String.compare_eq_iff in Hab. subst. now rewrite Hbc.
  - apply String.compare_eq_iff in Hbc. subst. now rewrite Hab.
  - now rewrite (compare_lt_trans a b c Hab Hbc).
Qed.

Lemma leb_false_ne (a b : string) : String.leb a b = false -> a <> b.
Proof. intros H ->. rewrite leb_refl in H. discriminate. Qed.

End StringOrder.

Module FetchedSeries.
Import FetchMinisterData Props Props2 StringOrder.

Lemma leb_total (a b : string) : String.leb a b = false -> String.leb b a = true.
Proof.
  unfold String.leb. rewrite (String.compare_antisym b a).
  destruct (String.compare a b); cbn; congruence.
Qed.

Lemma insert_by_date_perm (o : observation) (l : list observation) :
  insert_by_date o l ≡ₚ o :: l.
Proof.
  induction l as [|x l IH]; cbn; [reflexivity|].
  destruct (String.leb (date o) (date x)); [reflexivity|].
  rewrite IH. apply Permutation_swap.
Qed.

Lemma sort_by_date_perm (l : list observation) : sort_by_date l ≡ₚ l.
Proof.
  induction l as [|x l IH]; cbn; [reflexivity|].
  fold (sort_by_date l). rewrite insert_by_date_perm. now rewrite IH.
Qed.

Lemma insert_by_date_sorted (o : observation) (l : list observation) :
  StronglySorted date_le l -> StronglySorted date_le (insert_by_date o l).
Proof.
  induction 1 as [|x l Hs IH Hx]; cbn.
  - repeat constructor.
  - destruct (String.leb (date o) (date x)) eqn:Hox.
    + constructor; [constructor; assumption|].
      constructor; [exact Hox|].
      eapply Forall_impl; [exact Hx|].
      intros y Hy. unfold date_le in *. eapply leb_trans; eauto.
    + constructor; [exact IH|].
      rewrite insert_by_date_perm. constructor; [|exact Hx].
      apply leb_total. exact Hox.
Qed.

Lemma sort_by_date_sorted (l : list observation) :
  StronglySorted date_le (sort_by_date l).
Proof.
  induction l as [|x l IH]; cbn; [constructor|].
  apply insert_by_date_sorted. exact IH.
Qed.

Lemma with_date_insert (d : string) (o : observation) (l : list observation) :
  with_date d (insert_by_date o l) = with_date d (o :: l).
Proof.
  unfold with_date. induction l as [|x l IH]; [reflexivity|].
  cbn [insert_by_date].
  destruct (String.leb (date o) (date x)) eqn:Hox; [reflexivity|].
  cbn [List.filter] in *. rewrite IH.
  destruct (String.eqb_spec (date o) d) as [Ho|Ho];
    destruct (String.eqb_spec (date x) d) as [Hx|Hx]; try reflexivity.
  apply leb_false_ne in Hox. congruence.
Qed.

Lemma with_date_sort (d : string) (l : list observation) :
  with_date d (sort_by_date l) = with_date d l.
Proof.
  induction l as [|x l IH]; [reflexivity|].
  cbn [sort_by_date foldr]. fold (sort_by_date l).
  rewrite with_date_insert. unfold with_date in *. cbn [List.filter].
  now rewrite IH.
Qed.

Lemma read_points_omap (ps : list point) (l : list observation) :
  read_points ps = Ok l -> l = omap point_observation ps.
Proof.
  revert l. induction ps as [|p ps IH]; intros l; cbn.
  - now intros [= <-].
  - unfold point_observation.
    destruct (refPer p) as [ref|]; [|apply IH].
    destruct (pvalue p) as [[x|e]|]; [| |apply IH].
    + destruct (nonempty ref); [|apply IH]. cbn.
      destruct (read_points ps) as [rest|e]; cbn; [|discriminate].
      intros [= <-]. f_equal. now apply IH.
    + destruct (nonempty ref); [discriminate|apply IH].
Qed.

Lemma read_points_dates (ps : list point) (l : list observation) :
  read_points ps = Ok l -> Forall (fun o => date o <> "") l.
Proof.
  intros H. apply read_points_omap in H. subst l.
  induction ps as [|p ps IH]; cbn; [constructor|].
  unfold point_observation at 1.
  destruct (refPer p) as [ref|]; [|exact IH].
  destruct (pvalue p) as [[x|e]|]; try exact IH.
  destruct ref; cbn; [exact IH|]. constructor; [discriminate|exact IH].
Qed.

(** What a pass that returns a series went through. *)
Lemma try_body_series (r : res response) (data : list observation) :
  try_body r = Returned (Some data) ->
  exists resp it rest pts,
    r = Ok resp /\ status_code resp = 200 /\ json resp = Ok (it :: rest)
    /\ status it <> Some "FAILED"
    /\ read_points (vectorDataPoint it) = Ok pts
    /\ data = sort_by_date pts /\ data <> [].
Proof.
  unfold try_body. destruct r as [resp|e]; [|discriminate].
  destruct (Z.eqb_spec (status_code resp) 200) as [Hc|Hc]; cbn; [|discriminate].
  destruct (json resp) as [[|it rest]|e] eqn:Hj; try discriminate.
  destruct (decide (status it = Some "FAILED")) as [Hs|Hs].
  - rewrite bool_decide_eq_true_2 by exact Hs. discriminate.
  - rewrite bool_decide_eq_false_2 by exact Hs.
    destruct (read_points (vectorDataPoint it)) as [pts|e] eqn:Hp; [|discriminate].
    destruct (sort_by_date pts) as [|d ds] eqn:Hsort; [discriminate|].
    intros [= <-]. exists resp, it, rest, pts.
    repeat split; auto; try discriminate.
Qed.

Lemma try_body_shape (r : res response) (data : list observation) :
  try_body r = Returned (Some data) ->
  data <> []
  /\ StronglySorted date_le data
  /\ Forall (fun o => date o <> "") data.
Proof.
  intros H.
  apply try_body_series in H as (resp & it & rest & pts & _ & _ & _ & _ & Hp & -> & Hne).
  split; [exact Hne|]. split; [apply sort_by_date_sorted|].
  rewrite sort_by_date_perm. eapply read_points_dates; eauto.
Qed.

Section WithNet.

Variable net : Z -> Z -> nat -> res response.

(** The passes of [attempts]: [k] failed ones, each followed by a sleep of
    5 seconds, and then either a pass that returns or the end of the loop. *)
Lemma attempts_trace (n : nat) (vid latestN : Z) (w : world)
    (x : option (list observation)) (w' : world) :
  attempts net n vid latestN w = (x, w') ->
  exists k : nat,
    (k <= n)%nat
    /\ slept w' = (slept w ++ replicate k 5)%list
    /\ (forall j, (j < k)%nat ->
          transient (try_body (net vid latestN (posts w + j)%nat)))
    /\ ((posts w' = (posts w + S k)%nat /\ (k < n)%nat
         /\ try_body (net vid latestN (posts w + k)%nat) = Returned x)
        \/ (posts w' = (posts w + k)%nat /\ k = n /\ x = None)).
Proof.
  revert w. induction n as [|n IH]; intros w; cbn [attempts post].
  - intros [= <- <-]. exists 0%nat. cbn. rewrite app_nil_r, Nat.add_0_r.
    repeat split; auto; intros; lia.
  - set (out := try_body (net vid latestN (posts w))).
    assert (Hfail : transient out ->
              attempts net n vid latestN
                (sleep 5 {| posts := S (posts w); slept := slept w |}) = (x, w') ->
              exists k : nat,
                (k <= S n)%nat
                /\ slept w' = (slept w ++ replicate k 5)%list
                /\ (forall j, (j < k)%nat ->
                      transient (try_body (net vid latestN (posts w + j)%nat)))
                /\ ((posts w' = (posts w + S k)%nat /\ (k < S n)%nat
                     /\ try_body (net vid latestN (posts w + k)%nat) = Returned x)
                    \/ (posts w' = (posts w + k)%nat /\ k = S n /\ x = None))).
    { intros Ht H. apply IH in H as (k & Hk & Hs & Hj & Hend).
      cbn [sleep posts slept] in *. exists (S k).
      split; [lia|]. split; [rewrite Hs, <- app_assoc; reflexivity|].
      split.
      - intros [|j] Hlt; [now rewrite Nat.add_0_r|].
        replace (posts w + S j)%nat with (S (posts w) + j)%nat by lia.
        apply Hj. lia.
      - destruct Hend as [(Hp & Hlt & Hr) | (Hp & -> & ->)].
        + left. split; [lia|]. split; [lia|].
          replace (posts w + S k)%nat with (S (posts w) + k)%nat by lia. exact Hr.
        + right. split; [lia|]. auto. }
    fold out. destruct out as [r | | e] eqn:Hout.
    + intros [= <- <-]. exists 0%nat. cbn [replicate posts slept].
      rewrite app_nil_r, Nat.add_0_r. split; [lia|]. split; [reflexivity|].
      split; [intros; lia|]. left. split; [lia|]. split; [lia|]. exact Hout.
    + apply Hfail. now left.
    + apply Hfail. right. eauto.
Qed.

End WithNet.

End FetchedSeries.

(** ** Further properties: [fetch_vector] *)

Module FetchVectorFacts.
Import FetchMinisterData Props Props2 FetchedSeries.

Lemma fetch_vector_inv net (vector_id : string) (periods : Z) (w : world)
    (r : res (option (list observation))) (w' : world) :
  fetch_vector net vector_id periods w = (r, w') ->
  (int (remove_v vector_id) = Raise ValueError /\ r = Raise ValueError /\ w' = w)
  \/ (exists vid x, int (remove_v vector_id) = Ok vid /\ r = Ok x
                    /\ attempts net 3 vid periods w = (x, w')).
Proof.
  unfold fetch_vector.
  destruct (int (remove_v vector_id)) as [vid|e] eqn:Hid.
  - destruct (attempts net 3 vid periods w) as [x w1] eqn:Ha. intros [= <- <-].
    right. exists vid, x. auto.
  - intros [= <- <-]. apply IndexSafety.int_raises in Hid as ->. now left.
Qed.

(** The pass that gave the series [fetch_vector] returns. *)
Lemma fetch_vector_series net (vector_id : string) (periods : Z) (w : world)
    (data : list observation) (w' : world) :
  fetch_vector net vector_id periods w = (Ok (Some data), w') ->
  exists vid (k : nat),
    int (remove_v vector_id) = Ok vid /\ (k < 3)%nat
    /\ try_body (net vid periods (posts w + k)%nat) = Returned (Some data).
Proof.
  intros H. apply fetch_vector_inv in H as [(_ & [=] & _) | (vid & x & Hid & [= <-] & H)].
  apply attempts_trace in H as (k & _ & _ & _ & [(_ & Hk & Hr) | (_ & _ & [=])]).
  eauto.
Qed.

(** X1. A series [fetch_vector] returns is never empty, stands in ascending
    order of its dates, compared as strings, and holds no observation with
    an empty date. *)
Theorem fetched_series_sorted
    (net : Z -> Z -> nat -> res response) (vector_id : string) (periods : Z)
    (w w' : world) (data : list observation) :
  fetch_vector net vector_id periods w = (Ok (Some data), w') ->
  data <> []
  /\ StronglySorted date_le data
  /\ Forall (fun o => date o <> "") data.
Proof.
  intros H. apply fetch_vector_series in H as (vid & k & _ & _ & H).
  eapply try_body_shape; eauto.
Qed.

Lemma fetched_series_sorted_witness :
  fetch_vector Samples2.unsorted_answer "v111" 12 (mkworld 0 [])
  = (Ok (Some Samples2.sorted_series), mkworld 1 [])
  /\ StronglySorted date_le Samples2.sorted_series.
Proof.
  split; [reflexivity|].
  exact (proj1 (proj2 (fetched_series_sorted Samples2.unsorted_answer "v111" 12
                         (mkworld 0 []) (mkworld 1 []) Samples2.sorted_series
                         eq_refl))).
Defined.

(** X2. The series [fetch_vector] returns comes from one answer of the
    service, one of the first three, with status 200: it holds exactly the
    observations of the points of the first item that carry a reference
    period and a number, and observations of the same date keep the order
    they had in the answer. *)
Theorem fetched_series_content
    (net : Z -> Z -> nat -> res response) (vector_id : string) (periods : Z)
    (w w' : world) (data : list observation) :
  fetch_vector net vector_id periods w = (Ok (Some data), w') ->
  exists vid (k : nat) resp it rest,
    int (remove_v vector_id) = Ok vid
    /\ (k < 3)%nat
    /\ net vid periods (posts w + k)%nat = Ok resp
    /\ status_code resp = 200
    /\ json resp = Ok (it :: rest)
    /\ data ≡ₚ omap point_observation (vectorDataPoint it)
    /\ forall d, with_date d data
                 = with_date d (omap point_observation (vectorDataPoint it)).
Proof.
  intros H. apply fetch_vector_series in H as (vid & k & Hid & Hk & H).
  apply try_body_series in H as (resp & it & rest & pts & Hr & Hc & Hj & _ & Hp & -> & _).
  apply read_points_omap in Hp as ->.
  exists vid, k, resp, it, rest. repeat split; auto.
  - apply sort_by_date_perm.
  - intros d. apply with_date_sort.
Qed.

Lemma fetched_series_content_witness :
  exists vid (k : nat) resp it rest,
    int (remove_v "v111") = Ok vid
    /\ (k < 3)%nat
    /\ Samples2.unsorted_answer vid 12 (0 + k)%nat = Ok resp
    /\ status_code resp = 200
    /\ json resp = Ok (it :: rest)
    /\ Samples2.sorted_series ≡ₚ omap point_observation (vectorDataPoint it)
    /\ forall d, with_date d Samples2.sorted_series
                 = with_date d (omap point_observation (vectorDataPoint it)).
Proof.
  exact (fetched_series_content Samples2.unsorted_answer "v111" 12
           (mkworld 0 []) (mkworld 1 []) Samples2.sorted_series eq_refl).
Defined.

(** X3. Whatever the service answers, [fetch_vector] sends at most three
    requests and sleeps only for 5 seconds at a time, once after every
    request that failed: the number of sleeps is the number of requests, or
    one less when the last request was answered. It raises only
    [ValueError], for an id that is no number, and then before any request;
    a series comes from the last request made. *)
Theorem fetch_vector_effort
    (net : Z -> Z -> nat -> res response) (vector_id : string) (periods : Z)
    (w w' : world) (r : res (option (list observation))) :
  fetch_vector net vector_id periods w = (r, w') ->
  exists n k : nat,
    posts w' = (posts w + n)%nat
    /\ slept w' = (slept w ++ replicate k 5)%list
    /\ (n <= 3)%nat /\ (k <= n <= S k)%nat
    /\ (forall e, r = Raise e -> e = ValueError /\ n = 0%nat /\ k = 0%nat)
    /\ (forall x, r = Ok x -> (1 <= n)%nat)
    /\ (forall data, r = Ok (Some data) -> n = S k).
Proof.
  intros H. apply fetch_vector_inv in H as [(_ & -> & ->) | (vid & x & Hid & -> & H)].
  - exists 0%nat, 0%nat. cbn. rewrite app_nil_r, Nat.add_0_r.
    repeat split; auto; try lia; try discriminate; congruence.
  - apply attempts_trace in H as (k & Hk & Hs & _ & [(Hp & Hlt & Hr) | (Hp & -> & ->)]).
    + exists (S k), k. repeat split; auto; try lia; discriminate.
    + exists 3%nat, 3%nat. repeat split; auto; try lia; discriminate.
Qed.

Lemma fetch_vector_effort_witness :
  exists n k : nat,
    3%nat = (0 + n)%nat /\ [5; 5] = ([] ++ replicate k 5)%list
    /\ (n <= 3)%nat /\ (k <= n <= S k)%nat
    /\ (forall e, Ok (Some [mkobs "2025-01-01" 7]) = Raise e ->
          e = ValueError /\ n = 0%nat /\ k = 0%nat)
    /\ (forall x, Ok (Some [mkobs "2025-01-01" 7]) = Ok x -> (1 <= n)%nat)
    /\ (forall data, Ok (Some [mkobs "2025-01-01" 7]) = Ok (Some data) -> n = S k).
Proof.
  exact (fetch_vector_effort Samples.fine_at_third "v2062815" 24
           (mkworld 0 []) (mkworld 3 [5; 5]) _ eq_refl).
Defined.

End FetchVectorFacts.

(** ** Further properties: the exceptions of the strategies *)

Module StrategyErrors.
Import FetchMinisterData YoyIndexFacts GrowthFacts StrategyFacts IndexSafety.
Import Props Props2.

Lemma only_bind {A B} (P : exn -> Prop) (m : res A) (k : A -> res B) :
  raises_only P m ->
  (forall a, m = Ok a -> raises_only P (k a)) ->
  raises_only P (Py.bind m k).
Proof.
  unfold raises_only. intros Hm Hk e. destruct m as [a|e']; cbn.
  - apply Hk. reflexivity.
  - intros [= ->]. apply Hm. reflexivity.
Qed.

Lemma only_Ok {A} (P : exn -> Prop) (a : A) : raises_only P (Ok a).
Proof. intros e. discriminate. Qed.

Lemma only_of_total {A} (P : exn -> Prop) (m : res A) :
  (exists a, m = Ok a) -> raises_only P m.
Proof. intros [a ->] e. discriminate. Qed.

Lemma only_of_raises {A} (P : exn -> Prop) (m : res A) (e0 : exn) :
  P e0 -> (forall e, m = Raise e -> e = e0) -> raises_only P m.
Proof. intros HP H e He. now rewrite (H e He). Qed.

Section Allowed.

Variable format_raises : string -> float -> option exn.
Variable cfg : config.

Lemma date_error_allowed : or_format format_raises cfg date_error ValueError.
Proof. left. reflexivity. Qed.

Lemma level_error_allowed :
  or_format format_raises cfg (level_error cfg) ValueError.
Proof. left. now left. Qed.

Lemma label_error_allowed :
  or_format format_raises cfg (label_error cfg) ValueError.
Proof. left. now left. Qed.

Lemma only_scalar (x : float) :
  raises_only (or_format format_raises cfg (level_error cfg))
              (truediv x (scalar_of cfg)).
Proof.
  intros e. unfold truediv.
  destruct (feq (scalar_of cfg) 0%float) eqn:Hz; [|discriminate].
  intros [= <-]. left. right. auto.
Qed.

(** The value is formatted last: what [str.format] raises is what the
    strategy raises. *)
Lemma only_format (str_format : string -> float -> string)
    (P : exn -> Prop) {B} (x : float) (k : string -> res B) :
  (forall a, raises_only (or_format format_raises cfg P) (k a)) ->
  raises_only (or_format format_raises cfg P)
    (Py.bind (format_with str_format format_raises (format_value cfg) x) k).
Proof.
  unfold format_with. intros Hk e.
  destruct (format_raises (format_value cfg) x) as [e0|] eqn:E; cbn.
  - intros [= ->]. right. exists x. exact E.
  - apply Hk.
Qed.

End Allowed.

Lemma truediv_guarded (x y : float) :
  fne y 0%float = true -> exists q, truediv x y = Ok q.
Proof.
  unfold fne. intros H. apply negb_true_iff in H.
  rewrite (truediv_nonzero x y H). eauto.
Qed.

Lemma truediv_checked (x y : float) :
  feq y 0%float = false -> exists q, truediv x y = Ok q.
Proof. intros H. rewrite (truediv_nonzero x y H). eauto. Qed.

Lemma find_labels_unlabeled la lb vs acc e :
  find_labels la lb vs acc = Raise e ->
  e = KeyError /\ exists v, v ∈ vs /\ label v = None.
Proof.
  revert acc. induction vs as [|v vs IH]; intros acc; cbn; [discriminate|].
  destruct (label v) as [l|] eqn:Hl.
  - intros H.
    assert (Hrec : exists acc', find_labels la lb vs acc' = Raise e).
    { destruct (String.eqb l la); [eauto|]. destruct (String.eqb l lb); eauto. }
    destruct Hrec as [acc' Hrec].
    destruct (IH _ Hrec) as (-> & w & Hw & Hwl).
    split; [reflexivity|]. exists w. split; [now right | exact Hwl].
  - intros [= <-]. split; [reflexivity|]. exists v. split; [now left | exact Hl].
Qed.

Lemma only_find_labels (format_raises : string -> float -> option exn)
    cfg la lb acc :
  raises_only (or_format format_raises cfg (label_error cfg))
              (find_labels la lb (vectors cfg) acc).
Proof.
  intros e H. apply find_labels_unlabeled in H as (-> & Hv).
  left. right. auto.
Qed.

(** A series whose latest value was read is there. *)
Lemma latest_values_present all_data v vs xs :
  latest_values all_data (v :: vs) = Ok (Some xs) -> all_data !! id v <> None.
Proof.
  cbn [latest_values]. unfold get_data. intros H Hn. rewrite Hn in H. discriminate.
Qed.

Lemma latest_values_first_present all_data vs v xs :
  latest_values all_data vs = Ok (Some xs) ->
  getitem vs 0 = Ok v ->
  all_data !! id v <> None.
Proof.
  destruct vs as [|w vs]; [discriminate|].
  intros H [= <-]. eapply latest_values_present; eauto.
Qed.

Ltac only_total :=
  apply only_of_total;
  first [ eapply get_data_last; eassumption
        | eapply latest_values_first; eassumption
        | match goal with
          | H : latest_values _ (?v :: _) = _, G : _ !! id ?v = Some ?d
            |- exists o, getitem ?d _ = _ =>
              exact (latest_values_head _ _ _ _ _ H G)
          end
        | eapply yoy_index_access; eassumption
        | eapply guarded_access; eassumption
        | eapply second_last; eassumption
        | eapply first_vector; eassumption
        | apply latest_values_total
        | eapply prev_values_total; eapply yoy_index_negative; eassumption
        | eapply truediv_guarded; eassumption
        | eapply truediv_checked; eassumption ].

Ltac only_raises :=
  first [ apply only_scalar
        | apply only_find_labels
        | eapply only_of_raises;
          [ first [ apply date_error_allowed
                  | apply level_error_allowed
                  | apply label_error_allowed ] | ];
          first [ apply get_yoy_index_raises
                | apply is_quarterly_raises
                | apply is_annual_raises
                | apply period_of_raises
                | apply format_period_raises ] ].

Ltac absent_first :=
  match goal with
  | H : latest_values _ ?vs = Ok (Some _), G : getitem ?vs 0 = Ok ?v,
    N : _ !! id ?v = None |- _ =>
      exact (latest_values_first_present _ _ _ _ H G N)
  | H : latest_values _ (?v :: _) = Ok (Some _), N : _ !! id ?v = None |- _ =>
      exact (latest_values_present _ _ _ _ H N)
  end.

Ltac only_step :=
  lazymatch goal with
  | |- raises_only _ (Py.bind (format_with _ _ _ _) _) =>
      apply only_format; intros ?
  | |- raises_only _ (Py.bind _ _) => apply only_bind; [ | intros ? ?]
  | |- raises_only _ (Ok _) => apply only_Ok
  | |- raises_only _ (Raise TypeError) => exfalso; absent_first
  | |- raises_only _ (let '(_, _) := ?p in _) => destruct p eqn:?
  | |- raises_only _ (if ?b then _ else _) => destruct b eqn:?
  | |- raises_only _ (match ?x with _ => _ end) => destruct x eqn:?
  | |- _ => first [only_total | only_raises]
  end.

Ltac only_run := repeat only_step.

Section WithFormat.

Variable str_format : string -> float -> string.
Variable format_raises : string -> float -> option exn.
Variable float_sum : list float -> float.

Local Abbreviation only P cfg := (raises_only (or_format format_raises cfg P)).

Lemma rate_yoy_pp_only cfg all_data :
  vectors cfg <> [] ->
  only date_error cfg
    (compute_rate_yoy_pp str_format format_raises cfg all_data).
Proof. intros Hne. unfold compute_rate_yoy_pp. only_run. Qed.

Lemma level_yoy_pct_only cfg all_data :
  vectors cfg <> [] ->
  only (level_error cfg) cfg
    (compute_level_yoy_pct str_format format_raises cfg all_data).
Proof. intros Hne. unfold compute_level_yoy_pct. only_run. Qed.

Lemma level_qoq_pct_only cfg all_data :
  vectors cfg <> [] ->
  only (level_error cfg) cfg
    (compute_level_qoq_pct str_format format_raises cfg all_data).
Proof. intros Hne. unfold compute_level_qoq_pct. only_run. Qed.

Lemma count_yoy_pct_only cfg all_data :
  vectors cfg <> [] ->
  only (level_error cfg) cfg
    (compute_count_yoy_pct str_format format_raises cfg all_data).
Proof. apply level_yoy_pct_only. Qed.

Lemma share_pct_only cfg all_data :
  only (label_error cfg) cfg
    (compute_share_pct str_format format_raises cfg all_data).
Proof. unfold compute_share_pct. only_run. Qed.

Lemma wage_gap_only cfg all_data :
  only (label_error cfg) cfg
    (compute_wage_gap str_format format_raises cfg all_data).
Proof. unfold compute_wage_gap. only_run. Qed.

Lemma composite_avg_only cfg all_data :
  vectors cfg <> [] ->
  only date_error cfg
    (compute_composite_avg str_format format_raises float_sum cfg all_data).
Proof. intros Hne. unfold compute_composite_avg. only_run. Qed.

Lemma sum_yoy_pct_only cfg all_data :
  vectors cfg <> [] ->
  only date_error cfg
    (compute_sum_yoy_pct str_format format_raises cfg all_data).
Proof. intros Hne. unfold compute_sum_yoy_pct. only_run. Qed.

Lemma combined_rate_only cfg all_data :
  only date_error cfg
    (compute_combined_rate str_format format_raises cfg all_data).
Proof. unfold compute_combined_rate. cbv zeta. only_run. Qed.

Lemma registry_only name f cfg all_data :
  COMPUTE_FUNCTIONS str_format format_raises float_sum name = Some f ->
  vectors cfg <> [] ->
  only (strategy_error name cfg) cfg (f cfg all_data).
Proof.
  unfold COMPUTE_FUNCTIONS. intros Hf Hne.
  repeat match type of Hf with
         | (if String.eqb ?a ?b then _ else _) = _ =>
             destruct (String.eqb_spec a b) as [->|?]
         end;
    try discriminate Hf; injection Hf as <-;
    unfold strategy_error; cbn;
    eauto using rate_yoy_pp_only, level_yoy_pct_only, level_qoq_pct_only,
      count_yoy_pct_only, share_pct_only, wage_gap_only, composite_avg_only,
      sum_yoy_pct_only, combined_rate_only.
Qed.

End WithFormat.

(** X4. A strategy of the registry, run on a configuration that lists at
    least one vector, raises nothing but: [ValueError], for a date of the
    series whose day or month does not parse; [ZeroDivisionError], in the
    three strategies that divide by the scalar, and only when the scalar is
    zero; [KeyError], in the two strategies that read labels, and only when
    a vector has no label; and the exception [str.format] raises on the
    configured template, for some value. Every other division is guarded,
    and every index is in range. Where [str.format] takes the template, the
    first three are all there is. *)
Theorem strategy_exceptions
    (str_format : string -> float -> string)
    (format_raises : string -> float -> option exn)
    (float_sum : list float -> float) (name : string)
    (f : config -> gmap string (list observation) -> res (option latest))
    (cfg : config) (all_data : gmap string (list observation)) (e : exn) :
  COMPUTE_FUNCTIONS str_format format_raises float_sum name = Some f ->
  vectors cfg <> [] ->
  f cfg all_data = Raise e ->
  (strategy_error name cfg e \/ format_error format_raises cfg e)
  /\ (format_accepted format_raises cfg -> strategy_error name cfg e).
Proof.
  intros Hf Hne He.
  assert (H : strategy_error name cfg e \/ format_error format_raises cfg e).
  { revert He. generalize e.
    change (raises_only (or_format format_raises cfg (strategy_error name cfg))
              (f cfg all_data)).
    unfold COMPUTE_FUNCTIONS in Hf.
    repeat match type of Hf with
           | (if String.eqb ?a ?b then _ else _) = _ =>
               destruct (String.eqb_spec a b) as [->|?]
           end;
      try discriminate Hf; injection Hf as <-;
      unfold strategy_error; cbn.
    - apply rate_yoy_pp_only, Hne.
    - apply level_yoy_pct_only, Hne.
    - apply level_qoq_pct_only, Hne.
    - apply count_yoy_pct_only, Hne.
    - apply share_pct_only.
    - apply wage_gap_only.
    - apply composite_avg_only, Hne.
    - apply sum_yoy_pct_only, Hne.
    - apply combined_rate_only. }
  split; [exact H|].
  intros Hacc. destruct H as [H | [x Hx]]; [exact H|].
  rewrite (Hacc x) in Hx. discriminate Hx.
Qed.

Lemma strategy_exceptions_witness :
  (compute_level_yoy_pct Instances.str_format Instances.format_raises
     Samples2.zero_scalar_cfg Samples.level_data = Raise ZeroDivisionError
   /\ strategy_error "level_yoy_pct" Samples2.zero_scalar_cfg ZeroDivisionError)
  /\ (compute_rate_yoy_pp Instances.str_format Instances.format_raises
        Samples2.second_argument_cfg Samples.level_data = Raise IndexError
      /\ format_error Instances.format_raises Samples2.second_argument_cfg
           IndexError).
Proof.
  split; (split; [reflexivity|]).
  - apply (strategy_exceptions Instances.str_format Instances.format_raises Py.sum
             "level_yoy_pct"
             (compute_level_yoy_pct Instances.str_format Instances.format_raises)
             Samples2.zero_scalar_cfg Samples.level_data ZeroDivisionError eq_refl);
      [discriminate | reflexivity | intros x; reflexivity].
  - destruct (strategy_exceptions Instances.str_format Instances.format_raises
                Py.sum "rate_yoy_pp"
                (compute_rate_yoy_pp Instances.str_format Instances.format_raises)
                Samples2.second_argument_cfg Samples.level_data IndexError eq_refl)
      as [[H | H] _]; [discriminate | reflexivity | discriminate H | exact H].
Defined.

End StrategyErrors.

(** ** Further properties: [main] of [fetch_minister_data.py] *)

Module MainFacts.
Import FetchMinisterData MinisterMain Props Props2 FetchedSeries FetchVectorFacts.

Lemma dict_set_keys {V} (k : string) (v : V) (d : list (string * V)) :
  (dict_set k v d).*1 = if bool_decide (k ∈ d.*1) then d.*1 else (d.*1 ++ [k])%list.
Proof.
  induction d as [|[k' v'] d IH]; [reflexivity|]. cbn [dict_set fmap list_fmap fst].
  destruct (String.eqb_spec k' k) as [->|Hne].
  - rewrite bool_decide_eq_true_2 by (cbn; left). reflexivity.
  - cbn [fmap list_fmap fst]. fold (d.*1). fold ((dict_set k v d).*1). rewrite IH.
    destruct (decide (k ∈ d.*1)) as [Hin|Hin].
    + rewrite !bool_decide_eq_true_2; [reflexivity | now right | exact Hin].
    + rewrite !bool_decide_eq_false_2; [reflexivity | | exact Hin].
      intros [?|?]%elem_of_cons; [congruence | contradiction].
Qed.

Lemma dict_set_NoDup {V} (k : string) (v : V) (d : list (string * V)) :
  NoDup d.*1 -> NoDup (dict_set k v d).*1.
Proof.
  intros Hd. rewrite dict_set_keys.
  destruct (decide (k ∈ d.*1)) as [Hin|Hin].
  - now rewrite bool_decide_eq_true_2.
  - rewrite bool_decide_eq_false_2 by exact Hin.
    apply NoDup_app. split; [exact Hd|]. split; [|apply NoDup_singleton].
    intros x Hx [->|[]%elem_of_nil]%elem_of_cons. contradiction.
Qed.

Lemma dict_set_key_elem {V} (k k' : string) (v : V) (d : list (string * V)) :
  k' ∈ (dict_set k v d).*1 <-> k' = k \/ k' ∈ d.*1.
Proof.
  rewrite dict_set_keys. destruct (decide (k ∈ d.*1)) as [Hin|Hin].
  - rewrite bool_decide_eq_true_2 by exact Hin. split; [auto|].
    intros [->|?]; auto.
  - rewrite bool_decide_eq_false_2 by exact Hin. rewrite elem_of_app, list_elem_of_singleton.
    tauto.
Qed.

Lemma dict_set_elem {V} (k k' : string) (v p : V) (d : list (string * V)) :
  NoDup d.*1 ->
  (k', p) ∈ dict_set k v d <-> (k' = k /\ p = v) \/ (k' <> k /\ (k', p) ∈ d).
Proof.
  induction d as [|[k0 v0] d IH]; cbn [dict_set fmap list_fmap fst]; intros Hd.
  - rewrite list_elem_of_singleton. split.
    + intros [= -> ->]. auto.
    + intros [[-> ->] | [_ H]]; [reflexivity | inversion H].
  - apply NoDup_cons in Hd as [Hk0 Hd]. fold (d.*1) in *.
    destruct (String.eqb_spec k0 k) as [->|Hne].
    + rewrite !elem_of_cons. split.
      * intros [[= -> ->] | Hin]; [auto|].
        destruct (decide (k' = k)) as [->|Hk]; [|auto].
        exfalso. apply Hk0. apply list_elem_of_fmap. exists (k, p). auto.
      * intros [[-> ->] | [Hk [[= ? ?] | Hin]]]; [now left | congruence | now right].
    + rewrite !elem_of_cons, (IH Hd). split.
      * intros [[= -> ->] | [[-> ->] | [Hk Hin]]]; auto.
      * intros [[-> ->] | [Hk [[= -> ->] | Hin]]]; auto.
Qed.

Lemma add_vectors_cons (v : vector) (vs : list vector) (acc : list (string * Z)) :
  add_vectors (v :: vs) acc = add_vectors vs (dict_set (id v) (periods v) acc).
Proof. reflexivity. Qed.

Lemma add_vectors_app (vs ws : list vector) (acc : list (string * Z)) :
  add_vectors (vs ++ ws) acc = add_vectors ws (add_vectors vs acc).
Proof. unfold add_vectors. apply fold_left_app. Qed.

Lemma add_vectors_NoDup (vs : list vector) (acc : list (string * Z)) :
  NoDup acc.*1 -> NoDup (add_vectors vs acc).*1.
Proof.
  revert acc. induction vs as [|v vs IH]; intros acc H; [exact H|].
  rewrite add_vectors_cons. apply IH, dict_set_NoDup, H.
Qed.

Lemma add_vectors_key_elem (k : string) (vs : list vector) (acc : list (string * Z)) :
  k ∈ (add_vectors vs acc).*1 <-> k ∈ acc.*1 \/ exists v, v ∈ vs /\ id v = k.
Proof.
  revert acc. induction vs as [|v vs IH]; intros acc.
  - cbn. split; [auto|]. intros [H | (v & Hv & _)]; [exact H | inversion Hv].
  - rewrite add_vectors_cons, IH, dict_set_key_elem. split.
    + intros [[-> | H] | (w & Hw & Hid)].
      * right. exists v. split; [left | reflexivity].
      * now left.
      * right. exists w. split; [now right | exact Hid].
    + intros [H | (w & Hw & Hid)]; [auto|].
      apply elem_of_cons in Hw as [-> | Hw]; [auto | eauto].
Qed.

(** With several vectors of one id, the periods of the last one stay. *)
Lemma add_vectors_elem (k : string) (p : Z) (vs : list vector) (acc : list (string * Z)) :
  NoDup acc.*1 ->
  (k, p) ∈ add_vectors vs acc
  <-> (exists v, last (List.filter (has_id k) vs) = Some v /\ periods v = p)
      \/ (List.filter (has_id k) vs = [] /\ (k, p) ∈ acc).
Proof.
  revert acc. induction vs as [|v vs IH]; intros acc Hacc.
  - cbn. split; [auto|]. intros [(v & [=] & _) | [_ H]]; exact H.
  - rewrite add_vectors_cons, (IH _ (dict_set_NoDup _ _ _ Hacc)).
    rewrite (dict_set_elem _ _ _ _ _ Hacc).
    cbn [List.filter].
    destruct (has_id k v) eqn:Hv; unfold has_id in Hv;
      [apply String.eqb_eq in Hv | apply String.eqb_neq in Hv].
    + rewrite last_cons.
      destruct (last (List.filter (has_id k) vs)) as [w|] eqn:Hl.
      * split.
        -- intros [H | [Hnil _]]; [now left|]. rewrite Hnil in Hl. discriminate.
        -- intros [H | [[=] _]]. now left.
      * apply last_None in Hl. rewrite Hl. split.
        -- intros [(w & [=] & _) | [_ [[_ ->] | [Hk _]]]]; [|congruence].
           left. eauto.
        -- intros [(w & [= <-] & <-) | [[=] _]]. right. split; [reflexivity|].
           left. auto.
    + split.
      * intros [H | [Hnil [[Hk _] | [_ Hin]]]]; [now left | congruence | now right].
      * intros [H | [Hnil Hin]]; [now left|]. right. split; [exact Hnil|].
        right. split; [congruence | exact Hin].
Qed.

Lemma collect_vectors_flat (vector_map : list (string * config)) :
  collect_vectors vector_map = add_vectors (all_listed vector_map) [].
Proof.
  unfold collect_vectors. generalize (@nil (string * Z)) as acc.
  induction vector_map as [|[key cfg] m IH]; intros acc; [reflexivity|].
  cbn [fold_left all_listed List.flat_map snd]. rewrite IH.
  rewrite add_vectors_app. unfold config_vectors. rewrite add_vectors_app.
  destruct (population_vectors cfg); reflexivity.
Qed.

Lemma listed_all_listed (vector_map : list (string * config)) (k : string) :
  listed vector_map k <-> exists v, v ∈ all_listed vector_map /\ id v = k.
Proof.
  unfold listed, all_listed. split.
  - intros (key & cfg & v & Hm & Hv & Hid). exists v. split; [|exact Hid].
    apply list_elem_of_In, in_flat_map. exists (key, cfg).
    split; apply list_elem_of_In; assumption.
  - intros (v & Hv & Hid). apply list_elem_of_In, in_flat_map in Hv as ([key cfg] & Hm & Hv).
    exists key, cfg, v. repeat split; try apply list_elem_of_In; assumption.
Qed.

Lemma collect_vectors_listed (vector_map : list (string * config)) (k : string) :
  k ∈ (collect_vectors vector_map).*1 <-> listed vector_map k.
Proof.
  rewrite collect_vectors_flat, add_vectors_key_elem, listed_all_listed. split.
  - intros [H | H]; [inversion H | exact H].
  - auto.
Qed.

(** X5. The first loop of [main] collects every listed vector id exactly
    once, whichever metrics share it, and asks for it the number of periods
    of the last vector listed under that id. *)
Theorem collect_vectors_entries (vector_map : list (string * config)) :
  NoDup (collect_vectors vector_map).*1
  /\ (forall k, k ∈ (collect_vectors vector_map).*1 <-> listed vector_map k)
  /\ (forall k p,
        (k, p) ∈ collect_vectors vector_map
        <-> exists v, last (List.filter (has_id k) (all_listed vector_map)) = Some v
                      /\ periods v = p).
Proof.
  rewrite collect_vectors_flat. split; [apply add_vectors_NoDup; constructor|].
  split.
  - intros k. rewrite <- collect_vectors_flat. apply collect_vectors_listed.
  - intros k p. rewrite add_vectors_elem by constructor. split.
    + intros [H | [_ H]]; [exact H | inversion H].
    + auto.
Qed.

Lemma pauses_app (secs : Z) (a b : list Z) :
  pauses secs (a ++ b) = (pauses secs a + pauses secs b)%nat.
Proof. unfold pauses. now rewrite List.filter_app, length_app. Qed.

Lemma pauses_replicate (secs s : Z) (k : nat) :
  pauses secs (replicate k s) = if secs =? s then k else 0%nat.
Proof.
  unfold pauses. induction k as [|k IH]; cbn; [now destruct (secs =? s)|].
  destruct (secs =? s); cbn; now rewrite IH.
Qed.

Section WithNet.

Variable str_format : string -> float -> string.
Variable format_raises : string -> float -> option exn.
Variable float_sum : list float -> float.
Variable net : Z -> Z -> nat -> res response.

(** The requests and sleeps of one call of [fetch_vector] that returns. *)
Lemma fetch_vector_returns (vector_id : string) (periods : Z) (w w1 : world)
    (x : option (list observation)) :
  fetch_vector net vector_id periods w = (Ok x, w1) ->
  exists n k : nat,
    posts w1 = (posts w + n)%nat
    /\ slept w1 = (slept w ++ replicate k 5)%list
    /\ vector_effort (n, k).
Proof.
  intros H. apply fetch_vector_inv in H as [(_ & [=] & _) | (vid & y & _ & [= <-] & H)].
  apply attempts_trace in H as (k & Hk & Hs & _ & [(Hp & Hlt & _) | (Hp & -> & _)]).
  - exists (S k), k. repeat split; auto. left. cbn. lia.
  - exists 3%nat, 3%nat. repeat split; auto. right. cbn. lia.
Qed.

Lemma effort_sleeps_cons (nk : nat * nat) (trace : list (nat * nat)) :
  effort_sleeps (nk :: trace)
  = (replicate nk.2 5 ++ 2 :: effort_sleeps trace)%list.
Proof. unfold effort_sleeps. cbn. now rewrite <- app_assoc. Qed.

(** X6. The fetch loop of [main], when it ends without an exception, has
    spent on every vector, in the order of the list: between one and three
    requests, a sleep of 5 seconds after every request that failed (all of
    them but the last, or all three), and then one sleep of 2 seconds.
    Nothing else is requested or slept. In total: one sleep of 2 seconds per
    vector, and requests that number at least the sleeps of 5 seconds and
    at most those plus one per vector. *)
Theorem fetch_all_effort (vs : list (string * Z))
    (d d' : gmap string (list observation)) (w w' : world) :
  fetch_all net vs d w = (Ok d', w') ->
  exists trace : list (nat * nat),
    length trace = length vs
    /\ Forall vector_effort trace
    /\ posts w' = (posts w + effort_posts trace)%nat
    /\ slept w' = (slept w ++ effort_sleeps trace)%list
    /\ Forall (fun s => s = 5 \/ s = 2) (effort_sleeps trace)
    /\ pauses 2 (effort_sleeps trace) = length vs
    /\ (posts w + length vs <= posts w' <= posts w + 3 * length vs)%nat
    /\ (posts w + pauses 5 (effort_sleeps trace) <= posts w'
        <= posts w + pauses 5 (effort_sleeps trace) + length vs)%nat.
Proof.
  revert d w. induction vs as [|[vid periods] vs IH]; intros d w; cbn [fetch_all].
  - intros [= <- <-]. exists []. cbn. rewrite app_nil_r.
    repeat split; auto; lia.
  - destruct (fetch_vector net vid periods w) as [[x|e] w1] eqn:Hf; [|discriminate].
    intros H. apply IH in H as (trace & Hlen & Hv & Hpo & Hs & Hall & H2 & Hp & H5).
    apply fetch_vector_returns in Hf as (n & k & Hn & Hk & Hnk).
    cbn [sleep posts slept] in *.
    exists ((n, k) :: trace). rewrite effort_sleeps_cons. cbn [fst snd length].
    assert (Hnk' : (1 <= n <= 3)%nat /\ (k <= n <= S k)%nat)
      by (destruct Hnk as [[? ?] | [? ?]]; cbn in *; lia).
    split; [now rewrite Hlen|].
    split; [constructor; assumption|].
    split; [unfold effort_posts, list_sum in *; cbn [List.map fold_right fst]; lia|].
    split; [rewrite Hs, Hk, <- !app_assoc; reflexivity|].
    split.
    { apply Forall_app. split; [apply Forall_replicate; now left|].
      constructor; [now right | exact Hall]. }
    rewrite !pauses_app, !pauses_replicate. cbn [Z.eqb Pos.eqb].
    change (2 :: effort_sleeps trace) with ([2] ++ effort_sleeps trace)%list.
    rewrite !pauses_app.
    unfold pauses at 1 3. cbn [List.filter Z.eqb Pos.eqb length].
    cbn [length]. repeat split; lia.
Qed.

Lemma fetch_all_total (vs : list (string * Z))
    (d : gmap string (list observation)) (w : world) :
  Forall (fun kp => exists n, int (remove_v kp.1) = Ok n) vs ->
  exists d' w', fetch_all net vs d w = (Ok d', w').
Proof.
  intros H. revert d w. induction H as [|[vid periods] vs [n Hn] _ IH]; intros d w;
    cbn [fetch_all]; [eauto|].
  cbn [fst] in Hn. unfold fetch_vector. rewrite Hn.
  destruct (attempts net 3 n periods w) as [x w1]. apply IH.
Qed.

Lemma fetch_all_raises (vs : list (string * Z))
    (d : gmap string (list observation)) (w w' : world) (e : exn) :
  fetch_all net vs d w = (Raise e, w') ->
  e = ValueError
  /\ exists k p, (k, p) ∈ vs /\ int (remove_v k) = Raise ValueError.
Proof.
  revert d w. induction vs as [|[vid periods] vs IH]; intros d w; cbn [fetch_all];
    [discriminate|].
  destruct (fetch_vector net vid periods w) as [[x|e1] w1] eqn:Hf.
  - intros H. apply IH in H as (-> & k & p & Hin & Hk).
    split; [reflexivity|]. exists k, p. split; [now right | exact Hk].
  - intros [= <- <-].
    apply fetch_vector_inv in Hf as [(Hid & [= ->] & _) | (? & ? & _ & [=] & _)].
    split; [reflexivity|]. exists vid, periods. split; [now left | exact Hid].
Qed.

Lemma fetch_all_data (vs : list (string * Z))
    (d d' : gmap string (list observation)) (w w' : world) :
  fetch_all net vs d w = (Ok d', w') ->
  forall k data, d' !! k = Some data ->
    d !! k = Some data
    \/ (k ∈ vs.*1 /\ data <> [] /\ StronglySorted date_le data
        /\ Forall (fun o => date o <> "") data).
Proof.
  revert d w. induction vs as [|[vid periods] vs IH]; intros d w; cbn [fetch_all].
  - intros [= <- <-]. auto.
  - destruct (fetch_vector net vid periods w) as [[x|e] w1] eqn:Hf; [|discriminate].
    intros H k data Hk. destruct (IH _ _ H k data Hk) as [Hd | (Hin & Hw)].
    + destruct x as [[|o l]|]; try (now left).
      apply lookup_insert_Some in Hd as [[<- <-] | [_ Hd]]; [|now left].
      right. split; [now left|].
      apply fetch_vector_series in Hf as (n & j & _ & _ & Hf).
      eapply try_body_shape; eauto.
    + right. split; [now right | exact Hw].
Qed.

(** X7. Every series the fetch loop of [main] stores is one of a listed
    vector, is not empty, stands in ascending order of its dates and has no
    empty date; so the test [if not data] of the strategies fails only for a
    series that is missing. *)
Theorem fetched_data_wellformed (vs : list (string * Z))
    (fetched_data : gmap string (list observation)) (w w' : world) :
  fetch_all net vs ∅ w = (Ok fetched_data, w') ->
  forall k,
    get_data fetched_data (Some k) = fetched_data !! k
    /\ forall data, fetched_data !! k = Some data ->
         k ∈ vs.*1 /\ data <> [] /\ StronglySorted date_le data
         /\ Forall (fun o => date o <> "") data.
Proof.
  intros H k.
  assert (Hk : forall data, fetched_data !! k = Some data ->
            k ∈ vs.*1 /\ data <> [] /\ StronglySorted date_le data
            /\ Forall (fun o => date o <> "") data).
  { intros data Hd.
    destruct (fetch_all_data vs ∅ fetched_data w w' H k data Hd) as [He | Hw];
      [|exact Hw].
    rewrite lookup_empty in He. discriminate. }
  split; [|exact Hk]. unfold get_data.
  destruct (fetched_data !! k) as [[|o l]|] eqn:Hd; try reflexivity.
  destruct (Hk [] eq_refl) as (_ & Hne & _). congruence.
Qed.

End WithNet.

Lemma fetch_all_effort_witness :
  exists trace : list (nat * nat),
    length trace = 2%nat
    /\ Forall vector_effort trace
    /\ 2%nat = (0 + effort_posts trace)%nat
    /\ [2; 2] = ([] ++ effort_sleeps trace)%list
    /\ Forall (fun s => s = 5 \/ s = 2) (effort_sleeps trace)
    /\ pauses 2 (effort_sleeps trace) = 2%nat
    /\ (0 + 2 <= 2 <= 0 + 3 * 2)%nat
    /\ (0 + pauses 5 (effort_sleeps trace) <= 2
        <= 0 + pauses 5 (effort_sleeps trace) + 2)%nat.
Proof.
  exact (fetch_all_effort Samples2.monthly_answer
           (collect_vectors Samples2.small_map) ∅ Samples2.small_fetched
           (mkworld 0 []) (mkworld 2 [2; 2]) eq_refl).
Defined.

Lemma fetched_data_wellformed_witness :
  get_data Samples2.small_fetched (Some "v1") = Some Samples.monthly13
  /\ StronglySorted date_le Samples.monthly13.
Proof.
  destruct (fetched_data_wellformed Samples2.monthly_answer
              (collect_vectors Samples2.small_map) Samples2.small_fetched
              (mkworld 0 []) (mkworld 2 [2; 2]) eq_refl "v1") as [Hg Hw].
  split; [exact Hg|].
  exact (proj1 (proj2 (proj2 (Hw Samples.monthly13 eq_refl)))).
Defined.

(** *** The period of fiscal and school years *)

Lemma digit_not_space (c : ascii) : is_digit c = true -> is_space c = false.
Proof.
  unfold is_digit, is_space. intros H. apply andb_true_iff in H as [H1 H2].
  apply Z.leb_le in H1, H2.
  apply orb_false_iff. split; apply andb_false_iff.
  - right. apply Z.leb_gt. lia.
  - right. apply Z.leb_gt. lia.
Qed.

Lemma lstrip_digits (s : string) :
  forallb is_digit (list_ascii_of_string s) = true -> lstrip s = s.
Proof.
  destruct s as [|c s]; [reflexivity|]. cbn. intros H.
  apply andb_true_iff in H as [H _]. now rewrite (digit_not_space c H).
Qed.

Lemma rev_string_involutive (s : string) : rev_string (rev_string s) = s.
Proof.
  unfold rev_string. rewrite list_ascii_of_string_of_list_ascii, rev_involutive.
  apply string_of_list_ascii_of_string.
Qed.

Lemma rev_string_digits (s : string) :
  forallb is_digit (list_ascii_of_string s) = true ->
  forallb is_digit (list_ascii_of_string (rev_string s)) = true.
Proof.
  unfold rev_string. rewrite list_ascii_of_string_of_list_ascii.
  rewrite !forallb_forall. intros H c Hc. apply H. now apply in_rev.
Qed.

Lemma strip_digits (s : string) :
  forallb is_digit (list_ascii_of_string s) = true -> strip s = s.
Proof.
  intros H. unfold strip. rewrite (lstrip_digits s H).
  rewrite (lstrip_digits _ (rev_string_digits s H)). apply rev_string_involutive.
Qed.

Lemma int_digits_total (s : string) (acc : Z) (b : bool) :
  forallb is_digit (list_ascii_of_string s) = true ->
  0 <= acc ->
  nonempty s = true \/ b = true ->
  exists n, int_digits s acc b = Some n /\ 0 <= n.
Proof.
  revert acc b. induction s as [|c s IH]; intros acc b Hd Hacc Hne.
  - destruct Hne as [Hne | ->]; [discriminate|]. cbn. eauto.
  - cbn in Hd. apply andb_true_iff in Hd as [Hc Hd]. cbn [int_digits].
    rewrite Hc. apply IH; [exact Hd | | now right].
    unfold is_digit in Hc. apply andb_true_iff in Hc as [H1 _].
    apply Z.leb_le in H1. unfold digit_val. lia.
Qed.

Lemma digit_no_sign (c : ascii) (r : string) :
  is_digit c = true ->
  match String c r with
  | String "-" r' => (true, r')
  | String "+" r' => (false, r')
  | _ => (false, String c r)
  end = (false, String c r).
Proof.
  destruct c as [[] [] [] [] [] [] [] []]; intros H; try reflexivity;
    discriminate H.
Qed.

Lemma isdigit_int (s : string) :
  isdigit s = true -> exists n, int s = Ok n /\ 0 <= n.
Proof.
  unfold isdigit. intros H. apply andb_true_iff in H as [Hne Hd].
  unfold int. rewrite (strip_digits s Hd).
  destruct s as [|c r]; [discriminate|].
  assert (Hc : is_digit c = true) by (cbn in Hd; now apply andb_true_iff in Hd).
  rewrite (digit_no_sign c r Hc).
  destruct (int_digits_total (String c r) 0 false Hd) as (n & Hn & Hpos);
    [lia | now left |].
  rewrite Hn. eauto.
Qed.

Lemma apply_period_format_total (cfg : config) (l : latest) :
  exists l', apply_period_format cfg l = Ok l'.
Proof.
  unfold apply_period_format.
  destruct (_ && _) eqn:Hc; [|eauto].
  apply andb_true_iff in Hc as [Hc _]. apply andb_true_iff in Hc as [_ Hd].
  destruct (isdigit_int _ Hd) as (n & -> & _). cbn. eauto.
Qed.

(** X8. The step that rewrites periods never raises and touches nothing
    but the period. A period of four ASCII digits, under the period format
    ["fiscal_year"] or ["school_year"], becomes the year and the next year,
    ["2023"] to ["2023/2024"]; every other period stays. *)
Theorem period_format_applied (cfg : config) (l : latest) :
  exists l',
    apply_period_format cfg l = Ok l'
    /\ out_value l' = out_value l
    /\ detail l' = detail l
    /\ detail_color l' = detail_color l
    /\ ((period_format cfg = Some "fiscal_year"
         \/ period_format cfg = Some "school_year") ->
        isdigit (period l) = true -> String.length (period l) = 4%nat ->
        exists year, int (period l) = Ok year /\ 0 <= year
                     /\ period l' = str year ++ "/" ++ str (year + 1))
    /\ (period_format cfg <> Some "fiscal_year"
        /\ period_format cfg <> Some "school_year"
        \/ isdigit (period l) = false
        \/ String.length (period l) <> 4%nat ->
        l' = l).
Proof.
  unfold apply_period_format.
  destruct (decide (period_format cfg = Some "fiscal_year")) as [Hf|Hf];
    destruct (decide (period_format cfg = Some "school_year")) as [Hs|Hs];
    try (rewrite (bool_decide_eq_true_2 _ Hf));
    try (rewrite (bool_decide_eq_false_2 _ Hf));
    try (rewrite (bool_decide_eq_true_2 _ Hs));
    try (rewrite (bool_decide_eq_false_2 _ Hs));
    cbn [orb andb].
  4: { exists l. repeat split; auto. intros [?|?]; contradiction. }
  all: destruct (isdigit (period l)) eqn:Hd; cbn [andb];
    [ destruct (Nat.eqb_spec (String.length (period l)) 4) as [Hl|Hl];
      [ destruct (isdigit_int _ Hd) as (n & Hn & Hpos); rewrite Hn; cbn [Py.bind];
        eexists; split; [reflexivity|]; cbn [out_value detail detail_color period];
        repeat split; auto;
        [ intros _ _ _; exists n; auto
        | intros [[? ?] | [? | ?]]; congruence ]
      | exists l; repeat split; auto; intros _ _ ?; contradiction ]
    | exists l; repeat split; auto; intros _ ?; discriminate ].
Qed.

(** *** The loop over the metrics *)

Section WithFormat.

Variable str_format : string -> float -> string.
Variable format_raises : string -> float -> option exn.
Variable float_sum : list float -> float.

Lemma computed_cons d key0 cfg0 rest key l :
  computed str_format format_raises float_sum d ((key0, cfg0) :: rest) key l
  <-> (key = key0
       /\ exists f l0, COMPUTE_FUNCTIONS str_format format_raises float_sum (compute cfg0) = Some f
                       /\ f cfg0 d = Ok (Some l0)
                       /\ apply_period_format cfg0 l0 = Ok l)
      \/ computed str_format format_raises float_sum d rest key l.
Proof.
  unfold computed. split.
  - intros (cfg & f & l0 & Hin & Hf & Hr & Hp).
    apply elem_of_cons in Hin as [[= -> ->] | Hin]; [left | right]; eauto 10.
  - intros [(-> & f & l0 & Hf & Hr & Hp) | (cfg & f & l0 & Hin & H)].
    + exists cfg0, f, l0. split; [now left | auto].
    + exists cfg, f, l0. split; [now right | auto].
Qed.

Lemma computed_keys d m key l : computed str_format format_raises float_sum d m key l -> key ∈ m.*1.
Proof.
  intros (cfg & _ & _ & Hin & _). apply list_elem_of_fmap. exists (key, cfg). auto.
Qed.

Lemma compute_all_spec (m : list (string * config))
    (d : gmap string (list observation)) (res results : gmap string latest) :
  NoDup m.*1 ->
  (forall key, key ∈ m.*1 -> res !! key = None) ->
  compute_all str_format format_raises float_sum m d res = Ok results ->
  forall key l,
    results !! key = Some l
    <-> res !! key = Some l \/ computed str_format format_raises float_sum d m key l.
Proof.
  revert res. induction m as [|[key0 cfg0] rest IH]; intros res Hnd Hres;
    cbn [compute_all].
  - intros [= <-] key l. split; [auto|]. intros [H | (? & ? & ? & H & _)]; [exact H|].
    inversion H.
  - cbn [fmap list_fmap fst] in Hnd, Hres. fold (rest.*1) in Hnd, Hres.
    apply NoDup_cons in Hnd as [Hk0 Hnd].
    assert (Hrest : forall key, key ∈ rest.*1 -> res !! key = None)
      by (intros key Hin; apply Hres; now right).
    assert (Hskip : (forall f l0 l, COMPUTE_FUNCTIONS str_format format_raises float_sum (compute cfg0) = Some f ->
                        f cfg0 d = Ok (Some l0) ->
                        apply_period_format cfg0 l0 = Ok l -> False) ->
              compute_all str_format format_raises float_sum rest d res = Ok results ->
              forall key l,
                results !! key = Some l
                <-> res !! key = Some l
                    \/ computed str_format format_raises float_sum d ((key0, cfg0) :: rest) key l).
    { intros Hno H key l. rewrite (IH res Hnd Hrest H key l), computed_cons.
      split; [tauto|]. intros [? | [(_ & f & l0 & Hf & Hr & Hp) | ?]]; auto.
      exfalso. eauto. }
    destruct (COMPUTE_FUNCTIONS str_format format_raises float_sum (compute cfg0)) as [f|] eqn:Hf.
    + destruct (f cfg0 d) as [[l0|]|e] eqn:Hr; cbn [Py.bind]; [| |discriminate].
      * destruct (apply_period_format cfg0 l0) as [l1|e] eqn:Hp; cbn [Py.bind];
          [|discriminate].
        intros H key l.
        assert (Hins : forall k, k ∈ rest.*1 -> <[key0:=l1]> res !! k = None).
        { intros k Hin. rewrite lookup_insert_ne; [now apply Hrest|].
          intros ->. contradiction. }
        rewrite (IH (<[key0:=l1]> res) Hnd Hins H key l).
        rewrite lookup_insert_Some, computed_cons. split.
        -- intros [[[<- <-] | [_ Hl]] | Hc]; [|auto|auto].
           right. left. split; [reflexivity|]. eauto.
        -- intros [Hl | [(-> & f' & l0' & Hf' & Hr' & Hp') | Hc]].
           ++ left. right. split; [|exact Hl]. intros ->.
              rewrite (Hres key) in Hl by (now left). discriminate.
           ++ left. left. split; [reflexivity|]. congruence.
           ++ now right.
      * apply Hskip. intros f' l0 l Hf' Hr' _. congruence.
    + apply Hskip. intros f' l0 l Hf'. congruence.
Qed.

Lemma compute_all_raises (m : list (string * config))
    (d : gmap string (list observation)) (res : gmap string latest) (e : exn) :
  compute_all str_format format_raises float_sum m d res = Raise e ->
  exists key cfg f,
    (key, cfg) ∈ m
    /\ COMPUTE_FUNCTIONS str_format format_raises float_sum (compute cfg) = Some f
    /\ f cfg d = Raise e.
Proof.
  revert res. induction m as [|[key0 cfg0] rest IH]; intros res; cbn [compute_all];
    [discriminate|].
  assert (Hrec : forall res', compute_all str_format format_raises float_sum rest d res' = Raise e ->
            exists key cfg f,
              (key, cfg) ∈ (key0, cfg0) :: rest
              /\ COMPUTE_FUNCTIONS str_format format_raises float_sum (compute cfg) = Some f
              /\ f cfg d = Raise e).
  { intros res' H. apply IH in H as (key & cfg & f & Hin & H).
    exists key, cfg, f. split; [now right | exact H]. }
  destruct (COMPUTE_FUNCTIONS str_format format_raises float_sum (compute cfg0)) as [f|] eqn:Hf; [|apply Hrec].
  destruct (f cfg0 d) as [[l0|]|e0] eqn:Hr; cbn [Py.bind].
  - destruct (apply_period_format_total cfg0 l0) as [l1 ->]. cbn [Py.bind]. apply Hrec.
  - apply Hrec.
  - intros [= <-]. exists key0, cfg0, f. split; [now left | auto].
Qed.

Lemma compute_all_aborts (m : list (string * config))
    (d : gmap string (list observation)) (res : gmap string latest)
    key cfg f (e : exn) :
  (key, cfg) ∈ m ->
  COMPUTE_FUNCTIONS str_format format_raises float_sum (compute cfg) = Some f ->
  f cfg d = Raise e ->
  exists e', compute_all str_format format_raises float_sum m d res = Raise e'.
Proof.
  intros Hin Hf Hr. revert res.
  induction m as [|[key0 cfg0] rest IH]; intros res; [inversion Hin|].
  cbn [compute_all].
  apply elem_of_cons in Hin as [[= <- <-] | Hin].
  - rewrite Hf, Hr. cbn. eauto.
  - destruct (COMPUTE_FUNCTIONS str_format format_raises float_sum (compute cfg0)) as [f0|]; [|now apply IH].
    destruct (f0 cfg0 d) as [[l0|]|e0]; cbn [Py.bind]; [| now apply IH | eauto].
    destruct (apply_period_format_total cfg0 l0) as [l1 ->]. cbn [Py.bind].
    now apply IH.
Qed.

Lemma compute_all_size (m : list (string * config))
    (d : gmap string (list observation)) (res results : gmap string latest) :
  compute_all str_format format_raises float_sum m d res = Ok results ->
  (size results <= size res + length m)%nat.
Proof.
  revert res. induction m as [|[key0 cfg0] rest IH]; intros res; cbn [compute_all].
  - intros [= <-]. lia.
  - cbn [length].
    destruct (COMPUTE_FUNCTIONS str_format format_raises float_sum (compute cfg0)) as [f|];
      [|intros H; apply IH in H; lia].
    destruct (f cfg0 d) as [[l0|]|e0]; cbn [Py.bind];
      [| intros H; apply IH in H; lia | discriminate].
    destruct (apply_period_format cfg0 l0) as [l1|]; cbn [Py.bind]; [|discriminate].
    intros H. apply IH in H.
    pose proof (map_size_insert key0 l1 res) as Hs.
    destruct (res !! key0); cbn in Hs; lia.
Qed.

Variable net : Z -> Z -> nat -> res response.
Variable mkdir_raises : option exn.
Variable dump_raises : document -> option exn.

Local Abbreviation main :=
  (MinisterMain.main str_format format_raises float_sum net mkdir_raises
     dump_raises).

(** X9. When [main] writes its document, the directory could be made and
    the file written, and the metrics in the document are exactly those of
    the map whose strategy returned a block on the fetched data, each with
    its block after the period format, and [_count] is their number; a
    metric with an unknown strategy or without a block is left out. (The
    keys of the map are those of a dictionary: no key twice.) *)
Theorem main_document
    (vector_map : list (string * config)) (w w' : world) (doc : document) :
  NoDup vector_map.*1 ->
  main vector_map w = (Ok doc, w') ->
  exists fetched_data,
    fetch_all net (collect_vectors vector_map) ∅ w = (Ok fetched_data, w')
    /\ count doc = size (metrics doc)
    /\ (count doc <= length vector_map)%nat
    /\ (forall key l,
          metrics doc !! key = Some l
          <-> computed str_format format_raises float_sum fetched_data
                vector_map key l)
    /\ mkdir_raises = None
    /\ dump_raises doc = None.
Proof.
  intros Hnd. unfold MinisterMain.main.
  destruct mkdir_raises as [e0|]; [discriminate|].
  destruct (fetch_all net (collect_vectors vector_map) ∅ w) as [[d|e] w1] eqn:Hf;
    [|discriminate].
  destruct (compute_all str_format format_raises float_sum vector_map d ∅) as [results|e] eqn:Hc;
    [|discriminate].
  cbv zeta. destruct (dump_raises _) as [e|] eqn:Hdump; [discriminate|].
  intros [= <- <-]. exists d. cbn [count metrics].
  split; [reflexivity|]. split; [reflexivity|]. split; [|split; [|auto]].
  - pose proof (compute_all_size _ _ _ _ Hc) as Hs. rewrite map_size_empty in Hs. lia.
  - intros key l.
    rewrite (compute_all_spec vector_map d ∅ results Hnd
               (fun k _ => lookup_empty k) Hc key l).
    rewrite lookup_empty. split; [intros [[=] | H]; exact H | auto].
Qed.

(** The fetch loop stops at an id that is no number. *)
Lemma fetch_all_stops (vs : list (string * Z))
    (d : gmap string (list observation)) (w : world) (k : string) :
  k ∈ vs.*1 ->
  int (remove_v k) = Raise ValueError ->
  exists w', fetch_all net vs d w = (Raise ValueError, w').
Proof.
  revert d w. induction vs as [|[vid periods] vs IH]; intros d w Hin Hk;
    [inversion Hin|].
  cbn [fetch_all].
  destruct (fetch_vector net vid periods w) as [[x|e] w1] eqn:Hf.
  - apply IH; [|exact Hk].
    cbn [fmap list_fmap fst] in Hin. apply elem_of_cons in Hin as [-> | Hin];
      [|exact Hin].
    apply fetch_vector_inv in Hf as [(_ & [=] & _) | (n & y & Hn & _)].
    congruence.
  - apply fetch_vector_inv in Hf as [(_ & [= ->] & _) | (? & ? & _ & [=] & _)].
    eauto.
Qed.

(** X10. [main] has no handler of its own. It raises exactly when the
    output directory cannot be made (then before any request), when a
    listed id is no number (then [ValueError], during the fetch), when the
    strategy of some metric raises on the fetched data, or when the
    document cannot be written; and then no document is returned, whatever
    the other metrics gave. *)
Theorem main_raises
    (vector_map : list (string * config)) (w : world) :
  (forall e w',
      main vector_map w = (Raise e, w') ->
      (mkdir_raises = Some e /\ w' = w)
      \/ (e = ValueError
          /\ exists k, listed vector_map k /\ int (remove_v k) = Raise ValueError)
      \/ (exists fetched_data key cfg f,
            fetch_all net (collect_vectors vector_map) ∅ w = (Ok fetched_data, w')
            /\ (key, cfg) ∈ vector_map
            /\ COMPUTE_FUNCTIONS str_format format_raises float_sum (compute cfg)
               = Some f
            /\ f cfg fetched_data = Raise e)
      \/ (exists fetched_data results,
            fetch_all net (collect_vectors vector_map) ∅ w = (Ok fetched_data, w')
            /\ compute_all str_format format_raises float_sum vector_map
                 fetched_data ∅ = Ok results
            /\ dump_raises {| count := size results; metrics := results |}
               = Some e))
  /\ (forall e, mkdir_raises = Some e -> main vector_map w = (Raise e, w))
  /\ (mkdir_raises = None ->
      (forall k,
          listed vector_map k -> int (remove_v k) = Raise ValueError ->
          exists w', main vector_map w = (Raise ValueError, w'))
      /\ (forall fetched_data w' key cfg f e,
            fetch_all net (collect_vectors vector_map) ∅ w = (Ok fetched_data, w') ->
            (key, cfg) ∈ vector_map ->
            COMPUTE_FUNCTIONS str_format format_raises float_sum (compute cfg)
            = Some f ->
            f cfg fetched_data = Raise e ->
            exists e', main vector_map w = (Raise e', w'))
      /\ (forall fetched_data w' results e,
            fetch_all net (collect_vectors vector_map) ∅ w = (Ok fetched_data, w') ->
            compute_all str_format format_raises float_sum vector_map
              fetched_data ∅ = Ok results ->
            dump_raises {| count := size results; metrics := results |} = Some e ->
            main vector_map w = (Raise e, w'))).
Proof.
  repeat apply conj.
  - intros e w'. unfold MinisterMain.main.
    destruct mkdir_raises as [e0|]; [intros [= <- <-]; auto|].
    destruct (fetch_all net (collect_vectors vector_map) ∅ w) as [[d|e1] w1] eqn:Hf.
    + destruct (compute_all str_format format_raises float_sum vector_map d ∅)
        as [results|e2] eqn:Hc.
      * cbv zeta. destruct (dump_raises _) as [e3|] eqn:Hdump; [|discriminate].
        intros [= <- <-]. right. right. right. exists d, results. auto.
      * intros [= <- <-]. right. right. left.
        apply compute_all_raises in Hc as (key & cfg & f & H).
        exists d, key, cfg, f. auto.
    + intros [= <- <-]. right. left.
      apply fetch_all_raises in Hf as (-> & k & p & Hin & Hk).
      split; [reflexivity|]. exists k. split; [|exact Hk].
      apply collect_vectors_listed. apply list_elem_of_fmap. exists (k, p). auto.
  - intros e He. unfold MinisterMain.main. rewrite He. reflexivity.
  - intros Hm. repeat apply conj.
    + intros k Hl Hk. unfold MinisterMain.main. rewrite Hm.
      apply collect_vectors_listed in Hl.
      destruct (fetch_all_stops (collect_vectors vector_map) ∅ w k Hl Hk)
        as [w' ->].
      eauto.
    + intros d w' key cfg f e Hf Hin Hc Hr. unfold MinisterMain.main.
      rewrite Hm, Hf.
      destruct (compute_all_aborts vector_map d ∅ key cfg f e Hin Hc Hr)
        as [e' ->].
      eauto.
    + intros d w' results e Hf Hc Hd. unfold MinisterMain.main.
      rewrite Hm, Hf, Hc. cbv zeta. rewrite Hd. reflexivity.
Qed.

End WithFormat.

Lemma small_map_keys : NoDup Samples2.small_map.*1.
Proof. apply (bool_decide_unpack _). vm_compute. exact I. Qed.

Lemma main_document_witness :
  exists fetched_data,
    fetch_all Samples2.monthly_answer (collect_vectors Samples2.small_map) ∅
      (mkworld 0 []) = (Ok fetched_data, mkworld 2 [2; 2])
    /\ count Samples2.small_doc = size (metrics Samples2.small_doc)
    /\ (count Samples2.small_doc <= length Samples2.small_map)%nat
    /\ (forall key l,
          metrics Samples2.small_doc !! key = Some l
          <-> computed Instances.str_format Instances.format_raises Py.sum
                fetched_data Samples2.small_map key l)
    /\ (None : option exn) = None
    /\ (fun _ : document => (None : option exn)) Samples2.small_doc = None.
Proof.
  exact (main_document Instances.str_format Instances.format_raises Py.sum
           Samples2.monthly_answer None (fun _ => None)
           Samples2.small_map (mkworld 0 []) (mkworld 2 [2; 2]) Samples2.small_doc
           small_map_keys eq_refl).
Defined.

End MainFacts.

(** ** Further properties: the shipped configuration *)

Module ShippedMap.
Import FetchMinisterData MinisterMain MinisterVectors Props2 MainFacts StrategyErrors.

Lemma sound_config_only_dates (str_format : string -> float -> string)
    (format_raises : string -> float -> option exn)
    (float_sum : list float -> float)
    (cfg : config)
    (f : config -> gmap string (list observation) -> res (option latest))
    (d : gmap string (list observation)) (e : exn) :
  sound_config cfg = true ->
  COMPUTE_FUNCTIONS str_format format_raises float_sum (compute cfg) = Some f ->
  f cfg d = Raise e ->
  e = ValueError \/ format_error format_raises cfg e.
Proof.
  unfold sound_config. intros Hs Hf Hr.
  apply andb_true_iff in Hs as [Hs Hlab]. apply andb_true_iff in Hs as [Hne Hsc].
  assert (Hvs : vectors cfg <> []) by (destruct (vectors cfg); [discriminate | discriminate]).
  pose proof (registry_only str_format format_raises float_sum _ f cfg d Hf Hvs
                e Hr) as [He | He]; [|now right].
  left. unfold strategy_error in He. revert Hsc Hlab He.
  destruct (bool_decide (compute cfg ∈ ["level_yoy_pct"; "level_qoq_pct"; "count_yoy_pct"])).
  - intros Hsc _ [-> | [-> Hz]]; [reflexivity|].
    unfold fne, feq in *. rewrite Hz in Hsc. discriminate.
  - destruct (bool_decide (compute cfg ∈ ["share_pct"; "wage_gap"]));
      intros _ Hlab He; [|exact He].
    destruct He as [-> | [-> (v & Hv & Hl)]]; [reflexivity|].
    rewrite forallb_forall in Hlab. apply list_elem_of_In in Hv.
    specialize (Hlab v Hv). rewrite Hl in Hlab. discriminate.
Qed.

Lemma shipped_keys : NoDup MINISTER_VECTOR_MAP.*1.
Proof. apply (bool_decide_unpack _). vm_compute. exact I. Qed.

Lemma shipped_sound (str_format : string -> float -> string)
    (format_raises : string -> float -> option exn)
    (float_sum : list float -> float) :
  Forall (fun kc => is_Some (COMPUTE_FUNCTIONS str_format format_raises float_sum
                               (compute kc.2))
                    /\ sound_config kc.2 = true)
         MINISTER_VECTOR_MAP.
Proof.
  unfold MINISTER_VECTOR_MAP.
  repeat (apply List.Forall_cons; [split; [eexists; reflexivity | reflexivity]|]).
  apply List.Forall_nil.
Qed.

Lemma shipped_ids :
  Forall (fun kp => exists n, int (remove_v kp.1) = Ok n)
         (collect_vectors MINISTER_VECTOR_MAP).
Proof.
  set (l := collect_vectors MINISTER_VECTOR_MAP). vm_compute in l. subst l.
  repeat (apply List.Forall_cons; [eexists; vm_compute; reflexivity|]).
  apply List.Forall_nil.
Qed.

Lemma shipped_templates :
  forallb (fun kc => Instances.float_template (format_value kc.2))
          MINISTER_VECTOR_MAP = true.
Proof. vm_compute. reflexivity. Qed.

(** X11. The configuration as shipped: 28 metrics under distinct keys,
    which list 35 distinct vector ids, each a number after its ["v"]. Every
    metric names a strategy of the registry, lists a vector, has a scalar
    other than zero where its strategy divides by it and labels where its
    strategy reads them, and formats its value with a template of one
    field [{:.Nf}] or [{:,.Nf}]. So, whatever the service answers, the fetch
    loop ends without an exception, and [main] can only end in the
    [ValueError] of a strategy that met a date it cannot parse, or in what
    the file system or [str.format] raise: when the directory can be made,
    the document written and the templates are taken, [ValueError] is all
    there is. *)
Theorem shipped_map_runs
    (str_format : string -> float -> string)
    (format_raises : string -> float -> option exn)
    (float_sum : list float -> float)
    (net : Z -> Z -> nat -> res response)
    (mkdir_raises : option exn) (dump_raises : document -> option exn)
    (w : world) :
  let main :=
    main str_format format_raises float_sum net mkdir_raises dump_raises in
  NoDup MINISTER_VECTOR_MAP.*1
  /\ length MINISTER_VECTOR_MAP = 28%nat
  /\ length (collect_vectors MINISTER_VECTOR_MAP) = 35%nat
  /\ Forall (fun kc => is_Some (COMPUTE_FUNCTIONS str_format format_raises
                                  float_sum (compute kc.2))
                       /\ sound_config kc.2 = true)
            MINISTER_VECTOR_MAP
  /\ forallb (fun kc => Instances.float_template (format_value kc.2))
             MINISTER_VECTOR_MAP = true
  /\ (exists fetched_data w1,
        fetch_all net (collect_vectors MINISTER_VECTOR_MAP) ∅ w
        = (Ok fetched_data, w1))
  /\ (forall e w',
        main MINISTER_VECTOR_MAP w = (Raise e, w') ->
        e = ValueError
        \/ mkdir_raises = Some e
        \/ (exists doc, dump_raises doc = Some e)
        \/ (exists key cfg, (key, cfg) ∈ MINISTER_VECTOR_MAP
                            /\ format_error format_raises cfg e))
  /\ (mkdir_raises = None ->
      (forall doc, dump_raises doc = None) ->
      Forall (fun kc => format_accepted format_raises kc.2) MINISTER_VECTOR_MAP ->
      forall e w',
        main MINISTER_VECTOR_MAP w = (Raise e, w') -> e = ValueError).
Proof.
  intros main.
  assert (Hraise : forall e w',
            main MINISTER_VECTOR_MAP w = (Raise e, w') ->
            e = ValueError
            \/ mkdir_raises = Some e
            \/ (exists doc, dump_raises doc = Some e)
            \/ (exists key cfg, (key, cfg) ∈ MINISTER_VECTOR_MAP
                                /\ format_error format_raises cfg e)).
  { intros e w'. unfold main, MinisterMain.main.
    destruct mkdir_raises as [e0|]; [intros [= -> <-]; auto|].
    destruct (fetch_all net (collect_vectors MINISTER_VECTOR_MAP) ∅ w)
      as [[d|e1] w1] eqn:Hf.
    - destruct (compute_all str_format format_raises float_sum
                  MINISTER_VECTOR_MAP d ∅) as [results|e2] eqn:Hc.
      + cbv zeta. destruct (dump_raises _) as [e3|] eqn:Hd; [|discriminate].
        intros [= -> <-]. right. right. left. eauto.
      + intros [= -> <-].
        apply compute_all_raises in Hc as (key & cfg & f & Hin & Hcf & Hr).
        pose proof (shipped_sound str_format format_raises float_sum) as Hall.
        rewrite Forall_forall in Hall. destruct (Hall _ Hin) as [_ Hs].
        destruct (sound_config_only_dates str_format format_raises float_sum
                    cfg f d e Hs Hcf Hr) as [He | He]; [now left|].
        right. right. right. eauto.
    - intros [= -> <-]. apply fetch_all_raises in Hf as [-> _]. now left. }
  split; [exact shipped_keys|]. split; [reflexivity|].
  split; [vm_compute; reflexivity|]. split; [apply shipped_sound|].
  split; [exact shipped_templates|].
  split; [apply fetch_all_total, shipped_ids|].
  split; [exact Hraise|].
  intros Hm Hd Hacc e w' H.
  destruct (Hraise e w' H) as [He | [He | [[doc He] | (key & cfg & Hin & x & Hx)]]].
  - exact He.
  - rewrite Hm in He. discriminate He.
  - rewrite Hd in He. discriminate He.
  - rewrite Forall_forall in Hacc. pose proof (Hacc _ Hin x) as Ha.
    cbn [snd] in Ha. rewrite Ha in Hx. discriminate Hx.
Qed.

End ShippedMap.

(** ** Further properties: the blocks of the strategies *)

Module StrategyBlocks.
Import FetchMinisterData Cadence CadenceFacts YoyIndexFacts GrowthFacts.
Import StrategyFacts ResultFacts Props Props2.

Lemma last_getitem {A} (l : list A) (x : A) :
  getitem l (-1) = Ok x <-> last l = Some x.
Proof.
  rewrite getitem_minus_one. destruct (last l); split; congruence.
Qed.

Lemma getitem_head {A} (x : A) (l : list A) : getitem (x :: l) 0 = Ok x.
Proof. reflexivity. Qed.

Lemma get_data_present all_data k (data : list observation) :
  get_data all_data (Some k) = Some data <-> all_data !! k = Some data /\ data <> [].
Proof.
  unfold get_data. destruct (all_data !! k) as [[|o l]|]; split;
    try discriminate; try (intros [[=] ?]; congruence).
  intros [= <-]. split; [reflexivity | discriminate].
Qed.

Lemma yoy_index_len (data : list observation) (i : Z) :
  get_yoy_index data = Ok (Some i) -> (len data <? 2) = false /\ data <> [].
Proof.
  intros H. pose proof (get_yoy_index_values data i H) as Hv.
  split; [apply Z.ltb_ge; lia|]. intros ->. unfold len in Hv. cbn in Hv. lia.
Qed.

Section WithFormat.

Variable str_format : string -> float -> string.
Variable format_raises : string -> float -> option exn.
Variable float_sum : list float -> float.

Lemma format_with_Ok (template : string) (x : float) (out : string) :
  format_with str_format format_raises template x = Ok out
  <-> format_raises template x = None /\ out = str_format template x.
Proof.
  unfold format_with. destruct (format_raises template x); split;
    try discriminate.
  - intros [[=] _].
  - intros [= <-]. auto.
  - intros [_ ->]. reflexivity.
Qed.

Lemma format_with_accepted (template : string) (x : float) :
  format_raises template x = None ->
  format_with str_format format_raises template x
  = Ok (str_format template x).
Proof. unfold format_with. now intros ->. Qed.

(** X12. [compute_rate_yoy_pp] returns a block exactly when the series of
    the first vector has a year-ago observation under its cadence and its
    period can be written: the block shows the latest value under the
    configured format, and its detail and colour are those of the change
    in percentage points, latest value minus year-ago value. *)
Theorem rate_yoy_pp_block (cfg : config) (vec : vector) (rest : list vector)
    (all_data : gmap string (list observation)) (r : latest) :
  vectors cfg = vec :: rest ->
  compute_rate_yoy_pp str_format format_raises cfg all_data = Ok (Some r)
  <-> rate_block_of str_format format_raises cfg vec all_data r.
Proof.
  intros Hvs. unfold compute_rate_yoy_pp, rate_block_of.
  rewrite Hvs, getitem_head. cbn [Py.bind]. split.
  - intros H. invert_run. subst r.
    match goal with
    | Hg : get_data _ _ = Some ?data |- _ =>
        apply get_data_present in Hg as [Hg _]; exists data
    end.
    match goal with
    | Ho : getitem _ (-1) = Ok ?o |- _ => apply last_getitem in Ho; exists o
    end.
    match goal with
    | Hw : format_with _ _ _ _ = Ok _ |- _ =>
        apply format_with_Ok in Hw as [Hw ->]
    end.
    eexists _, _, _. repeat split; eauto.
    match goal with
    | Hf : format_detail _ _ _ _ = _ |- _ => rewrite Hf
    end. reflexivity.
  - intros (data & o & i & y & p & Hd & Ho & Hi & Hy & Hp & Hw & ->).
    destruct (yoy_index_len data i Hi) as [Hlen Hne].
    rewrite (proj2 (get_data_present all_data (id vec) data) (conj Hd Hne)).
    rewrite Hlen. rewrite (proj2 (last_getitem data o) Ho). cbn [Py.bind].
    rewrite Hi. cbn [Py.bind]. rewrite Hy. cbn [Py.bind].
    destruct (format_detail str_format (value o - value y) "pp" (direction cfg))
      as [dt cl]. rewrite Hp. cbn [Py.bind].
    rewrite (format_with_accepted _ _ Hw). reflexivity.
Qed.

Lemma pct_change_run (cur prev : float) :
  (if fne prev 0%float then
     q <- truediv cur prev;; Ok ((q - 1) * 100)%float
   else Ok 0%float) = Ok (pct_change cur prev).
Proof.
  unfold pct_change. destruct (fne prev 0%float) eqn:H; [|reflexivity].
  unfold fne in H. apply negb_true_iff in H.
  now rewrite (truediv_nonzero cur prev H).
Qed.

Lemma truediv_Ok (x y q : float) :
  truediv x y = Ok q <-> feq y 0%float = false /\ q = (x / y)%float.
Proof.
  unfold truediv. destruct (feq y 0%float); split; try discriminate.
  - intros [[=] _].
  - intros [= <-]. auto.
  - intros [_ ->]. reflexivity.
Qed.

(** X13. [compute_level_qoq_pct] returns a block exactly when the series
    of the first vector has two observations, the scalar is not zero and
    the month of the latest date is a number. The block shows the latest
    value divided by the scalar; its detail is the change in percent
    against the previous observation, [0.0] against a previous value of
    zero, worded "quarter over quarter"; its colour follows the rule of
    the year-over-year details; and its period is always written as a
    quarter, whatever the cadence of the series. *)
Theorem level_qoq_pct_block (cfg : config) (vec : vector) (rest : list vector)
    (all_data : gmap string (list observation)) (r : latest) :
  vectors cfg = vec :: rest ->
  compute_level_qoq_pct str_format format_raises cfg all_data = Ok (Some r)
  <-> qoq_block_of str_format format_raises cfg vec all_data r.
Proof.
  intros Hvs. unfold compute_level_qoq_pct, qoq_block_of.
  rewrite Hvs, getitem_head. cbn [Py.bind]. split.
  - destruct (get_data all_data (Some (id vec))) as [data|] eqn:Hd; [|discriminate].
    apply get_data_present in Hd as [Hd Hne].
    destruct (Z.ltb_spec (len data) 2) as [|Hlen]; [discriminate|].
    destruct (getitem data (-1)) as [o|] eqn:Ho; cbn [Py.bind]; [|discriminate].
    destruct (truediv (value o) (scalar_of cfg)) as [dv|] eqn:Hdv; cbn [Py.bind];
      [|discriminate].
    apply truediv_Ok in Hdv as [Hz ->].
    destruct (getitem data (-2)) as [prev|] eqn:Hp; cbn [Py.bind]; [|discriminate].
    rewrite pct_change_run. cbn [Py.bind].
    destruct (format_period (date o) true) as [p|] eqn:Hfp; cbn [Py.bind];
      [|discriminate].
    destruct (format_with str_format format_raises (format_value cfg)
                (value o / scalar_of cfg)) as [out|] eqn:Hw; cbn [Py.bind];
      [|discriminate].
    apply format_with_Ok in Hw as [Hw ->].
    intros [= <-]. exists data, o, prev, p.
    apply last_getitem in Ho. repeat split; auto.
  - intros (data & o & prev & p & Hd & Hlen & Ho & Hp & Hz & Hfp & Hw & ->).
    assert (Hne : data <> []) by (intros ->; unfold len in Hlen; cbn in Hlen; lia).
    rewrite (proj2 (get_data_present all_data (id vec) data) (conj Hd Hne)).
    replace (len data <? 2) with false by (symmetry; apply Z.ltb_ge; lia).
    rewrite (proj2 (last_getitem data o) Ho). cbn [Py.bind].
    rewrite (truediv_nonzero _ _ Hz). cbn [Py.bind]. rewrite Hp. cbn [Py.bind].
    rewrite pct_change_run. cbn [Py.bind]. rewrite Hfp. cbn [Py.bind].
    rewrite (format_with_accepted _ _ Hw). reflexivity.
Qed.

(** *** The strategies over two labelled series *)

Lemma labelled_id_cons (la : string) (v : vector) (vs : list vector) :
  labelled_id la (v :: vs)
  = match labelled_id la vs with
    | Some k => Some k
    | None => if bool_decide (label v = Some la) then Some (id v) else None
    end.
Proof.
  unfold labelled_id. cbn [List.filter].
  destruct (bool_decide (label v = Some la)).
  - rewrite last_cons. destruct (last _); reflexivity.
  - destruct (last _); reflexivity.
Qed.

Lemma find_labels_labelled (la lb : string) (vs : list vector)
    (acc : option string * option string) :
  la <> lb ->
  Forall (fun v => label v <> None) vs ->
  find_labels la lb vs acc
  = Ok (match labelled_id la vs with Some k => Some k | None => fst acc end,
        match labelled_id lb vs with Some k => Some k | None => snd acc end).
Proof.
  intros Hab Hall. revert acc.
  induction Hall as [|v vs Hv _ IH]; intros [a b]; [reflexivity|].
  cbn [find_labels]. rewrite !labelled_id_cons.
  destruct (label v) as [l|] eqn:Hl; [|congruence].
  destruct (String.eqb_spec l la) as [->|Hla].
  - rewrite IH. cbn [fst snd].
    rewrite (bool_decide_eq_true_2 (Some la = Some la)) by reflexivity.
    rewrite (bool_decide_eq_false_2 (Some la = Some lb)) by congruence.
    destruct (labelled_id la vs), (labelled_id lb vs); reflexivity.
  - destruct (String.eqb_spec l lb) as [->|Hlb].
    + rewrite IH. cbn [fst snd].
      rewrite (bool_decide_eq_false_2 (Some lb = Some la)) by congruence.
      rewrite (bool_decide_eq_true_2 (Some lb = Some lb)) by reflexivity.
      destruct (labelled_id la vs), (labelled_id lb vs); reflexivity.
    + rewrite IH. cbn [fst snd].
      rewrite (bool_decide_eq_false_2 (Some l = Some la)) by congruence.
      rewrite (bool_decide_eq_false_2 (Some l = Some lb)) by congruence.
      destruct (labelled_id la vs), (labelled_id lb vs); reflexivity.
Qed.

Lemma Ok_inj {A} (a b : A) : @Ok A a = Ok b -> a = b.
Proof. now intros [= ->]. Qed.

Lemma option_eta {A} (o : option A) :
  match o with Some k => Some k | None => None end = o.
Proof. destruct o; reflexivity. Qed.

Lemma get_data_of_label all_data (k : option string) (data : list observation) :
  get_data all_data k = Some data
  <-> exists key, k = Some key /\ all_data !! key = Some data /\ data <> [].
Proof.
  destruct k as [key|].
  - rewrite get_data_present. split; [eauto|]. intros (? & [= <-] & H). exact H.
  - split; [discriminate|]. intros (? & [=] & _).
Qed.

Lemma prior_run (f : float -> float -> float) (a b : float) (m : res float) :
  (fne a 0%float = true -> m = Ok (f a b)) ->
  (if fne a 0%float then m else Ok 0%float) = Ok (prior f a b).
Proof. unfold prior. destruct (fne a 0%float); auto. Qed.

Lemma share_prior (pt pu : float) :
  (if fne pt 0%float then
     pq <- truediv pu pt;; Ok ((1 - pq) * 100)%float
   else Ok 0%float) = Ok (prior share_of pt pu).
Proof.
  apply prior_run. intros H. unfold fne in H. apply negb_true_iff in H.
  now rewrite (truediv_nonzero pu pt H).
Qed.

Lemma gap_prior (pm pf : float) :
  (if fne pm 0%float then
     pq <- truediv (pm - pf)%float pm;; Ok (pq * 100)%float
   else Ok 0%float) = Ok (prior gap_of pm pf).
Proof.
  apply prior_run. intros H. unfold fne in H. apply negb_true_iff in H.
  now rewrite (truediv_nonzero _ pm H).
Qed.

Lemma nonempty_last {A} (l : list A) (x : A) : last l = Some x -> l <> [].
Proof. intros H ->. discriminate. Qed.

(** X14. On a configuration whose vectors are all labelled,
    [compute_share_pct] returns a block exactly when the series labelled
    ["total_exports"] and ["us_exports"] are there, the latest total is
    not zero and the dates parse. The block shows [(1 - us / total) * 100];
    its detail is the change in percentage points against the same share
    at the lookback index of the total series, read in both series, when
    the other series reaches that far back, and is empty otherwise; the
    share of a year-ago total of zero counts as [0]. The period is a
    quarter when the last two dates of the total series are more than 60
    days apart, annual series included, and a month otherwise. *)
Theorem share_pct_block (cfg : config)
    (all_data : gmap string (list observation)) (r : latest) :
  Forall (fun v => label v <> None) (vectors cfg) ->
  compute_share_pct str_format format_raises cfg all_data = Ok (Some r)
  <-> pair_block str_format format_raises "total_exports" "us_exports" share_of
        quarter_or_month cfg all_data r.
Proof.
  intros Hall. unfold compute_share_pct, pair_block.
  rewrite (find_labels_labelled "total_exports" "us_exports" _ _ ltac:(discriminate) Hall).
  cbn [Py.bind fst snd]. rewrite !option_eta. split.
  - destruct (get_data all_data (labelled_id "total_exports" (vectors cfg)))
      as [td|] eqn:Ht; [|discriminate].
    destruct (get_data all_data (labelled_id "us_exports" (vectors cfg)))
      as [ud|] eqn:Hu; [|discriminate].
    apply get_data_of_label in Ht as (ka & Hka & Ht & _).
    apply get_data_of_label in Hu as (kb & Hkb & Hu & _).
    destruct (getitem td (-1)) as [ot|] eqn:Hot; cbn [Py.bind]; [|discriminate].
    destruct (getitem ud (-1)) as [ou|] eqn:Hou; cbn [Py.bind]; [|discriminate].
    destruct (feq (value ot) 0%float) eqn:Hz; [discriminate|].
    rewrite (truediv_nonzero _ _ Hz). cbn [Py.bind].
    destruct (get_yoy_index td) as [yi|] eqn:Hyi; cbn [Py.bind]; [|discriminate].
    intros H.
    match type of H with
    | Py.bind ?m _ = _ => destruct m as [dc|] eqn:Hdc; cbn [Py.bind] in H;
                          [|discriminate H]
    end.
    destruct dc as [dt cl].
    destruct (is_quarterly td) as [q|] eqn:Hq; cbn [Py.bind] in H; [|discriminate H].
    destruct (format_period (date ot) q) as [p|] eqn:Hp; cbn [Py.bind] in H;
      [|discriminate H].
    match type of H with
    | Py.bind ?m _ = _ => destruct m as [out|] eqn:Hw; cbn [Py.bind] in H;
                          [|discriminate H]
    end.
    apply format_with_Ok in Hw as [Hw ->].
    injection H as <-.
    exists ka, kb, td, ud, ot, ou, yi, (dt, cl), p.
    apply last_getitem in Hot, Hou.
    repeat split; auto.
    + unfold pair_comparison. destruct yi as [i|]; [|congruence].
      destruct (Z.abs i <=? len ud); [|congruence].
      destruct (getitem td i) as [pt|]; cbn [Py.bind] in Hdc; [|discriminate Hdc].
      destruct (getitem ud i) as [pu|]; cbn [Py.bind] in Hdc; [|discriminate Hdc].
      rewrite share_prior in Hdc. cbn [Py.bind] in Hdc. apply Ok_inj in Hdc.
      exists pt, pu. split; [reflexivity|]. split; [reflexivity|].
      symmetry. exact Hdc.
    + unfold quarter_or_month. rewrite Hq. exact Hp.
  - intros (ka & kb & td & ud & ot & ou & yi & dc & p
            & Hka & Hkb & Ht & Hu & Hot & Hou & Hz & Hyi & Hdc & Hp & Hw & ->).
    rewrite Hka, Hkb.
    rewrite (proj2 (get_data_present all_data ka td) (conj Ht (nonempty_last _ _ Hot))).
    rewrite (proj2 (get_data_present all_data kb ud) (conj Hu (nonempty_last _ _ Hou))).
    rewrite (proj2 (last_getitem td ot) Hot), (proj2 (last_getitem ud ou) Hou).
    cbn [Py.bind]. rewrite Hz, (truediv_nonzero _ _ Hz). cbn [Py.bind].
    rewrite Hyi. cbn [Py.bind].
    unfold quarter_or_month in Hp.
    destruct (is_quarterly td) as [q|] eqn:Hq; cbn [Py.bind] in Hp; [|discriminate Hp].
    assert (Hrun : match yi with
                   | Some yoy_idx =>
                       if Z.abs yoy_idx <=? len ud then
                         pt <- getitem td yoy_idx;;
                         pu <- getitem ud yoy_idx;;
                         prev_share <-
                           (if fne (value pt) 0%float then
                              pq <- truediv (value pu) (value pt);;
                              Ok ((1 - pq) * 100)%float
                            else Ok 0%float);;
                         Ok (format_detail str_format
                               ((1 - value ou / value ot) * 100 - prev_share)%float
                               "pp" (direction cfg))
                       else Ok ("", "neutral")
                   | None => Ok ("", "neutral")
                   end = Ok dc).
    { unfold pair_comparison in Hdc. destruct yi as [i|]; [|congruence].
      destruct (Z.abs i <=? len ud); [|congruence].
      destruct Hdc as (pt & pu & Hpt & Hpu & ->).
      rewrite Hpt, Hpu. cbn [Py.bind]. rewrite share_prior. reflexivity. }
    rewrite Hrun. cbn [Py.bind]. destruct dc as [dt cl]. cbn [Py.bind].
    rewrite Hp. cbn [Py.bind].
    unfold share_of in Hw. rewrite (format_with_accepted _ _ Hw). reflexivity.
Qed.

(** X15. On a configuration whose vectors are all labelled,
    [compute_wage_gap] returns a block exactly when the series labelled
    ["male_wage"] and ["female_wage"] are there, the latest male wage is
    not zero and the dates parse. The block shows
    [(male - female) / male * 100]; its detail is the change in percentage
    points against the same gap at the lookback index of the male series,
    read in both series, when the female series reaches that far back. The
    period is the year for an annual series and the month otherwise, also
    for a quarterly series. *)
Theorem wage_gap_block (cfg : config)
    (all_data : gmap string (list observation)) (r : latest) :
  Forall (fun v => label v <> None) (vectors cfg) ->
  compute_wage_gap str_format format_raises cfg all_data = Ok (Some r)
  <-> pair_block str_format format_raises "male_wage" "female_wage" gap_of
        year_or_month cfg all_data r.
Proof.
  intros Hall. unfold compute_wage_gap, pair_block.
  rewrite (find_labels_labelled "male_wage" "female_wage" _ _ ltac:(discriminate) Hall).
  cbn [Py.bind fst snd]. rewrite !option_eta. split.
  - destruct (get_data all_data (labelled_id "male_wage" (vectors cfg)))
      as [md|] eqn:Hm; [|discriminate].
    destruct (get_data all_data (labelled_id "female_wage" (vectors cfg)))
      as [fd|] eqn:Hf; [|discriminate].
    apply get_data_of_label in Hm as (ka & Hka & Hm & _).
    apply get_data_of_label in Hf as (kb & Hkb & Hf & _).
    destruct (getitem md (-1)) as [om|] eqn:Hom; cbn [Py.bind]; [|discriminate].
    destruct (getitem fd (-1)) as [o_f|] eqn:Hof; cbn [Py.bind]; [|discriminate].
    destruct (feq (value om) 0%float) eqn:Hz; [discriminate|].
    rewrite (truediv_nonzero _ _ Hz). cbn [Py.bind].
    destruct (get_yoy_index md) as [yi|] eqn:Hyi; cbn [Py.bind]; [|discriminate].
    intros H.
    match type of H with
    | Py.bind ?m _ = _ => destruct m as [dc|] eqn:Hdc; cbn [Py.bind] in H;
                          [|discriminate H]
    end.
    destruct dc as [dt cl].
    destruct (is_annual md) as [a|] eqn:Ha; cbn [Py.bind] in H; [|discriminate H].
    assert (Hp : exists p, year_or_month md (date om) = Ok p
                           /\ (if a then Ok (slice 0 4 (date om))
                               else format_period (date om) false) = Ok p).
    { unfold year_or_month. rewrite Ha. cbn [Py.bind]. destruct a; eauto. }
    destruct Hp as (p & Hp & Hp'). rewrite Hp' in H. cbn [Py.bind] in H.
    match type of H with
    | Py.bind ?m _ = _ => destruct m as [out|] eqn:Hw; cbn [Py.bind] in H;
                          [|discriminate H]
    end.
    apply format_with_Ok in Hw as [Hw ->].
    injection H as <-.
    exists ka, kb, md, fd, om, o_f, yi, (dt, cl), p.
    apply last_getitem in Hom, Hof.
    repeat split; auto.
    unfold pair_comparison. destruct yi as [i|]; [|congruence].
    destruct (Z.abs i <=? len fd); [|congruence].
    destruct (getitem md i) as [pm|]; cbn [Py.bind] in Hdc; [|discriminate Hdc].
    destruct (getitem fd i) as [pf|]; cbn [Py.bind] in Hdc; [|discriminate Hdc].
    rewrite gap_prior in Hdc. cbn [Py.bind] in Hdc. apply Ok_inj in Hdc.
    exists pm, pf. split; [reflexivity|]. split; [reflexivity|].
    symmetry. exact Hdc.
  - intros (ka & kb & md & fd & om & o_f & yi & dc & p
            & Hka & Hkb & Hm & Hf & Hom & Hof & Hz & Hyi & Hdc & Hp & Hw & ->).
    rewrite Hka, Hkb.
    rewrite (proj2 (get_data_present all_data ka md) (conj Hm (nonempty_last _ _ Hom))).
    rewrite (proj2 (get_data_present all_data kb fd) (conj Hf (nonempty_last _ _ Hof))).
    rewrite (proj2 (last_getitem md om) Hom), (proj2 (last_getitem fd o_f) Hof).
    cbn [Py.bind]. rewrite Hz, (truediv_nonzero _ _ Hz). cbn [Py.bind].
    rewrite Hyi. cbn [Py.bind].
    unfold year_or_month in Hp.
    destruct (is_annual md) as [a|] eqn:Ha; cbn [Py.bind] in Hp; [|discriminate Hp].
    assert (Hrun : match yi with
                   | Some yoy_idx =>
                       if Z.abs yoy_idx <=? len fd then
                         pm <- getitem md yoy_idx;;
                         pf <- getitem fd yoy_idx;;
                         prev_gap <-
                           (if fne (value pm) 0%float then
                              pq <- truediv (value pm - value pf)%float (value pm);;
                              Ok (pq * 100)%float
                            else Ok 0%float);;
                         Ok (format_detail str_format
                               ((value om - value o_f) / value om * 100 - prev_gap)%float
                               "pp" (direction cfg))
                       else Ok ("", "neutral")
                   | None => Ok ("", "neutral")
                   end = Ok dc).
    { unfold pair_comparison in Hdc. destruct yi as [i|]; [|congruence].
      destruct (Z.abs i <=? len fd); [|congruence].
      destruct Hdc as (pm & pf & Hpm & Hpf & ->).
      rewrite Hpm, Hpf. cbn [Py.bind]. rewrite gap_prior. reflexivity. }
    rewrite Hrun. cbn [Py.bind]. destruct dc as [dt cl]. cbn [Py.bind].
    unfold gap_of in Hw.
    destruct a; cbn [format_period]; rewrite Hp; cbn [Py.bind];
      rewrite (format_with_accepted _ _ Hw); reflexivity.
Qed.

End WithFormat.

Lemma rate_yoy_pp_block_witness :
  rate_block_of Instances.str_format Instances.format_raises (Samples2.small_map_rate) (mkvector "v1" 24 None None)
    Samples2.small_fetched Samples2.rate_block.
Proof.
  exact (proj1 (rate_yoy_pp_block Instances.str_format Instances.format_raises
                  Samples2.small_map_rate
                  (mkvector "v1" 24 None None) [] Samples2.small_fetched
                  Samples2.rate_block eq_refl) eq_refl).
Defined.

Lemma level_qoq_pct_block_witness :
  qoq_block_of Instances.str_format Instances.format_raises Samples2.qoq_cfg (mkvector "q" 20 None None)
    Samples2.qoq_data Samples2.qoq_block.
Proof.
  exact (proj1 (level_qoq_pct_block Instances.str_format Instances.format_raises
                  Samples2.qoq_cfg
                  (mkvector "q" 20 None None) [] Samples2.qoq_data
                  Samples2.qoq_block eq_refl) eq_refl).
Defined.

Lemma all_labelled_share : Forall (fun v => label v <> None) (vectors Samples2.share_cfg).
Proof. repeat constructor; discriminate. Qed.

Lemma share_pct_block_witness :
  pair_block Instances.str_format Instances.format_raises "total_exports" "us_exports" share_of
    quarter_or_month Samples2.share_cfg Samples2.share_data Samples2.share_block.
Proof.
  exact (proj1 (share_pct_block Instances.str_format Instances.format_raises
                  Samples2.share_cfg
                  Samples2.share_data Samples2.share_block all_labelled_share)
               eq_refl).
Defined.

Lemma all_labelled_gap : Forall (fun v => label v <> None) (vectors Samples2.gap_cfg).
Proof. repeat constructor; discriminate. Qed.

Lemma wage_gap_block_witness :
  pair_block Instances.str_format Instances.format_raises "male_wage" "female_wage" gap_of
    year_or_month Samples2.gap_cfg Samples2.gap_data Samples2.gap_block.
Proof.
  exact (proj1 (wage_gap_block Instances.str_format Instances.format_raises
                  Samples2.gap_cfg
                  Samples2.gap_data Samples2.gap_block all_labelled_gap)
               eq_refl).
Defined.

(** X16. The three ways the strategies write a period, by cadence. The
    single-series year-over-year strategies write the year of an annual
    series, the quarter of a quarterly one and the month otherwise. The
    strategies over several series write a quarter as soon as the last gap
    exceeds 60 days, so also for an annual series. [compute_wage_gap]
    writes the year of an annual series and the month of any other, so
    also of a quarterly one. *)
Theorem period_label_by_cadence (data : list observation) (d : string)
    (c : cadence) :
  cadence_of data = Ok c ->
  period_of data d
  = match c with
    | Annual => Ok (slice 0 4 d)
    | Quarterly => format_period d true
    | Monthly => Ok (slice 0 7 d)
    end
  /\ quarter_or_month data d
     = match c with
       | Monthly => Ok (slice 0 7 d)
       | _ => format_period d true
       end
  /\ year_or_month data d
     = match c with
       | Annual => Ok (slice 0 4 d)
       | _ => Ok (slice 0 7 d)
       end.
Proof.
  unfold cadence_of, period_of, quarter_or_month, year_or_month.
  destruct (is_annual data) as [a|] eqn:Ha; cbn [Py.bind]; [|discriminate].
  destruct a.
  - intros [= <-].
    assert (Hq : is_quarterly data = Ok true).
    { revert Ha. unfold is_annual, is_quarterly.
      destruct (len data <? 2); [discriminate|].
      destruct (getitem data (-1)); cbn [Py.bind]; [|discriminate].
      destruct (strptime_ymd _); cbn [Py.bind]; [|discriminate].
      destruct (getitem data (-2)); cbn [Py.bind]; [|discriminate].
      destruct (strptime_ymd _); cbn [Py.bind]; [|discriminate].
      intros [= H]. f_equal. apply Z.ltb_lt in H. apply Z.ltb_lt. lia. }
    rewrite Hq. cbn [Py.bind]. auto.
  - destruct (is_quarterly data) as [q|] eqn:Hq; cbn [Py.bind]; [|discriminate].
    destruct q; intros [= <-]; auto.
Qed.

Lemma period_label_by_cadence_witness :
  period_of Samples.gap400 "2025-02-04" = Ok "2025"
  /\ quarter_or_month Samples.gap400 "2025-02-04" = Ok "2025-Q1"
  /\ year_or_month Samples.gap90 "2025-04-01" = Ok "2025-04".
Proof.
  destruct (period_label_by_cadence Samples.gap400 "2025-02-04" Annual eq_refl)
    as (H1 & H2 & _).
  destruct (period_label_by_cadence Samples.gap90 "2025-04-01" Quarterly eq_refl)
    as (_ & _ & H3).
  repeat split; assumption.
Defined.

(** *** The sum of several series *)

(** X17. [compute_sum_yoy_pct], when every series has an observation and
    the dates of the first series parse, formats the sum of the latest
    values: it returns a block that shows it, or raises what the template
    raises. The detail of the block is the change in percent of that sum
    against the sum of the values at the lookback index of the first
    series, read in every series; it is left empty when that sum is zero,
    when a series does not reach that far back, and when the first series
    has no lookback index. A series that is missing or empty gives no
    block at all. *)
Theorem sum_yoy_pct_value (str_format : string -> float -> string)
    (format_raises : string -> float -> option exn)
    (cfg : config) (all_data : gmap string (list observation)) :
  (forall v0 vs values ref_data o q p,
      vectors cfg = v0 :: vs ->
      Forall2 (latest_of all_data) (vectors cfg) values ->
      all_data !! id v0 = Some ref_data ->
      last ref_data = Some o ->
      is_quarterly ref_data = Ok q ->
      format_period (date o) q = Ok p ->
      exists d c,
        compute_sum_yoy_pct str_format format_raises cfg all_data
        = (out <- format_with str_format format_raises (format_value cfg)
                    (Py.sum values);;
           Ok (Some {| out_value := out; detail := d; detail_color := c;
                       period := p |}))
        /\ (format_raises (format_value cfg) (Py.sum values) = None ->
            compute_sum_yoy_pct str_format format_raises cfg all_data
            = Ok (Some {| out_value := str_format (format_value cfg)
                                         (Py.sum values);
                          detail := d; detail_color := c; period := p |}))
        /\ (forall i prevs,
              get_yoy_index ref_data = Ok (Some i) ->
              Forall (fun v => long_enough (all_data !! id v) i = true) (vectors cfg) ->
              Forall2 (value_at_index all_data i) (vectors cfg) prevs ->
              (d, c)
              = if fne (Py.sum prevs) 0%float
                then format_detail str_format
                       ((Py.sum values / Py.sum prevs - 1) * 100)%float
                       "%" (direction cfg)
                else ("", "neutral"))
        /\ (forall i,
              get_yoy_index ref_data = Ok (Some i) ->
              Exists (fun v => long_enough (all_data !! id v) i = false) (vectors cfg) ->
              d = "" /\ c = "neutral")
        /\ (get_yoy_index ref_data = Ok None ->
            d = "" /\ c = "neutral"))
  /\ (forall v, v ∈ vectors cfg -> unavailable all_data v ->
        compute_sum_yoy_pct str_format format_raises cfg all_data = Ok None).
Proof.
  split.
  - intros v0 vs values ref_data o q p Hvs Hvals Href Ho Hq Hp.
    unfold compute_sum_yoy_pct.
    rewrite (latest_values_listed _ _ _ Hvals). cbn [Py.bind].
    assert (Hg : getitem (vectors cfg) 0 = Ok v0) by (rewrite Hvs; reflexivity).
    rewrite Hg. cbn [Py.bind]. rewrite Href.
    destruct (get_yoy_index_total ref_data q Hq) as [yi Hyi].
    rewrite Hyi. cbn [Py.bind].
    destruct yi as [i|].
    + assert (Hi : i < 0) by (pose proof (get_yoy_index_values _ _ Hyi); lia).
      destruct (prev_values_total all_data (vectors cfg) i Hi) as [pv Hpv].
      rewrite Hpv. cbn [Py.bind].
      assert (Hdc : exists dc,
                 match pv with
                 | Some xs =>
                     if fne (Py.sum xs) 0%float then
                       q0 <- truediv (Py.sum values) (Py.sum xs);;
                       Ok (format_detail str_format ((q0 - 1) * 100)%float "%"
                             (direction cfg))
                     else Ok ("", "neutral")
                 | None => Ok ("", "neutral")
                 end = Ok dc
                 /\ dc = match pv with
                         | Some xs =>
                             if fne (Py.sum xs) 0%float
                             then format_detail str_format
                                    ((Py.sum values / Py.sum xs - 1) * 100)%float
                                    "%" (direction cfg)
                             else ("", "neutral")
                         | None => ("", "neutral")
                         end).
      { destruct pv as [xs|]; [|eauto].
        destruct (fne (Py.sum xs) 0%float) eqn:Hz; [|eauto].
        unfold fne in Hz. apply negb_true_iff in Hz.
        rewrite (truediv_nonzero _ _ Hz). cbn [Py.bind]. eauto. }
      destruct Hdc as (dc & -> & Hdc). cbn [Py.bind]. destruct dc as [dt cl].
      rewrite getitem_minus_one, Ho. cbn [Py.bind].
      rewrite Hq. cbn [Py.bind]. rewrite Hp. cbn [Py.bind].
      exists dt, cl. split; [reflexivity|].
      split; [intros Hw; now rewrite (format_with_accepted _ _ _ _ Hw)|].
      split; [|split].
      * intros i' prevs [= <-] Hlong Hprev.
        rewrite (prev_values_listed _ _ _ _ Hi Hlong Hprev) in Hpv.
        apply Ok_inj in Hpv. subst pv. exact Hdc.
      * intros i' [= <-] Hshort.
        rewrite (prev_values_short _ _ _ Hi Hshort) in Hpv.
        apply Ok_inj in Hpv. subst pv. injection Hdc as -> ->. auto.
      * intros [=].
    + cbn [Py.bind]. rewrite getitem_minus_one, Ho. cbn [Py.bind].
      rewrite Hq. cbn [Py.bind]. rewrite Hp. cbn [Py.bind].
      exists "", "neutral". split; [reflexivity|].
      split; [intros Hw; now rewrite (format_with_accepted _ _ _ _ Hw)|].
      split; [|split].
      * intros i prevs [=].
      * intros i [=].
      * auto.
  - intros v Hin Hun. unfold compute_sum_yoy_pct.
    rewrite (latest_values_unavailable _ _ _ Hin Hun). reflexivity.
Qed.

Lemma sum_yoy_pct_value_witness :
  exists d c,
    compute_sum_yoy_pct Instances.str_format Instances.format_raises
      Samples2.sum_cfg Samples2.share_data
    = Ok (Some {| out_value := "350"; detail := d; detail_color := c;
                  period := "2025-Q1" |}).
Proof.
  destruct (proj1 (sum_yoy_pct_value Instances.str_format
                     Instances.format_raises Samples2.sum_cfg
                     Samples2.share_data)
              (mkvector "t" 24 None None) [mkvector "u" 24 None None]
              [200; 150]%float
              [mkobs "2024-01-01" 100; mkobs "2025-01-01" 200]
              (mkobs "2025-01-01" 200) true "2025-Q1")
    as (d & c & _ & Hr & _); try reflexivity.
  - repeat constructor; eexists _, _; repeat split; reflexivity.
  - exists d, c. rewrite (Hr eq_refl). vm_compute. reflexivity.
Defined.

End StrategyBlocks.

(** ** Further properties: [read_official_data] and [read_chart_history] *)

Module OfficialFacts.
Import BuildSite Props Props2 StrategyErrors.

Section WithParsers.

Variable py_float : string -> option float.
Variable float_pow : float -> float -> res float.

Lemma cell_only (P : exn -> Prop) (r : row) (k : string) :
  P KeyError -> raises_only P (cell r k).
Proof. intros HP e. unfold cell. destruct (r !! k); [discriminate|]. now intros [= <-]. Qed.

Lemma to_float_only (P : exn -> Prop) (c : option string) :
  P ValueError -> P TypeError -> raises_only P (to_float py_float c).
Proof.
  intros HV HT e. unfold to_float. destruct c as [s|]; [|now intros [= <-]].
  destruct (py_float s); [discriminate|]. now intros [= <-].
Qed.

Lemma slice_of_only (P : exn -> Prop) (a b : nat) (d : option string) :
  P TypeError -> raises_only P (slice_of a b d).
Proof. intros HT e. destruct d; [discriminate|]. now intros [= <-]. Qed.

Lemma int_only (P : exn -> Prop) (s : string) :
  P ValueError -> raises_only P (Py.int s).
Proof. intros HP e H. apply IndexSafety.int_raises in H. now subst. Qed.

Lemma value_at_only (P : exn -> Prop) (rows : list row) (i : Z) :
  P KeyError -> P ValueError -> P TypeError ->
  - len rows <= i < len rows ->
  raises_only P (value_at py_float rows i).
Proof.
  intros HK HV HT Hi. unfold value_at.
  apply only_bind; [apply only_of_total, getitem_in_range, Hi|]. intros r _.
  apply only_bind; [apply cell_only, HK|]. intros v _.
  apply to_float_only; [exact HV | exact HT].
Qed.

Lemma growth_total (a b : float) : exists g, growth a b = Ok g.
Proof.
  unfold growth. destruct (fne b 0%float) eqn:H; [|eauto].
  destruct (truediv_guarded a b H) as [q ->]. cbn. eauto.
Qed.

Ltac in_range :=
  repeat match goal with
         | H : (_ <=? _) = true |- _ => apply Z.leb_le in H
         end;
  lia.

Ltac reader_step :=
  lazymatch goal with
  | |- raises_only _ (Py.bind _ _) => apply only_bind; [ | intros ? ?]
  | |- raises_only _ (Ok _) => apply only_Ok
  | |- raises_only _ (let '(_, _) := ?p in _) => destruct p eqn:?
  | |- raises_only _ (if ?b then _ else _) => destruct b eqn:?
  | |- raises_only _ (value_at _ _ _) =>
      apply value_at_only;
      [now left | now (right; left) | now (right; right; left) | in_range]
  | |- raises_only _ (cell _ _) => apply cell_only; now left
  | |- raises_only _ (to_float _ _) =>
      apply to_float_only; [now (right; left) | now (right; right; left)]
  | |- raises_only _ (slice_of _ _ _) =>
      apply slice_of_only; now (right; right; left)
  | |- raises_only _ (Py.int _) => apply int_only; now (right; left)
  | |- raises_only _ (growth _ _) => apply only_of_total, growth_total
  end.

Lemma official_body_only (ind : indicator) (rows : list row) :
  rows <> [] ->
  raises_only (reader_error float_pow ind) (official_body py_float float_pow ind rows).
Proof.
  intros Hne.
  assert (Hlen : 1 <= len rows)
    by (destruct rows; [congruence | unfold len; cbn [length]; lia]).
  unfold official_body, official_dated, year_over_year. cbv zeta.
  destruct (String.eqb_spec (frequency ind) "Quarterly") as [Hq|Hq];
    [|destruct (String.eqb_spec (frequency ind) "Daily") as [Hd|Hd]];
    cbn [negb];
    (apply only_bind; [apply only_of_total, getitem_in_range; lia|]; intros latest _);
    repeat reader_step.
  intros e He. right. right. right. eauto.
Qed.

Lemma catch_to_none_Some {A} (m : res (option A)) (a : A) :
  catch_to_none m = Ok (Some a) <-> m = Ok (Some a).
Proof.
  unfold catch_to_none. destruct m as [[x|]|[]]; split; congruence.
Qed.

Lemma catch_to_none_raises {A} (m : res (option A)) (e : exn) :
  catch_to_none m = Raise e
  <-> m = Raise e /\ e <> KeyError /\ e <> ValueError /\ e <> TypeError.
Proof.
  unfold catch_to_none. destruct m as [x|e0].
  - split; [discriminate | intros [[=] _]].
  - destruct e0; split; try discriminate;
      try (intros [= <-]; repeat split; discriminate);
      try (intros ([= <-] & ? & ? & ?); congruence).
Qed.

End WithParsers.

(** X18. What [read_official_data] lets through. The file is opened and
    its rows are read before the [try]: whatever that raises (an
    [OSError], a [csv.Error], a [UnicodeDecodeError]) goes on to the
    caller. Once the rows are read, one exception is left: what the power
    [(1 + g/100) ** 12] of the annualized monthly growth raises (an
    overflow), and only for an indicator that is neither quarterly nor
    daily. A missing file and a file with no row that has a value give
    [None]; a missing column, a cell that is [None] and a text that is no
    number are caught; no index is out of range and no division is by
    zero. *)
Theorem read_official_raises
    (py_float : string -> option float)
    (float_pow : float -> float -> res float)
    (ind : indicator) :
  let read_official_data := read_official_data py_float float_pow ind in
  (forall e, read_official_data (Some (Raise e)) = Raise e)
  /\ (forall file e,
        read_official_data file = Raise e ->
        file = Some (Raise e)
        \/ (exists all_rows,
              file = Some (Ok all_rows)
              /\ List.filter has_value all_rows <> []
              /\ frequency ind <> "Quarterly"
              /\ frequency ind <> "Daily"
              /\ (exists x, float_pow x 12%float = Raise e)
              /\ e <> KeyError /\ e <> ValueError /\ e <> TypeError))
  /\ read_official_data None = Ok None
  /\ (forall all_rows,
        List.filter has_value all_rows = [] ->
        read_official_data (Some (Ok all_rows)) = Ok None).
Proof.
  intros read. subst read. split; [reflexivity|]. split; [|split].
  - intros file e. unfold read_official_data.
    destruct file as [[all_rows|e0]|]; [| intros [= ->]; now left | discriminate].
    cbn [Py.bind].
    destruct (List.filter has_value all_rows) as [|r0 rows] eqn:Hrows;
      [discriminate|].
    intros H. apply catch_to_none_raises in H as (H & HK & HV & HT).
    apply (official_body_only py_float float_pow ind (r0 :: rows)) in H;
      [|discriminate].
    destruct H as [-> | [-> | [-> | (Hq & Hd & Hx)]]]; try congruence.
    right. exists all_rows. rewrite Hrows.
    repeat split; try assumption; discriminate.
  - reflexivity.
  - intros all_rows Hrows. unfold read_official_data. cbn [Py.bind].
    now rewrite Hrows.
Qed.

Lemma read_official_raises_witness :
  read_official_data Instances.float_of_decimal Instances.float_pow
    Samples.growth_indicator (Some (Ok Samples2.rows_overflow))
  = Raise OverflowError
  /\ (exists x, Instances.float_pow x 12%float = Raise OverflowError)
  /\ read_official_data Instances.float_of_decimal Instances.float_pow
       Samples.growth_indicator (Some (Raise CsvError))
     = Raise CsvError.
Proof.
  pose proof (read_official_raises Instances.float_of_decimal
                Instances.float_pow Samples.growth_indicator) as H.
  cbv zeta in H. destruct H as (Hread & Hbody & _).
  split; [reflexivity|]. split; [|apply Hread].
  destruct (Hbody (Some (Ok Samples2.rows_overflow)) OverflowError eq_refl)
    as [H | (rows & _ & _ & _ & _ & Hx & _)]; [discriminate H | exact Hx].
Defined.

Lemma growth_pct_change (py_float : string -> option float) (a b : float) :
  growth a b = Ok (pct_change a b).
Proof. unfold growth. apply StrategyBlocks.pct_change_run. Qed.

(** X19. [read_official_data] on a quarterly indicator whose latest row
    has a date with a month and whose needed values are numbers. The
    growth over the previous quarter needs two rows and the growth over
    the year five, the row four quarters back. An indicator in dollars
    shows its level with the growth over the year beside it; any other
    indicator shows the growth over the year and, while fewer than five
    rows are there, falls back to the growth over the quarter. *)
Theorem quarterly_value_fallback
    (py_float : string -> option float)
    (float_pow : float -> float -> res float)
    (ind : indicator) (all_rows : list row) (lr : row) (d : string)
    (m : Z) (lv : float) (qoq yoy : option float) :
  let rows := List.filter has_value all_rows in
  frequency ind = "Quarterly" ->
  last rows = Some lr ->
  lr !! "date" = Some (Some d) ->
  Py.int (slice 5 7 d) = Ok m ->
  value_at py_float rows (-1) = Ok lv ->
  (if 2 <=? len rows
   then exists pv, value_at py_float rows (-2) = Ok pv
                   /\ qoq = Some (pct_change lv pv)
   else qoq = None) ->
  (if 5 <=? len rows
   then exists ya, value_at py_float rows (-5) = Ok ya
                   /\ yoy = Some (pct_change lv ya)
   else yoy = None) ->
  read_official_data py_float float_pow ind (Some (Ok all_rows))
  = Ok (Some
          (if is_dollar_unit (unit ind) then
             {| date := Some d;
                period := Some (slice 0 4 d ++ "-Q" ++ str ((m - 1) / 3 + 1));
                value := Some lv; secondary := yoy; absolute := lv;
                extra := Some ("yoy_growth", yoy) |}
           else
             {| date := Some d;
                period := Some (slice 0 4 d ++ "-Q" ++ str ((m - 1) / 3 + 1));
                value := match yoy with Some g => Some g | None => qoq end;
                secondary := qoq; absolute := lv; extra := None |})).
Proof.
  intros rows Hf Hl Hd Hm Hlv Hq Hy.
  unfold read_official_data. cbn [Py.bind]. fold rows.
  destruct rows as [|r0 rows'] eqn:Hrows; [discriminate|]. rewrite <- Hrows in *.
  clear Hrows r0 rows'.
  assert (Hbody : official_body py_float float_pow ind rows
                  = Ok (Some
          (if is_dollar_unit (unit ind) then
             {| date := Some d;
                period := Some (slice 0 4 d ++ "-Q" ++ str ((m - 1) / 3 + 1));
                value := Some lv; secondary := yoy; absolute := lv;
                extra := Some ("yoy_growth", yoy) |}
           else
             {| date := Some d;
                period := Some (slice 0 4 d ++ "-Q" ++ str ((m - 1) / 3 + 1));
                value := match yoy with Some g => Some g | None => qoq end;
                secondary := qoq; absolute := lv; extra := None |}))).
  { unfold official_body.
    pose proof Hlv as Hlv'. unfold value_at in Hlv'.
    rewrite StrategyFacts.getitem_minus_one, Hl in Hlv' |- *. cbn [Py.bind] in *.
    destruct (cell lr "value") as [cv|]; [|discriminate Hlv'].
    cbn [Py.bind] in *. rewrite Hlv'. cbn [Py.bind].
    unfold cell at 1. rewrite Hd. cbn [Py.bind]. unfold official_dated.
    rewrite Hf. cbn [String.eqb Ascii.eqb Bool.eqb]. cbn [slice_of Py.bind]. rewrite Hm. cbn [Py.bind].
    assert (Hqq : (if 2 <=? len rows
                   then prev_value <- value_at py_float rows (-2);;
                        g <- growth lv prev_value;; Ok (Some g)
                   else Ok None) = Ok qoq).
    { destruct (2 <=? len rows); [|now subst].
      destruct Hq as (pv & -> & ->). cbn [Py.bind].
      now rewrite (growth_pct_change py_float). }
    assert (Hyy : (if 5 <=? len rows
                   then year_ago_value <- value_at py_float rows (-5);;
                        g <- growth lv year_ago_value;; Ok (Some g)
                   else Ok None) = Ok yoy).
    { destruct (5 <=? len rows); [|now subst].
      destruct Hy as (ya & -> & ->). cbn [Py.bind].
      now rewrite (growth_pct_change py_float). }
    rewrite Hqq. cbn [Py.bind]. rewrite Hyy. cbn [Py.bind].
    destruct (is_dollar_unit (unit ind)); reflexivity. }
  rewrite Hbody. reflexivity.
Qed.

Lemma quarterly_value_fallback_witness :
  read_official_data Instances.float_of_decimal Instances.float_pow
    (mkindicator "Quarterly" "% y/y") (Some (Ok Samples2.quarterly_rows))
  = Ok (Some {| date := Some "2025-01-01"; period := Some "2025-Q1";
                value := Some (pct_change 121 110);
                secondary := Some (pct_change 121 110);
                absolute := 121; extra := None |}).
Proof.
  apply (quarterly_value_fallback Instances.float_of_decimal Instances.float_pow
           (mkindicator "Quarterly" "% y/y") Samples2.quarterly_rows
           (Samples.csv_row "2025-01-01" "121") "2025-01-01" 1 121%float
           (Some (pct_change 121 110)) None);
    try reflexivity.
  exists 110%float. split; reflexivity.
Defined.

(** *** The chart and the card read the same file *)

Section Agreement.

Variable py_float : string -> option float.
Variable float_pow : float -> float -> res float.

Lemma official_body_latest (ind : indicator) (rows : list row) (r : official) :
  official_body py_float float_pow ind rows = Ok (Some r) ->
  exists lr lv,
    last rows = Some lr /\ lr !! "value" = Some (Some lv)
    /\ py_float lv = Some (absolute r) /\ lr !! "date" = Some (date r).
Proof.
  unfold official_body. intros H.
  destruct (getitem rows (-1)) as [lr|] eqn:Hl; cbn [Py.bind] in H; [|discriminate H].
  apply StrategyBlocks.last_getitem in Hl.
  unfold cell at 1 in H.
  destruct (lr !! "value") as [[lv|]|] eqn:Hv; cbn [Py.bind to_float] in H;
    try discriminate H.
  destruct (py_float lv) as [x|] eqn:Hx; cbn [Py.bind] in H; [|discriminate H].
  unfold cell at 1 in H.
  destruct (lr !! "date") as [d|] eqn:Hd; cbn [Py.bind] in H; [|discriminate H].
  exists lr, lv.
  assert (Hr : absolute r = x /\ date r = d).
  { unfold official_dated in H. cbv zeta in H.
    ResultFacts.invert_run; subst r; split; reflexivity. }
  destruct Hr as [-> ->]. auto.
Qed.

Lemma last_filter_split {A} (f : A -> bool) (l : list A) (x : A) :
  last (List.filter f l) = Some x ->
  exists pre post,
    l = (pre ++ x :: post)%list /\ f x = true
    /\ Forall (fun y => f y = false) post.
Proof.
  induction l as [|a l IH]; cbn [List.filter]; [discriminate|].
  destruct (f a) eqn:Ha.
  - rewrite last_cons. destruct (last (List.filter f l)) as [y|] eqn:Hl.
    + intros [= ->]. destruct (IH eq_refl) as (pre & post & -> & Hx & Hp).
      exists (a :: pre), post. auto.
    + intros [= ->]. exists [], l. split; [reflexivity|]. split; [exact Ha|].
      apply last_None in Hl. apply Forall_forall. intros y Hy.
      destruct (f y) eqn:Hfy; [|reflexivity]. exfalso.
      assert (Hin : y ∈ List.filter f l).
      { apply list_elem_of_In, filter_In. split; [now apply list_elem_of_In | exact Hfy]. }
      rewrite Hl in Hin. inversion Hin.
  - intros H. destruct (IH H) as (pre & post & -> & Hx & Hp).
    exists (a :: pre), post. auto.
Qed.

Lemma chart_row_blank (r : row) : has_value r = false -> chart_row py_float r = [].
Proof.
  unfold has_value, chart_row.
  destruct (r !! "value") as [[v|]|]; cbn [default from_option id].
  - intros H. destruct (default (Some "") (r !! "date")); [|reflexivity].
    rewrite <- andb_assoc, H, andb_false_r. reflexivity.
  - intros _. destruct (default (Some "") (r !! "date")); reflexivity.
  - intros _. destruct (default (Some "") (r !! "date")); [|reflexivity].
    cbn [nonempty]. rewrite andb_false_r. reflexivity.
Qed.

Lemma chart_rows_blank (rows : list row) :
  Forall (fun r => has_value r = false) rows ->
  concat (List.map (chart_row py_float) rows) = [].
Proof.
  induction 1 as [|r rows Hr _ IH]; [reflexivity|].
  cbn [List.map concat]. now rewrite (chart_row_blank r Hr), IH.
Qed.

(** X20. The chart and the card agree on the latest point. Whenever
    [read_official_data] returns a block whose date is not empty,
    [read_chart_history] of the same file returns a history that ends
    with the point of that date, and its value is the block's absolute
    value. *)
Theorem chart_ends_at_official (ind : indicator) (all_rows : list row)
    (r : official) (d : string) :
  read_official_data py_float float_pow ind (Some (Ok all_rows)) = Ok (Some r) ->
  date r = Some d ->
  d <> "" ->
  exists history,
    read_chart_history py_float (Some (Ok all_rows)) = Ok history
    /\ last history = Some (mkchart d (absolute r)).
Proof.
  unfold read_official_data, read_chart_history. cbn [Py.bind].
  intros H Hdate Hd0. eexists. split; [reflexivity|].
  destruct (List.filter has_value all_rows) as [|r0 rows] eqn:Hrows; [discriminate|].
  apply (proj1 (catch_to_none_Some _ _)) in H.
  apply official_body_latest in H as (lr & lv & Hl & Hv & Hx & Hd).
  rewrite <- Hrows in Hl.
  apply last_filter_split in Hl as (pre & post & -> & Hk & Hpost).
  rewrite List.map_app, concat_app. cbn [List.map concat].
  rewrite (chart_rows_blank post Hpost), app_nil_r.
  assert (Hrow : chart_row py_float lr = [mkchart d (absolute r)]).
  { unfold chart_row. rewrite Hd, Hv, Hdate. cbn [default from_option id].
    unfold has_value in Hk. rewrite Hv in Hk. rewrite <- andb_assoc, Hk, andb_true_r.
    destruct d; [congruence|]. cbn [nonempty]. now rewrite Hx. }
  rewrite Hrow. apply last_snoc.
Qed.

End Agreement.

Lemma chart_ends_at_official_witness :
  exists history,
    read_chart_history Instances.float_of_decimal
      (Some (Ok Samples2.quarterly_rows)) = Ok history
    /\ last history = Some (mkchart "2025-01-01" 121).
Proof.
  apply (chart_ends_at_official Instances.float_of_decimal Instances.float_pow
           (mkindicator "Quarterly" "% y/y") Samples2.quarterly_rows
           {| date := Some "2025-01-01"; period := Some "2025-Q1";
              value := Some (pct_change 121 110);
              secondary := Some (pct_change 121 110);
              absolute := 121; extra := None |} "2025-01-01");
    [reflexivity | reflexivity | discriminate].
Defined.

End OfficialFacts.

(** ** Further properties: [fetch_official_data.py] *)

Module OfficialFetchFacts.
Import FetchMinisterData FetchOfficialData Props Props2 FetchedSeries.

Lemma sort_by_date_nil (l : list observation) : sort_by_date l = [] <-> l = [].
Proof.
  split; [|now intros ->]. intros H.
  apply Permutation_nil. rewrite <- H. apply sort_by_date_perm.
Qed.

Lemma read_points_nil : read_points [] = Ok [].
Proof. reflexivity. Qed.

Ltac no_series :=
  split;
  [ let H := fresh in intros H; discriminate H
  | let H1 := fresh in
    let H2 := fresh in
    intros (H1 & H2); discriminate H1 ].

(** One request of [fetch_indicator_data], read as a pass of the body of
    [fetch_vector]. *)
Lemma fetch_body_pass (r : res response) (w0 w1 : world)
    (data : list observation) :
  (match
     (match r with
      | Raise e => Raise e
      | Ok response =>
          if negb (status_code response =? 200) then Ok None
          else
            result <- json response;;
            match result with
            | [] => Ok None
            | response_item :: _ =>
                if bool_decide (status response_item = Some "FAILED") then Ok None
                else
                  match vectorDataPoint response_item with
                  | [] => Ok None
                  | p :: ps =>
                      data <- read_points (p :: ps);;
                      match data with
                      | [] => Ok None
                      | _ => Ok (Some (sort_by_date data))
                      end
                  end
            end
      end, w0)
   with
   | (Ok x, w') => (x, w')
   | (Raise _, w') => (None, w')
   end) = (Some data, w1)
  <-> try_body r = Returned (Some data) /\ w1 = w0.
Proof.
  unfold try_body.
  destruct r as [resp|e]; [|no_series].
  destruct (negb (status_code resp =? 200)); [no_series|].
  destruct (json resp) as [[|it rest]|e]; cbn [Py.bind]; try no_series.
  destruct (bool_decide (status it = Some "FAILED")); [no_series|].
  destruct (vectorDataPoint it) as [|p ps] eqn:Hps; [cbn; no_series|].
  destruct (read_points (p :: ps)) as [pts|e]; cbn [Py.bind]; [|no_series].
  destruct pts as [|o l]; [cbn; no_series|].
  destruct (sort_by_date (o :: l)) as [|d ds] eqn:Hs.
  { apply (proj1 (sort_by_date_nil _)) in Hs. discriminate Hs. }
  split.
  - intros [= <- <-]. auto.
  - intros [[= <-] ->]. reflexivity.
Qed.

Lemma fetch_indicator_data_sent (net : Z -> Z -> nat -> res response)
    (i : info) (w : world) (vid : Z) :
  int (remove_v (vector i)) = Ok vid ->
  fetch_indicator_data net i w
  = (match try_body (net vid (info_periods i) (posts w)) with
     | Returned x => x
     | BadStatus | Raised _ => None
     end, {| posts := S (posts w); slept := slept w |}).
Proof.
  intros Hid. unfold fetch_indicator_data, fetch_body, post, try_body.
  rewrite Hid.
  destruct (net vid (info_periods i) (posts w)) as [resp|e]; [|reflexivity].
  destruct (negb (status_code resp =? 200)); [reflexivity|].
  destruct (json resp) as [[|it rest]|e]; cbn [Py.bind]; try reflexivity.
  destruct (bool_decide (status it = Some "FAILED")); [reflexivity|].
  destruct (vectorDataPoint it) as [|p ps] eqn:Hps; [reflexivity|].
  destruct (read_points (p :: ps)) as [pts|e]; cbn [Py.bind]; [|reflexivity].
  destruct pts as [|o l]; [reflexivity|].
  destruct (sort_by_date (o :: l)) as [|d ds] eqn:Hs; [|reflexivity].
  apply (proj1 (sort_by_date_nil _)) in Hs. discriminate Hs.
Qed.

(** X21. The two fetchers read an answer alike. [fetch_indicator_data]
    returns a series exactly when the one request it sends is answered and
    one pass of the body of [fetch_vector] over that answer returns the
    same series. For an id that is a number it sends that request once,
    whatever the answer, and returns what the pass returns, [None] for a
    bad status and for an exception: no retry and no sleep. For an id that
    is no number it sends nothing and returns [None]. *)
Theorem official_fetch_agrees
    (net : Z -> Z -> nat -> res response) (i : info) (w : world) :
  let sent := {| posts := S (posts w); slept := slept w |} in
  (forall data w1,
      fetch_indicator_data net i w = (Some data, w1)
      <-> exists vid,
            int (remove_v (vector i)) = Ok vid
            /\ try_body (net vid (info_periods i) (posts w))
               = Returned (Some data)
            /\ w1 = sent)
  /\ (forall vid,
        int (remove_v (vector i)) = Ok vid ->
        fetch_indicator_data net i w
        = (match try_body (net vid (info_periods i) (posts w)) with
           | Returned x => x
           | BadStatus | Raised _ => None
           end, sent))
  /\ (forall e,
        int (remove_v (vector i)) = Raise e ->
        fetch_indicator_data net i w = (None, w))
  /\ slept (snd (fetch_indicator_data net i w)) = slept w
  /\ (posts (snd (fetch_indicator_data net i w)) <= S (posts w))%nat.
Proof.
  intros sent. subst sent.
  assert (Hno : forall e, int (remove_v (vector i)) = Raise e ->
                          fetch_indicator_data net i w = (None, w)).
  { intros e He. unfold fetch_indicator_data, fetch_body. now rewrite He. }
  split; [|split; [|split; [exact Hno|]]].
  - intros data w1. unfold fetch_indicator_data, fetch_body, post.
    destruct (int (remove_v (vector i))) as [vid|e] eqn:Hid.
    + rewrite fetch_body_pass. split.
      * intros [H ->]. exists vid. auto.
      * intros (v & [= <-] & H & ->). auto.
    + split; [intros H; discriminate H | intros (v & H & _); discriminate H].
  - intros vid Hid. exact (fetch_indicator_data_sent net i w vid Hid).
  - destruct (int (remove_v (vector i))) as [vid|e] eqn:Hid.
    + rewrite (fetch_indicator_data_sent net i w vid Hid). cbn. split; [reflexivity|lia].
    + rewrite (Hno e eq_refl). cbn. split; [reflexivity|lia].
Qed.

Lemma official_fetch_agrees_witness :
  fetch_indicator_data Samples2.monthly_answer
    (mkinfo "v41690973" "CPI" 60) (mkworld 0 [])
  = (match try_body (Samples2.monthly_answer 41690973 60 0%nat) with
     | Returned x => x
     | BadStatus | Raised _ => None
     end, mkworld 1 [])
  /\ fetch_indicator_data Samples2.monthly_answer
       (mkinfo "vector" "CPI" 60) (mkworld 0 [])
     = (None, mkworld 0 []).
Proof.
  pose proof (official_fetch_agrees Samples2.monthly_answer
                (mkinfo "v41690973" "CPI" 60) (mkworld 0 [])) as H1.
  pose proof (official_fetch_agrees Samples2.monthly_answer
                (mkinfo "vector" "CPI" 60) (mkworld 0 [])) as H2.
  cbv zeta in H1, H2.
  destruct H1 as (_ & H1 & _). destruct H2 as (_ & _ & H2 & _).
  split; [exact (H1 41690973 eq_refl) | exact (H2 ValueError eq_refl)].
Defined.

Section WithFiles.

Variable net : Z -> Z -> nat -> res response.
Variable float_str : float -> string.
Variable writable : string -> bool.
Variable after_failure :
  string -> gmap string (list BuildSite.row) -> gmap string (list BuildSite.row).

Lemma fetch_indicator_data_world (i : info) (w : world) :
  let w1 := snd (fetch_indicator_data net i w) in
  slept w1 = slept w /\ (posts w <= posts w1 <= S (posts w))%nat.
Proof.
  unfold fetch_indicator_data, fetch_body, post.
  destruct (int (remove_v (vector i))); cbn; [|split; [reflexivity | lia]].
  match goal with
  | |- context [match ?m with Ok _ => _ | Raise _ => _ end] => destruct m
  end; cbn; (split; [reflexivity | lia]).
Qed.

Lemma main_loop_tally (vector_map : list (string * info)) (t t' : tally)
    (files files' : gmap string (list BuildSite.row)) (w w' : world) :
  main_loop net float_str writable after_failure vector_map t files w
  = (t', files', w') ->
  (success_count t' + fail_count t' = success_count t + fail_count t + length vector_map)%nat
  /\ (success_count t'
      <= success_count t + length (List.filter (fun ki => writable ki.1) vector_map))%nat
  /\ slept w' = (slept w ++ replicate (length vector_map) 2)%list
  /\ (posts w <= posts w' <= posts w + length vector_map)%nat.
Proof.
  revert t files w. induction vector_map as [|[key i] rest IH]; intros t files w;
    cbn [main_loop].
  - intros [= <- <- <-]. cbn. rewrite app_nil_r. repeat split; auto; lia.
  - pose proof (fetch_indicator_data_world i w) as Hw. cbv zeta in Hw.
    destruct (fetch_indicator_data net i w) as [data w1]. cbn [snd] in Hw.
    destruct Hw as [Hs Hp].
    cbn [List.filter fst].
    destruct data as [[|o l]|]; cbn [save_indicator_data];
      destruct (writable key) eqn:Hwr; cbv beta iota;
      intros H; apply IH in H as (Ht & Hsu & Hsl & Hpo);
      cbn [sleep posts slept length success_count fail_count] in *;
      rewrite Hsl, Hs, <- app_assoc; cbn [replicate app];
      (split; [lia|]; split; [lia|]; split; [reflexivity | lia]).
Qed.

End WithFiles.

(** X22. [main] of [fetch_official_data.py] counts every indicator once,
    as a success or as a failure, and as a success only when its file
    could be written; it sleeps 2 seconds after each indicator and nothing
    else, and sends at most one request per indicator. *)
Theorem official_main_tally
    (net : Z -> Z -> nat -> res response) (float_str : float -> string)
    (writable : string -> bool)
    (after_failure :
       string -> gmap string (list BuildSite.row) -> gmap string (list BuildSite.row))
    (vector_map : list (string * info))
    (files files' : gmap string (list BuildSite.row)) (w w' : world) (t : tally) :
  main net float_str writable after_failure vector_map files w = (t, files', w') ->
  (success_count t + fail_count t = length vector_map)%nat
  /\ (success_count t
      <= length (List.filter (fun ki => writable ki.1) vector_map))%nat
  /\ slept w' = (slept w ++ replicate (length vector_map) 2)%list
  /\ (posts w <= posts w' <= posts w + length vector_map)%nat.
Proof.
  unfold main. intros H.
  apply main_loop_tally in H as (Hc & Hsu & Hs & Hp).
  cbn [success_count fail_count] in Hc, Hsu. repeat split; auto; lia.
Qed.

Lemma official_main_tally_witness :
  (1 + 1 = length Samples2.two_indicators)%nat
  /\ (1 <= length (List.filter (fun _ => true) Samples2.two_indicators))%nat
  /\ [2; 2] = ([] ++ replicate (length Samples2.two_indicators) 2)%list
  /\ (0 <= 1 <= 0 + length Samples2.two_indicators)%nat.
Proof.
  exact (official_main_tally Samples2.monthly_answer
           (Instances.str_format "{:.1f}") (fun _ => true) (fun _ files => files)
           Samples2.two_indicators ∅ Samples2.two_files (mkworld 0 []) (mkworld 1 [2; 2])
           {| success_count := 1; fail_count := 1 |} eq_refl).
Defined.

End OfficialFetchFacts.

(** ** Further properties: the formatting and the cards of [build_site.py] *)

Module DisplayFacts.
Import BuildSite Display Props2.

(** X23. [format_value] returns a text for every value, unit and choice
    of arrow: the chain of tests under the units ["% y/y"],
    ["% annualized"] and ["pp"] covers the three of them, so no call falls
    off the end of the function. *)
Theorem format_value_total (str_format : string -> float -> string)
    (val : option float) (unit : string) (use_arrow : bool) :
  exists s, format_value str_format val unit use_arrow = Some s.
Proof.
  unfold format_value. destruct val as [val|]; [|eauto].
  destruct (String.eqb unit "% y/y") eqn:E1,
           (String.eqb unit "% annualized") eqn:E2,
           (String.eqb unit "pp") eqn:E3; cbn [orb];
    repeat match goal with
           | |- context [if ?b then _ else _] => destruct b
           end; eauto.
Qed.

Lemma block_json_lookups (l : FetchMinisterData.latest) :
  block_json l <> ∅
  /\ block_json l !! "value" = Some (FetchMinisterData.out_value l)
  /\ block_json l !! "detail" = Some (FetchMinisterData.detail l)
  /\ block_json l !! "detail_color" = Some (FetchMinisterData.detail_color l)
  /\ block_json l !! "period" = Some (FetchMinisterData.period l).
Proof.
  unfold block_json. split; [apply insert_non_empty|].
  repeat split; simplify_map_eq; reflexivity.
Qed.

Section WithTables.

Variable str_format : string -> float -> string.
Variable INDICATORS : gmap string indicator.

(** X24. A block that [fetch_minister_data.py] wrote for the key of a
    metric is what the card of the metric shows, field by field, whatever
    the metric has hard-coded and whatever the indicator files hold. *)
Theorem fresh_block_shown (results : gmap string FetchMinisterData.latest)
    (m : metric) (all_data : gmap string (option official))
    (l : FetchMinisterData.latest) :
  results !! key m = Some l ->
  _minister_card_display str_format INDICATORS (block_json <$> results) m all_data
  = Ok {| value_str := FetchMinisterData.out_value l;
          detail_line := FetchMinisterData.detail l;
          growth_color := FetchMinisterData.detail_color l;
          period_str := Some (FetchMinisterData.period l) |}.
Proof.
  intros H. unfold _minister_card_display. rewrite lookup_fmap, H. cbn [fmap option_fmap option_map].
  destruct (block_json_lookups l) as (Hne & Hv & Hd & Hc & Hp).
  unfold truthy_block. rewrite (bool_decide_eq_false_2 _ Hne). cbn [negb].
  unfold block_card. rewrite Hv, Hd, Hc, Hp. reflexivity.
Qed.

Variable MINISTER_FRESH_DATA : gmap string (gmap string string).

Lemma block_card_raises (b : gmap string string) (e : exn) :
  block_card b = Raise e -> e = KeyError /\ b !! "value" = None.
Proof.
  unfold block_card. destruct (b !! "value"); [discriminate|]. now intros [= <-].
Qed.

Lemma truthy_block_Some (o : option (gmap string string)) :
  truthy_block o = true -> exists b, o = Some b /\ b <> ∅.
Proof.
  destruct o as [b|]; [|discriminate]. cbn. intros H. exists b. split; [reflexivity|].
  apply negb_true_iff, bool_decide_eq_false in H. exact H.
Qed.

Lemma arrow_text_nonempty (x : float) (s : string) : arrow_of x ++ s <> "".
Proof. unfold arrow_of. destruct (fge x 0%float); discriminate. Qed.

Lemma sentiment_nonempty (k : string) (x : option float) :
  get_change_sentiment k x <> ""
  /\ get_change_sentiment k x ∈ ["positive"; "negative"; "neutral"].
Proof.
  unfold get_change_sentiment. destruct x as [x|].
  - repeat match goal with
           | |- context [if ?b then _ else _] => destruct b
           end; (split; [discriminate | set_solver]).
  - split; [discriminate | set_solver].
Qed.

(** X25. What [_minister_card_display] can do. It raises nothing but
    [KeyError], and only when the block it shows, the fetched one or else
    the hard-coded one, is not empty and has no ["value"]. Without a block
    to show it never raises: the card is either the placeholder, a dash
    with the colour ["neutral"], or a card made from the indicator, and on
    such a card the detail is empty exactly when the colour is empty, the
    colour being otherwise ["positive"], ["negative"] or ["neutral"]. *)
Theorem card_display_outcome (m : metric)
    (all_data : gmap string (option official)) :
  let shown := _minister_card_display str_format INDICATORS MINISTER_FRESH_DATA
                 m all_data in
  (forall e, shown = Raise e ->
     e = KeyError
     /\ exists b, b <> ∅ /\ b !! "value" = None
                  /\ (MINISTER_FRESH_DATA !! key m = Some b
                      \/ (truthy_block (MINISTER_FRESH_DATA !! key m) = false
                          /\ hardcoded m = Some b)))
  /\ (truthy_block (MINISTER_FRESH_DATA !! key m) = false ->
      truthy_block (hardcoded m) = false ->
      exists c, shown = Ok c
                /\ (c = no_card
                    \/ ((detail_line c = "" <-> growth_color c = "")
                        /\ growth_color c
                           ∈ [""; "positive"; "negative"; "neutral"]))).
Proof.
  intros shown. subst shown. unfold _minister_card_display. split.
  - intros e.
    destruct (truthy_block (MINISTER_FRESH_DATA !! key m)) eqn:Hf.
    + apply truthy_block_Some in Hf as (b & -> & Hne). intros H.
      apply block_card_raises in H as [-> Hv]. split; [reflexivity|].
      exists b. auto.
    + destruct (truthy_block (hardcoded m)) eqn:Hh.
      * apply truthy_block_Some in Hh as (b & -> & Hne). intros H.
        apply block_card_raises in H as [-> Hv]. split; [reflexivity|].
        exists b. auto.
      * repeat match goal with
               | |- context [match ?x with _ => _ end] => destruct x
               end; discriminate.
  - intros -> ->.
    destruct (METRIC_TO_INDICATOR !! key m) as [ind_key|]; [|eauto].
    destruct (negb (nonempty ind_key)); [eauto|].
    destruct (all_data !! ind_key) as [[data|]|]; [| eauto | eauto].
    destruct (INDICATORS !! ind_key) as [ind|]; [|eauto].
    destruct (value data) as [val|]; [|eauto].
    pose proof (sentiment_nonempty ind_key) as Hsent.
    assert (Hcase : forall (d : string) (x : float),
              d <> "" ->
              (d = "" <-> get_change_sentiment ind_key (Some x) = "")
              /\ get_change_sentiment ind_key (Some x)
                 ∈ [""; "positive"; "negative"; "neutral"]).
    { intros d x Hd. destruct (Hsent (Some x)) as [Hn Hin]. split.
      - split; intros ?; contradiction.
      - now right. }
    assert (Hnone : ("" = "" <-> "" = "")
                    /\ "" ∈ [""; "positive"; "negative"; "neutral"]).
    { split; [tauto | now left]. }
    destruct (String.eqb (unit ind) "%").
    { destruct (get_extra data "yoy_pp_change") as [x|]; eexists; (split; [reflexivity|]);
        right; cbn [detail_line growth_color]; [|exact Hnone].
      apply Hcase, arrow_text_nonempty. }
    destruct (String.eqb (unit ind) "C$ millions").
    { destruct (get_extra data "yoy_change_millions") as [x|]; eexists;
        (split; [reflexivity|]); right; cbn [detail_line growth_color]; [|exact Hnone].
      apply Hcase, arrow_text_nonempty. }
    destruct (is_dollar_unit (unit ind)).
    { destruct (get_extra data "yoy_growth") as [x|]; eexists; (split; [reflexivity|]);
        right; cbn [detail_line growth_color]; [|exact Hnone].
      apply Hcase, arrow_text_nonempty. }
    eexists. split; [reflexivity|]. right. cbn [detail_line growth_color].
    apply Hcase. unfold format_value, arrow_of. cbn.
    match goal with
    | |- context [if ?b then _ else _] => destruct b
    end; discriminate.
Qed.

End WithTables.

Lemma fresh_block_shown_witness :
  _minister_card_display Instances.str_format ∅
    (block_json <$> MinisterMain.metrics Samples2.small_doc)
    (mkmetric "rate" None) ∅
  = Ok {| value_str := "125.0%"; detail_line := "↑ 25.0 pp year over year";
          growth_color := "negative"; period_str := Some "2025-01" |}.
Proof.
  exact (fresh_block_shown Instances.str_format ∅
           (MinisterMain.metrics Samples2.small_doc) (mkmetric "rate" None) ∅
           Samples2.rate_block eq_refl).
Defined.

End DisplayFacts.
